(** * Bi-encoder retrieval model: target construction, pooling and losses

    A shallow embedding of [bi-encode/modeling.py] (classes [DensePooler],
    [BiEncoderModel] and [MultiBiEncoderModel]) together with the properties
    its specification states about it.

    Conventions of the embedding.
    - A float tensor holds real numbers: PyTorch's float arithmetic is
      idealised as arithmetic over [R].  Rounding, infinities and NaN are not
      represented; statements that would meet them (a mean over no element,
      a division by a zero count) carry the hypothesis that excludes them.
      Where the code branches on an exact comparison of computed floats,
      the zero test of the ['multi-softmax'] loss, the library function
      that computes them is a parameter of the embedding.
    - A tensor is a nested list in row-major order: [list R] for one axis,
      [list (list R)] for two, one more [list] for a batch axis.  PyTorch
      tensors are rectangular; theorems state the shapes they rely on.
      Operations that PyTorch refuses on operands of unequal sizes raise
      here as well, and operations that broadcast an axis of size 1
      broadcast here.  A list of rows does not record the length of the
      rows of a tensor that has no row; sizes are compared on the rows that
      are there.
    - An [int64] tensor holds [Z] values and every arithmetic operation on it
      is followed by the two's-complement wrap [wrap64].
    - A Python call either returns or raises: [result].  A Python value that
      may be [None] is an [option].
    - Autograd is tracked by one flag per tensor, [requires_grad], combined
      with [||] by every differentiable operation, as PyTorch does. *)

From stdpp Require Import base list strings.
From Stdlib Require Import ZArith Reals Lra Lia.

Set Default Proof Using "Type".

(** ** Python results *)

Inductive exn : Type :=
  | ValueError
  | AssertionError
  | RuntimeError
  | IndexError
  | ZeroDivisionError
  | AttributeError.

Inductive result (A : Type) : Type :=
  | Ok (a : A)
  | Raise (e : exn).
Arguments Ok {A} a.
Arguments Raise {A} e.

Definition bind {A B : Type} (r : result A) (k : A -> result B) : result B :=
  match r with
  | Ok a => k a
  | Raise e => Raise e
  end.

Notation "'let!' x ':=' r 'in' k" := (bind r (fun x => k))
  (at level 10, x pattern, r at level 100, k at level 200).

Definition raises {A : Type} (r : result A) : Prop := exists e, r = Raise e.

(** ** 64-bit integers *)

Definition wrap64 (z : Z) : Z := ((z + 2 ^ 63) mod 2 ^ 64 - 2 ^ 63)%Z.

Definition int64_max : Z := (2 ^ 63 - 1)%Z.

(** ** Tensors *)

Abbreviation vec := (list R).
Abbreviation matrix := (list (list R)).

Record tensor (A : Type) : Type := Tensor {
  data : A;
  requires_grad : bool
}.
Arguments Tensor {A} data requires_grad.
Arguments data {A} t.
Arguments requires_grad {A} t.

(** The size of axis 1 of a two-axis tensor; the list of rows of a tensor
    with no row does not record it and 0 stands for it. *)
Definition size1 {A : Type} (m : list (list A)) : nat :=
  match m with
  | [] => 0
  | r :: _ => length r
  end.

Module Torch.

(** [torch.sum] over one axis. *)
Definition sum (v : vec) : R := foldr Rplus 0%R v.

(** [torch.arange(n)] with dtype [int64]. *)
Definition arange (n : nat) : list Z := Z.of_nat <$> seq 0 n.

(** [torch.zeros_like] on a two-axis tensor. *)
Definition zeros_like (m : matrix) : matrix :=
  (fun row => replicate (length row) 0%R) <$> m.

(** One row of [Tensor.scatter_(1, index, src)]:
    [row[index[j]] = src[j]] for every [j], in order.  An index outside
    [[0, len(row))], or an index row longer than the source row, is a
    [RuntimeError]. *)
Fixpoint scatter_row (row : vec) (index : list Z) (src : vec) : result vec :=
  match index with
  | [] => Ok row
  | k :: index' =>
      match src with
      | [] => Raise RuntimeError
      | v :: src' =>
          if ((0 <=? k)%Z && (k <? Z.of_nat (length row))%Z)%bool
          then scatter_row (<[Z.to_nat k := v]> row) index' src'
          else Raise RuntimeError
      end
  end.

(** [self.scatter_(1, index, src)]: rows of [self] beyond those of [index]
    are left as they are; [index] may not have more rows than [self] or
    [src]. *)
Fixpoint scatter_ (self : matrix) (index : list (list Z)) (src : matrix)
  : result matrix :=
  match index with
  | [] => Ok self
  | idx :: index' =>
      match self, src with
      | row :: self', s :: src' =>
          let! row' := scatter_row row idx s in
          let! rest := scatter_ self' index' src' in
          Ok (row' :: rest)
      | _, _ => Raise RuntimeError
      end
  end.

(** [torch.mean] over every element of a flat tensor. *)
Definition mean (v : vec) : R := (sum v / INR (length v))%R.

(** Inner product of two vectors of one length.  The operations built
    on it, [matmul] and [nn.Linear], compare the lengths before any
    product is formed and raise when they differ. *)
Definition dot (u v : vec) : R := sum (zip_with Rmult u v).

(** The entries of [a b^T] for two-axis tensors whose rows have one
    length: entry (i, j) is the inner product of row i of [a] and row j
    of [b]. *)
Definition matmul_transposed (a b : matrix) : matrix :=
  (fun ai => (fun bj => dot ai bj) <$> b) <$> a.

(** Whether the rows of [a] and the rows of [b] all have one length, the
    size of the axis that [matmul] and [nn.Linear] contract. *)
Definition same_width (a b : matrix) : bool :=
  forallb (fun r => (length r =? size1 (a ++ b))%nat) (a ++ b).

(** [torch.matmul(a, b.transpose(-2, -1))] on two-axis tensors: a
    [RuntimeError] when the sizes of the contracted axis differ. *)
Definition matmul (a b : matrix) : result matrix :=
  if same_width a b then Ok (matmul_transposed a b)
  else Raise RuntimeError.

(** Broadcasting one axis of two operands: equal sizes pair up as they
    are, an axis of size 1 is repeated to the size of the other, and any
    other pair of sizes is a [RuntimeError]. *)
Definition expand {A : Type} (n : nat) (l : list A) : list A :=
  match l with
  | [x] => replicate n x
  | _ => l
  end.

Definition broadcast_axis {A B : Type} (a : list A) (b : list B)
  : result (list A * list B) :=
  if (length a =? length b)%nat then Ok (a, b)
  else if (length a =? 1)%nat then Ok (expand (length b) a, b)
  else if (length b =? 1)%nat then Ok (a, expand (length a) b)
  else Raise RuntimeError.

(** [F.softmax(x, dim=-1)] and [F.log_softmax(x, dim=-1)] on one row. *)
Definition softmax (x : vec) : vec :=
  let z := sum (exp <$> x) in (fun xi => exp xi / z)%R <$> x.

Definition log_softmax (x : vec) : vec :=
  let lse := ln (sum (exp <$> x)) in (fun xi => xi - lse)%R <$> x.

(** [torch.clamp(x, min=lo, max=hi)]. *)
Definition clamp (lo hi x : R) : R := Rmin (Rmax x lo) hi.

(** [x != 0.0] on one element.  The element is a float, and a float is
    zero exactly when the real number it stands for is, so the test is
    exact on the values it is given.  Which values a float computation
    hands to it is another matter: see [BiEncoderModel.compute_loss_with]. *)
Definition nonzero (x : R) : bool := if Req_dec_T x 0 then false else true.

(** [x > 0] on one element. *)
Definition positive (x : R) : bool := if Rlt_dec 0 x then true else false.

(** Two-axis tensors of one shape. *)
Definition same_shape (a b : matrix) : bool :=
  ((length a =? length b)%nat
   && forallb (fun p => (length p.1 =? length p.2)%nat) (zip a b))%bool.

(** [nn.CrossEntropyLoss(reduction='none')] with a float target of class
    probabilities: example i costs [- sum_c target[i][c] *
    log_softmax(input[i])[c]].  Input and target must have one shape: a
    target with another number of rows is a [ValueError] (the batch sizes
    do not match), and a target with as many rows of another length is
    taken for class indices and refused with a [RuntimeError]. *)
Definition cross_entropy_row (x t : vec) : R :=
  (- sum (zip_with Rmult t (log_softmax x)))%R.

Definition cross_entropy_none (input target : matrix) : result vec :=
  if same_shape input target
  then Ok (zip_with cross_entropy_row input target)
  else if (length input =? length target)%nat then Raise RuntimeError
  else Raise ValueError.

(** [nn.CrossEntropyLoss(reduction='mean')] with a float target. *)
Definition cross_entropy_mean (input target : matrix) : result R :=
  let! loss := cross_entropy_none input target in
  Ok (mean loss).

(** [nn.CrossEntropyLoss(reduction='mean')] with an [int64] target of
    class indices: example i costs [- log_softmax(input[i])[target[i]]];
    a target equal to [ignore_index = -100] is left out of the sum and of
    the count; any other target outside [[0, C)] is an [IndexError]. *)
Definition cross_entropy_class_row (x : vec) (t : Z) : result (option R) :=
  if (t =? -100)%Z then Ok None
  else
    match (if (0 <=? t)%Z then log_softmax x !! Z.to_nat t else None) with
    | Some l => Ok (Some (- l)%R)
    | None => Raise IndexError
    end.

Fixpoint cross_entropy_class_rows (input : matrix) (target : list Z)
  : result (list (option R)) :=
  match input, target with
  | [], [] => Ok []
  | x :: input', t :: target' =>
      let! l := cross_entropy_class_row x t in
      let! ls := cross_entropy_class_rows input' target' in
      Ok (l :: ls)
  | _, _ => Raise ValueError
  end.

Definition cross_entropy_class_mean (input : matrix) (target : list Z)
  : result R :=
  let! ls := cross_entropy_class_rows input target in
  let kept := omap (fun l : option R => l) ls in
  Ok (sum kept / INR (length kept))%R.

(** [nn.HingeEmbeddingLoss(margin, reduction='mean')] as ATen computes it:
    [where(target != 1, clamp_min(margin - input, 0), 0)
     + where(target != -1, input, 0)], then the mean. *)
Definition hinge_embedding_loss (margin : R) (input target : vec) : R :=
  let margin_clamp := (fun x => Rmax (margin - x) 0)%R <$> input in
  let output_margin :=
    zip_with (fun t mc => if Req_dec_T t 1 then 0%R else mc)
             target margin_clamp in
  let output_self :=
    zip_with (fun t x => if Req_dec_T t (-1) then 0%R else x)
             target input in
  mean (zip_with Rplus output_margin output_self).

(** [F.normalize(x, dim=-1)]: each row divided by
    [max(its Euclidean norm, 1e-12)]. *)
Definition normalize (m : matrix) : matrix :=
  (fun row =>
     let denom := Rmax (sqrt (sum ((fun x => x * x)%R <$> row)))
                       (1 / 10 ^ 12)%R in
     (fun x => x / denom)%R <$> row) <$> m.

(** Indexing the rows of a two-axis tensor by a boolean mask,
    [m[mask]]: the mask must have one entry per row. *)
Fixpoint select_rows (m : matrix) (keep : list bool) : matrix :=
  match m, keep with
  | row :: m', b :: keep' =>
      if b then row :: select_rows m' keep' else select_rows m' keep'
  | _, _ => []
  end.

Definition index_mask (m : matrix) (keep : list bool) : result matrix :=
  if (length m =? length keep)%nat then Ok (select_rows m keep)
  else Raise IndexError.

(** [flat.view(n, -1)]: [n] rows cut from the row-major data.  With
    [n = 0], or when [n] does not divide the number of elements, the
    shape is invalid. *)
Definition view_rows (n : nat) (flat : vec) : result matrix :=
  if (n =? 0)%nat then Raise RuntimeError
  else if (length flat mod n =? 0)%nat
  then let w := (length flat / n)%nat in
       Ok ((fun i => take w (drop (i * w) flat)) <$> seq 0 n)
  else Raise RuntimeError.

End Torch.

(** A tensor of two or of three axes. *)
Inductive nd : Type :=
  | Nd2 (m : matrix)
  | Nd3 (ms : list matrix).

Definition nd_map (f : R -> R) (t : nd) : nd :=
  match t with
  | Nd2 m => Nd2 (map (map f) m)
  | Nd3 ms => Nd3 (map (map (map f)) ms)
  end.

(** Row-major data of a tensor, as [view] and [flatten] read it. *)
Definition nd_flatten (t : nd) : vec :=
  match t with
  | Nd2 m => concat m
  | Nd3 ms => concat (concat ms)
  end.

(** ** The distributed runtime ([torch.distributed])

    What the model asks of it: whether it is initialised, this process's
    rank, the number of processes, and [all_gather], which hands every
    process the tensors of all of them in rank order.  Tensors that come
    back from the exchange carry no gradient history. *)
Record dist_runtime : Type := {
  is_initialized : bool;
  get_rank : nat;
  get_world_size : nat;
  all_gather : matrix -> list matrix
}.

(** ** Inputs and outputs *)

(** A token batch: the named tensors one side's encoder receives. *)
Record token_batch : Type := {
  input_ids : list (list Z);
  attention_mask : list (list Z)
}.

Record EncoderOutput : Type := {
  q_reps : option (tensor matrix);
  p_reps : option (tensor matrix);
  loss : option (tensor R);
  scores : option (tensor nd)
}.

(** The target handed to [compute_loss]: [int64] class indices (one axis)
    or a float matrix of the shape of the scores. *)
Inductive target_t : Type :=
  | ClassTarget (t : list Z)
  | FloatTarget (t : matrix).

(** ** [DensePooler] *)

Module DensePooler.

(** [nn.Linear]: [y = x W^T + b], with [W] of shape out x in and one
    bias per row of [W].  An input whose rows do not have the length of
    the rows of [W] is a [RuntimeError]. *)
Record Linear : Type := {
  weight : matrix;
  bias : vec;
  trainable : bool
}.

Definition linear (l : Linear) (x : tensor matrix)
  : result (tensor matrix) :=
  if Torch.same_width (data x) (weight l) then
    Ok (Tensor
          ((fun xb => zip_with (fun w b => Torch.dot xb w + b)%R
                               (weight l) (bias l)) <$> data x)
          (requires_grad x || trainable l))
  else Raise RuntimeError.

Record t : Type := {
  linear_q : Linear;
  linear_p : Linear
}.

(** [__init__], given the freshly initialised linear maps: a tied pooler
    uses one linear map for both sides. *)
Definition init (lq lp : Linear) (tied : bool) : t :=
  {| linear_q := lq; linear_p := if tied then lq else lp |}.

Definition forward (self : t) (q p : option (tensor matrix))
  : result (tensor matrix) :=
  match q with
  | Some q => linear (linear_q self) q
  | None =>
      match p with
      | Some p => linear (linear_p self) p
      | None => Raise ValueError
      end
  end.

End DensePooler.

(** ** [BiEncoderModel] *)

Module BiEncoderModel.

(** The attributes [__init__] sets.  The backbone encoders are opaque:
    each maps a token batch to its last hidden state, of shape
    batch x length x hidden.  [dist_attrs] holds [process_rank] and
    [world_size], which exist only when [negatives_x_device] is set.
    [training] is the [nn.Module] mode flag. *)
Record t : Type := {
  lm_q : token_batch -> tensor (list matrix);
  lm_p : token_batch -> tensor (list matrix);
  pooler : option DensePooler.t;
  untie_encoder : bool;
  normlized : bool;
  sentence_pooling_method : string;
  temperature : R;
  loss_type : string;
  negatives_x_device : bool;
  contrastive_loss_weight : R;
  dist_attrs : option (nat * nat);
  training : bool
}.

(** The parameters of [__init__], by name. *)
Definition init_parameters : list string :=
  ["lm_q"; "lm_p"; "pooler"; "untie_encoder"; "normlized";
   "sentence_pooling_method"; "negatives_x_device"; "temperature";
   "contrastive_loss_weight"; "loss_type"].

Definition init (rt : dist_runtime)
    (lm_q lm_p : token_batch -> tensor (list matrix))
    (pooler : option DensePooler.t)
    (untie_encoder normlized : bool) (sentence_pooling_method : string)
    (negatives_x_device : bool) (temperature contrastive_loss_weight : R)
    (loss_type : string) : result t :=
  let! attrs :=
    if negatives_x_device then
      if negb (is_initialized rt) then Raise ValueError
      else Ok (Some (get_rank rt, get_world_size rt))
    else Ok None in
  Ok {| lm_q := lm_q; lm_p := lm_p; pooler := pooler;
        untie_encoder := untie_encoder; normlized := normlized;
        sentence_pooling_method := sentence_pooling_method;
        temperature := temperature; loss_type := loss_type;
        negatives_x_device := negatives_x_device;
        contrastive_loss_weight := contrastive_loss_weight;
        dist_attrs := attrs; training := true |}.

(** [torch.sum(hidden_state * mask.unsqueeze(-1).float(), dim=1)] for one
    example whose mask row has one entry per token: the token vectors,
    each scaled by its mask entry, added up. *)
Definition masked_sum (tokens : matrix) (mask_row : list Z) : vec :=
  foldr (zip_with Rplus) (replicate (size1 tokens) 0%R)
        (zip_with (fun tok m => (fun x => x * IZR m)%R <$> tok)
                  tokens mask_row).

(** [mask.sum(axis=1, keepdim=True).float()] for one example. *)
Definition mask_count (mask_row : list Z) : R :=
  IZR (wrap64 (foldr Z.add 0%Z mask_row)).

Definition mean_pool (tokens : matrix) (mask_row : list Z) : vec :=
  let s := masked_sum tokens mask_row in
  let d := mask_count mask_row in
  (fun x => x / d)%R <$> s.

(** One example of the ['mean'] branch.  The product broadcasts the
    sequence axis of the hidden states against that of the mask; the
    divisor is the sum of the mask row as it was given. *)
Definition mean_pool_example (tokens : matrix) (mask_row : list Z)
  : result vec :=
  let! operands := Torch.broadcast_axis tokens mask_row in
  let s := masked_sum operands.1 operands.2 in
  let d := mask_count mask_row in
  Ok ((fun x => x / d)%R <$> s).

(** [hidden_state[:, 0]] for one example. *)
Definition cls_pool (tokens : matrix) : result vec :=
  match tokens with
  | tok :: _ => Ok tok
  | [] => Raise IndexError
  end.

Fixpoint mapM {A B : Type} (f : A -> result B) (l : list A)
  : result (list B) :=
  match l with
  | [] => Ok []
  | a :: l' =>
      let! b := f a in
      let! bs := mapM f l' in
      Ok (b :: bs)
  end.

(** [sentence_embedding]: the two branches of the source; with any other
    method the function body ends and Python returns [None].  In the
    ['mean'] branch the batch axis of the hidden states is broadcast
    against that of the mask, then the sequence axis, example by
    example. *)
Definition sentence_embedding (self : t)
    (hidden_state : tensor (list matrix)) (mask : list (list Z))
  : result (option (tensor matrix)) :=
  if (sentence_pooling_method self =? "mean")%string then
    let! operands := Torch.broadcast_axis (data hidden_state) mask in
    let! m := mapM (fun example => mean_pool_example example.1 example.2)
                   (zip operands.1 operands.2) in
    Ok (Some (Tensor m (requires_grad hidden_state)))
  else if (sentence_pooling_method self =? "cls")%string then
    let! m := mapM cls_pool (data hidden_state) in
    Ok (Some (Tensor m (requires_grad hidden_state)))
  else Ok None.

(** The tail shared by [encode_passage] and [encode_query]: optional
    pooler, optional normalisation, [.contiguous()].  [side_q] tells
    which keyword the pooler is called with.  A [None] embedding makes
    the pooler raise [ValueError]; [F.normalize] and [.contiguous()]
    fail on [None] with [AttributeError]. *)
Definition finish_encode (self : t) (side_q : bool)
    (reps : option (tensor matrix)) : result (option (tensor matrix)) :=
  let! reps :=
    match pooler self with
    | Some pl =>
        let! r := (if side_q then DensePooler.forward pl reps None
                   else DensePooler.forward pl None reps) in
        Ok (Some r)
    | None => Ok reps
    end in
  let! reps :=
    if normlized self then
      match reps with
      | Some r =>
          Ok (Some (Tensor (Torch.normalize (data r)) (requires_grad r)))
      | None => Raise AttributeError
      end
    else Ok reps in
  match reps with
  | Some r => Ok (Some r)
  | None => Raise AttributeError
  end.

Definition encode_passage (self : t) (psg : option token_batch)
  : result (option (tensor matrix)) :=
  match psg with
  | None => Ok None
  | Some psg =>
      let p_hidden := lm_p self psg in
      let! p_reps :=
        sentence_embedding self p_hidden (attention_mask psg) in
      finish_encode self false p_reps
  end.

Definition encode_query (self : t) (qry : option token_batch)
  : result (option (tensor matrix)) :=
  match qry with
  | None => Ok None
  | Some qry =>
      let q_hidden := lm_q self qry in
      let! q_reps :=
        sentence_embedding self q_hidden (attention_mask qry) in
      finish_encode self true q_reps
  end.

(** [compute_similarity]: the query embeddings have two axes; the passage
    embeddings have two, or three when they come in one block per batch
    entry, and then [matmul] broadcasts the queries over the blocks.
    Embeddings of different sizes make [matmul] raise. *)
Definition compute_similarity (q_reps : tensor matrix) (p_reps : tensor nd)
  : result (tensor nd) :=
  match data p_reps with
  | Nd2 p =>
      let! s := Torch.matmul (data q_reps) p in
      Ok (Tensor (Nd2 s) (requires_grad q_reps || requires_grad p_reps))
  | Nd3 ps =>
      let! ss := mapM (Torch.matmul (data q_reps)) ps in
      Ok (Tensor (Nd3 ss) (requires_grad q_reps || requires_grad p_reps))
  end.

(** [(loss != 0.0).int().sum()]: the number of nonzero entries, an
    [int64] scalar. *)
Definition count_nonzero (loss : vec) : Z :=
  wrap64 (foldr Z.add 0%Z
            ((fun l => if Torch.nonzero l then 1%Z else 0%Z) <$> loss)).

(** The ['multi-softmax'] branch of [compute_loss] on the unreduced
    losses. *)
Definition multi_softmax_reduce (loss : vec) : R :=
  if (count_nonzero loss =? 0)%Z then (0 * Torch.sum loss)%R
  else (Torch.sum loss / IZR (count_nonzero loss))%R.

(** The ['myloss'] branch of [compute_loss]. *)
Definition myloss (scores : tensor matrix) (target : matrix)
  : result (tensor R) :=
  let valid_mask := (fun row => Torch.positive (Torch.sum row)) <$> target in
  let! valid_scores := Torch.index_mask (data scores) valid_mask in
  let! valid_target := Torch.index_mask target valid_mask in
  if (length valid_scores =? 0)%nat then Ok (Tensor 0%R true)
  else
    let soft_scores := Torch.softmax <$> valid_scores in
    let sum_positives :=
      zip_with (fun s t => Torch.sum (zip_with Rmult s t))
               soft_scores valid_target in
    let sum_positives :=
      Torch.clamp (1 / 10 ^ 9)%R 1%R <$> sum_positives in
    let log_sum_scores := (fun x => - ln x)%R <$> sum_positives in
    Ok (Tensor (Torch.mean log_sum_scores) (requires_grad scores)).

(** [compute_loss], given what the local [cross_entropy_batch] computes.
    The ['multi-softmax'] branch tests the unreduced losses against 0.0,
    and which of them are exactly zero is decided by the float arithmetic
    of the library, not by the real numbers: a saturated prediction costs
    exactly 0.0 in floats and a tiny positive number over the reals.  The
    branch is therefore written for any [cross_entropy_batch].

    A float target where class indices are expected, or the reverse,
    fails inside PyTorch: [target.float()] of a one-axis target does not
    have the shape of the scores, and [target.sum(dim=1)] needs two
    axes. *)
Definition compute_loss_with
    (cross_entropy_batch : matrix -> matrix -> result vec)
    (self : t) (scores : tensor matrix)
    (target : target_t) : result (tensor R) :=
  if (loss_type self =? "softmax")%string then
    let! v :=
      match target with
      | ClassTarget tg => Torch.cross_entropy_class_mean (data scores) tg
      | FloatTarget tg => Torch.cross_entropy_mean (data scores) tg
      end in
    Ok (Tensor v (requires_grad scores))
  else if (loss_type self =? "multi-softmax")%string then
    match target with
    | FloatTarget tg =>
        let! loss := cross_entropy_batch (data scores) tg in
        Ok (Tensor (multi_softmax_reduce loss) (requires_grad scores))
    | ClassTarget _ => Raise RuntimeError
    end
  else if (loss_type self =? "myloss")%string then
    match target with
    | FloatTarget tg => myloss scores tg
    | ClassTarget _ => Raise IndexError
    end
  else Raise AssertionError.

(** [compute_loss] with the library's cross entropy idealised over the
    real numbers, as every other float operation of this file is. *)
Definition compute_loss (self : t) (scores : tensor matrix)
    (target : target_t) : result (tensor R) :=
  compute_loss_with Torch.cross_entropy_none self scores target.

(** [forward], lines 213-214:
    [indices = arange(B).unsqueeze(1) * N + arange(N)], an [int64] tensor
    of shape B x N. *)
Definition scatter_indices (B N : nat) : list (list Z) :=
  (fun i => (fun j => wrap64 (wrap64 (i * Z.of_nat N) + j))
              <$> Torch.arange N)
    <$> Torch.arange B.

(** [forward], lines 211-215: the float target scattered from the teacher
    scores, with [B, N = teacher_score.shape]. *)
Definition teacher_target (scores : matrix) (teacher_score : matrix)
  : result matrix :=
  let target := Torch.zeros_like scores in
  let B := length teacher_score in
  let N := size1 teacher_score in
  let indices := scatter_indices B N in
  Torch.scatter_ target indices teacher_score.

(** [forward], lines 227-228: the class target without teacher scores,
    [arange(scores.size(0)) * (p_reps.size(0) // q_reps.size(0))].  The
    quotient is a Python integer division and raises on a zero divisor;
    the product is an [int64] tensor. *)
Definition implicit_target (scores_size0 p_size0 q_size0 : nat)
  : result (list Z) :=
  let target := Torch.arange scores_size0 in
  if (q_size0 =? 0)%nat then Raise ZeroDivisionError
  else
    let k := Z.of_nat (p_size0 / q_size0) in
    Ok ((fun t => wrap64 (t * k)) <$> target).

(** Whether the exchange can fill the buffers of [_dist_gather_tensor]:
    every other rank must have sent a tensor of the shape of the buffer,
    which is the shape of the local tensor.  What comes back in the slot
    of this rank is the local tensor's own copy, overwritten afterwards. *)
Definition exchange_fits (process_rank world_size : nat)
    (received : list matrix) (local : matrix) : bool :=
  forallb (fun i =>
             (i =? process_rank)%nat
             || match received !! i with
                | Some r => Torch.same_shape r local
                | None => false
                end)
          (seq 0 world_size).

(** [_dist_gather_tensor].  [torch.empty_like] buffers are modelled as
    zero tensors; [all_gather] overwrites them with what each rank sent,
    without gradient history, and fails when a rank sent a tensor of
    another shape; then the slot of this rank gets [t] itself back and the
    slots are concatenated along axis 0. *)
Definition _dist_gather_tensor (self : t) (rt : dist_runtime)
    (t : option (tensor matrix)) : result (option (tensor matrix)) :=
  match t with
  | None => Ok None
  | Some t =>
      match dist_attrs self with
      | None => Raise AttributeError
      | Some (process_rank, world_size) =>
          let buffers :=
            replicate world_size
                      (Tensor (Torch.zeros_like (data t)) false) in
          let received := all_gather rt (data t) in
          if exchange_fits process_rank world_size received (data t) then
            let all_tensors :=
              imap (fun i b => match received !! i with
                               | Some r => Tensor r false
                               | None => b
                               end) buffers in
            if (process_rank <? length all_tensors)%nat then
              let all_tensors := <[process_rank := t]> all_tensors in
              Ok (Some (Tensor (concat (data <$> all_tensors))
                               (existsb requires_grad all_tensors)))
            else Raise IndexError
          else Raise RuntimeError
      end
  end.

(** Gathering a tensor that is present. *)
Definition gather (self : t) (rt : dist_runtime) (t : tensor matrix)
  : result (tensor matrix) :=
  let! r := _dist_gather_tensor self rt (Some t) in
  match r with
  | Some r => Ok r
  | None => Raise AttributeError
  end.

(** [scores / self.temperature] then [scores.view(q_reps.size(0), -1)]. *)
Definition scale_and_view (self : t) (q_reps : tensor matrix)
    (scores : tensor nd) : result (tensor matrix) :=
  let scores :=
    Tensor (nd_map (fun x => x / temperature self)%R (data scores))
           (requires_grad scores) in
  let! m := Torch.view_rows (length (data q_reps))
                            (nd_flatten (data scores)) in
  Ok (Tensor m (requires_grad scores)).

Definition lift2 (t : tensor matrix) : tensor nd :=
  Tensor (Nd2 (data t)) (requires_grad t).

Definition forward (self : t) (rt : dist_runtime)
    (query passage : option token_batch) (teacher_score : option matrix)
  : result EncoderOutput :=
  let! q_reps := encode_query self query in
  let! p_reps := encode_passage self passage in
  match q_reps, p_reps with
  | Some q, Some p =>
      if training self then
        match teacher_score with
        | Some ts =>
            let! gathered :=
              if negatives_x_device self then
                let! q := gather self rt q in
                let! p := gather self rt p in
                let! ts := gather self rt (Tensor ts false) in
                Ok (q, p, data ts)
              else Ok (q, p, ts) in
            let '(q, p, ts) := gathered in
            let! scores := compute_similarity q (lift2 p) in
            let! scores := scale_and_view self q scores in
            let! target := teacher_target (data scores) ts in
            let! l := compute_loss self scores (FloatTarget target) in
            Ok {| loss := Some l; scores := Some (lift2 scores);
                  q_reps := Some q; p_reps := Some p |}
        | None =>
            let! gathered :=
              if negatives_x_device self then
                let! q := gather self rt q in
                let! p := gather self rt p in
                Ok (q, p)
              else Ok (q, p) in
            let '(q, p) := gathered in
            let! scores := compute_similarity q (lift2 p) in
            let! scores := scale_and_view self q scores in
            let! target :=
              implicit_target (length (data scores)) (length (data p))
                              (length (data q)) in
            let! l := compute_loss self scores (ClassTarget target) in
            Ok {| loss := Some l; scores := Some (lift2 scores);
                  q_reps := Some q; p_reps := Some p |}
        end
      else
        let! scores := compute_similarity q (lift2 p) in
        Ok {| loss := None; scores := Some scores;
              q_reps := Some q; p_reps := Some p |}
  | _, _ =>
      Ok {| q_reps := q_reps; p_reps := p_reps;
            loss := None; scores := None |}
  end.

End BiEncoderModel.

(** ** [MultiBiEncoderModel] *)

Module MultiBiEncoderModel.

(** The parameters of [__init__], by name: those of
    [BiEncoderModel.__init__] without [loss_type]. *)
Definition init_parameters : list string :=
  ["lm_q"; "lm_p"; "pooler"; "untie_encoder"; "normlized";
   "sentence_pooling_method"; "negatives_x_device"; "temperature";
   "contrastive_loss_weight"].

(** [__init__] sets the attributes [BiEncoderModel.__init__] sets, but
    for [loss_type]; they are kept in the record of [BiEncoderModel],
    whose [loss_type] field no method of this class reads. *)
Definition init (rt : dist_runtime)
    (lm_q lm_p : token_batch -> tensor (list matrix))
    (pooler : option DensePooler.t)
    (untie_encoder normlized : bool) (sentence_pooling_method : string)
    (negatives_x_device : bool) (temperature contrastive_loss_weight : R)
  : result BiEncoderModel.t :=
  BiEncoderModel.init rt lm_q lm_p pooler untie_encoder normlized
    sentence_pooling_method negatives_x_device temperature
    contrastive_loss_weight "".

(** [self.loss_func = nn.HingeEmbeddingLoss(margin=0.5,
    reduction='mean')]. *)
Definition loss_func (input target : vec) : R :=
  Torch.hinge_embedding_loss (5 / 10)%R input target.

(** [compute_loss]: the target goes to labels by [target * 2 - 1], the
    scores to distances by [1 - scores], both are flattened and handed
    to the hinge loss. *)
Definition compute_loss (scores : tensor matrix) (target : matrix)
  : tensor R :=
  let target := (fun row : vec => (fun x => x * 2 - 1)%R <$> row) <$> target in
  let target := concat target in
  let distance :=
    (fun row : vec => (fun x => 1 - x)%R <$> row) <$> data scores in
  let distance := concat distance in
  Tensor (loss_func distance target) (requires_grad scores).

End MultiBiEncoderModel.

(** ** The specification's formulas

    Definitions that follow the words of the specification, to be compared
    with the definitions above, which follow the source. *)

Module Spec.

(** The number of examples whose loss is nonzero. *)
Definition nonzero_count (loss : vec) : nat :=
  length (List.filter Torch.nonzero loss).

(** The rows of scores and target kept by [myloss]: those whose target
    row-sum is positive. *)
Definition retained_rows (scores target : matrix) : list (vec * vec) :=
  List.filter (fun p => Torch.positive (Torch.sum p.2)) (zip scores target).

(** [-log(clamp(softmax(scores_row) . target_row, 1e-9, 1.0))]. *)
Definition myloss_row (s t : vec) : R :=
  (- ln (Torch.clamp (1 / 10 ^ 9) 1 (Torch.dot (Torch.softmax s) t)))%R.

(** The mean of [myloss_row] over the retained rows. *)
Definition myloss (scores target : matrix) : R :=
  Torch.mean ((fun p => myloss_row p.1 p.2) <$> retained_rows scores target).

(** The number of unmasked tokens of one example. *)
Definition unmasked_count (mask_row : list Z) : nat :=
  length (List.filter (fun m => negb (m =? 0)%Z) mask_row).

(** Component [h] of every token vector of one example. *)
Definition column (h : nat) (tokens : matrix) : vec :=
  (fun tok : vec => nth h tok 0%R) <$> tokens.

(** The masked average of the token vectors of one example, of hidden
    size [D]: component by component, the sum over the sequence axis of
    hidden state times mask, divided by the number of unmasked tokens. *)
Definition masked_average (D : nat) (tokens : matrix) (mask_row : list Z)
  : vec :=
  (fun h =>
     Torch.sum (zip_with (fun x m => x * IZR m)%R (column h tokens) mask_row)
     / INR (unmasked_count mask_row))%R <$> seq 0 D.

(** The plain average of the token vectors of one example. *)
Definition plain_average (D : nat) (tokens : matrix) : vec :=
  (fun h => Torch.sum (column h tokens) / INR (length tokens))%R <$> seq 0 D.

(** Hidden states of one example: [L] token vectors of size [D]. *)
Definition well_shaped_example (L D : nat) (tokens : matrix) : Prop :=
  length tokens = L /\ Forall (fun tok : vec => length tok = D) tokens.

(** An attention-mask row: [L] entries, each 0 or 1, not all 0. *)
Definition attention_row (L : nat) (mask_row : list Z) : Prop :=
  length mask_row = L
  /\ Forall (fun m => m = 0%Z \/ m = 1%Z) mask_row
  /\ 0 < unmasked_count mask_row.

(** One term of the hinge loss for a score [s] and a 0/1 target [t]: the
    distance [1 - s] for a positive, [max(0, margin - distance)] with
    margin 0.5 for a negative. *)
Definition hinge_term (s t : R) : R :=
  if Req_dec_T t 1 then (1 - s)%R else Rmax (5 / 10 - (1 - s)) 0.

(** The mean of the hinge terms over every entry of the two matrices. *)
Definition hinge_mean (scores target : matrix) : R :=
  Torch.mean (zip_with hinge_term (concat scores) (concat target)).

End Spec.

(** ** Sample inputs *)

Module Sample.

(** A backbone that embeds token id [k] as the vector [(k, 1)]. *)
Definition lm (tb : token_batch) : tensor (list matrix) :=
  Tensor ((fun ids : list Z => (fun k => [IZR k; 1%R]) <$> ids)
            <$> input_ids tb) true.

Definition model (method loss_type : string) (temperature : R)
    (training : bool) : BiEncoderModel.t :=
  {| BiEncoderModel.lm_q := lm;
     BiEncoderModel.lm_p := lm;
     BiEncoderModel.pooler := None;
     BiEncoderModel.untie_encoder := false;
     BiEncoderModel.normlized := false;
     BiEncoderModel.sentence_pooling_method := method;
     BiEncoderModel.temperature := temperature;
     BiEncoderModel.loss_type := loss_type;
     BiEncoderModel.negatives_x_device := false;
     BiEncoderModel.contrastive_loss_weight := 1%R;
     BiEncoderModel.dist_attrs := None;
     BiEncoderModel.training := training |}.

(** A single-process runtime. *)
Definition single_process : dist_runtime :=
  {| is_initialized := true; get_rank := 0; get_world_size := 1;
     all_gather := fun t => [t] |}.

(** A runtime that was never initialised. *)
Definition no_runtime : dist_runtime :=
  {| is_initialized := false; get_rank := 0; get_world_size := 1;
     all_gather := fun t => [t] |}.

(** The model [__init__] builds on one process with
    [negatives_x_device] set. *)
Definition gathering_model : BiEncoderModel.t :=
  {| BiEncoderModel.lm_q := lm;
     BiEncoderModel.lm_p := lm;
     BiEncoderModel.pooler := None;
     BiEncoderModel.untie_encoder := false;
     BiEncoderModel.normlized := false;
     BiEncoderModel.sentence_pooling_method := "cls";
     BiEncoderModel.temperature := 1%R;
     BiEncoderModel.loss_type := "softmax";
     BiEncoderModel.negatives_x_device := true;
     BiEncoderModel.contrastive_loss_weight := 1%R;
     BiEncoderModel.dist_attrs := Some (0, 1);
     BiEncoderModel.training := true |}.

Definition batch (ids mask : list (list Z)) : token_batch :=
  {| input_ids := ids; attention_mask := mask |}.

End Sample.

(** ** [MultiBiEncoderModel.forward]

    The attributes of the multi-encoder variant are those of
    [BiEncoderModel] without [loss_type], and its [sentence_embedding],
    [encode_query], [encode_passage], [compute_similarity] and
    [_dist_gather_tensor] repeat the text of [BiEncoderModel]; the record
    and the functions of [BiEncoderModel] stand for them. *)

Module MultiForward.

(** [forward]: in training mode the embeddings are gathered when
    [negatives_x_device] is set (the teacher scores are not), the scores
    are scaled and viewed, and [teacher_score.shape] is read without a
    test for [None]. *)
Definition forward (self : BiEncoderModel.t) (rt : dist_runtime)
    (query passage : option token_batch) (teacher_score : option matrix)
  : result EncoderOutput :=
  let! q_reps := BiEncoderModel.encode_query self query in
  let! p_reps := BiEncoderModel.encode_passage self passage in
  match q_reps, p_reps with
  | Some q, Some p =>
      if BiEncoderModel.training self then
        let! gathered :=
          if BiEncoderModel.negatives_x_device self then
            let! q := BiEncoderModel.gather self rt q in
            let! p := BiEncoderModel.gather self rt p in
            Ok (q, p)
          else Ok (q, p) in
        let '(q, p) := gathered in
        let! scores :=
          BiEncoderModel.compute_similarity q (BiEncoderModel.lift2 p) in
        let! scores := BiEncoderModel.scale_and_view self q scores in
        match teacher_score with
        | None => Raise AttributeError
        | Some ts =>
            let! target := BiEncoderModel.teacher_target (data scores) ts in
            let l := MultiBiEncoderModel.compute_loss scores target in
            Ok {| loss := Some l;
                  scores := Some (BiEncoderModel.lift2 scores);
                  q_reps := Some q; p_reps := Some p |}
        end
      else
        let! scores :=
          BiEncoderModel.compute_similarity q (BiEncoderModel.lift2 p) in
        Ok {| loss := None; scores := Some scores;
              q_reps := Some q; p_reps := Some p |}
  | _, _ =>
      Ok {| q_reps := q_reps; p_reps := p_reps;
            loss := None; scores := None |}
  end.

End MultiForward.

(** ** Building, loading and saving

    The file system, the [transformers] loaders, [torch.load],
    [load_state_dict], [json.load] and the random initialisation of
    [nn.Linear] are outside the source: they are taken as they answer
    ([env]).  What [save] writes is recorded as the list of the calls it
    makes, in order, assuming that a write that is reached succeeds. *)

Module Checkpoint.

Inductive error : Type :=
  | FileExistsError
  | TypeError
  | External
  | Model (e : exn).

Inductive outcome (A : Type) : Type :=
  | Done (a : A)
  | Fail (e : error).
Arguments Done {A} a.
Arguments Fail {A} e.

Definition and_then {A B : Type} (r : outcome A) (k : A -> outcome B)
  : outcome B :=
  match r with
  | Done a => k a
  | Fail e => Fail e
  end.

Notation "'do!' x ':=' r 'in' k" := (and_then r (fun x => k))
  (at level 10, x pattern, r at level 100, k at level 200).

Definition of_result {A : Type} (r : result A) : outcome A :=
  match r with
  | Ok a => Done a
  | Raise e => Fail (Model e)
  end.

Abbreviation encoder := (token_batch -> tensor (list matrix)).

(** The keys of [pooler_config.json]. *)
Record pooler_config : Type := {
  input_dim : nat;
  output_dim : nat;
  tied : bool
}.

Record env : Type := {
  isdir : string -> bool;
  path_exists : string -> bool;
  from_pretrained : string -> outcome encoder;
  new_linear_q : nat -> nat -> DensePooler.Linear;
  new_linear_p : nat -> nat -> DensePooler.Linear;
  torch_load : string -> outcome DensePooler.t;
  load_state_dict : DensePooler.t -> DensePooler.t -> outcome DensePooler.t;
  json_load : string -> outcome pooler_config
}.

(** The path separator, character 47. *)
Definition slash : Ascii.ascii := Ascii.ascii_of_nat 47.

Fixpoint ends_with_slash (s : string) : bool :=
  match s with
  | EmptyString => false
  | String c EmptyString => Ascii.eqb c slash
  | String _ s' => ends_with_slash s'
  end.

(** [os.path.join(a, b)] for a relative [b]. *)
Definition join (a b : string) : string :=
  if (a =? "")%string then b
  else if ends_with_slash a then (a ++ b)%string
  else (a ++ "/" ++ b)%string.

(** [DensePooler(input_dim, output_dim, tied)]. *)
Definition new_pooler (e : env) (cfg : pooler_config) : DensePooler.t :=
  DensePooler.init (new_linear_q e (input_dim cfg) (output_dim cfg))
                   (new_linear_p e (input_dim cfg) (output_dim cfg))
                   (tied cfg).

(** [DensePooler.load]: restores the saved state when [pooler.pt] exists
    and otherwise keeps the fresh weights. *)
Definition pooler_load (e : env) (self : DensePooler.t) (model_dir : string)
  : outcome DensePooler.t :=
  let pooler_path := join model_dir "pooler.pt" in
  if path_exists e pooler_path then
    do! state_dict := torch_load e pooler_path in
    load_state_dict e self state_dict
  else Done self.

(** [BiEncoderModel.load_pooler]. *)
Definition load_pooler (e : env) (model_weights_file : string)
    (config : pooler_config) : outcome DensePooler.t :=
  pooler_load e (new_pooler e config) model_weights_file.

(** The fields of [ModelArguments] and of the training arguments that
    [build] reads. *)
Record model_args : Type := {
  model_name_or_path : string;
  untie_encoder : bool;
  add_pooler : bool;
  projection_in_dim : nat;
  projection_out_dim : nat;
  normlized : bool;
  sentence_pooling_method : string
}.

Record train_args : Type := {
  negatives_x_device : bool;
  temperature : R;
  contrastive_loss_weight : R;
  loss_type : string
}.

(** [BiEncoderModel.build_pooler]. *)
Definition build_pooler (e : env) (margs : model_args)
  : outcome DensePooler.t :=
  pooler_load e
    (new_pooler e {| input_dim := projection_in_dim margs;
                     output_dim := projection_out_dim margs;
                     tied := negb (untie_encoder margs) |})
    (model_name_or_path margs).

(** The encoders [build] loads; [copy.deepcopy] of an encoder is an
    encoder with the same weights. *)
Definition build_encoders (e : env) (margs : model_args)
  : outcome (encoder * encoder) :=
  let path := model_name_or_path margs in
  if isdir e path then
    if untie_encoder margs then
      let _qry_model_path := join path "query_model" in
      let _psg_model_path := join path "passage_model" in
      let paths :=
        if negb (path_exists e _qry_model_path) then (path, path)
        else (_qry_model_path, _psg_model_path) in
      do! lm_q := from_pretrained e paths.1 in
      do! lm_p := from_pretrained e paths.2 in
      Done (lm_q, lm_p)
    else
      do! lm_q := from_pretrained e path in
      Done (lm_q, lm_q)
  else
    do! lm_q := from_pretrained e path in
    Done (lm_q, lm_q).

Definition build_optional_pooler (e : env) (margs : model_args)
  : outcome (option DensePooler.t) :=
  if add_pooler margs then
    do! pooler := build_pooler e margs in Done (Some pooler)
  else Done None.

(** A call with keyword arguments: a keyword that names no parameter of
    the callee is a [TypeError], raised before the body of the callee
    runs. *)
Definition bind_keywords (parameters keywords : list string)
  : outcome unit :=
  if forallb (fun k => existsb (String.eqb k) parameters) keywords
  then Done tt
  else Fail TypeError.

(** The keywords of the call [cls(...)] that ends [build], in both
    classes. *)
Definition build_keywords : list string :=
  ["lm_q"; "lm_p"; "pooler"; "negatives_x_device"; "untie_encoder";
   "normlized"; "sentence_pooling_method"; "temperature";
   "contrastive_loss_weight"; "loss_type"].

(** [BiEncoderModel.build]. *)
Definition build (e : env) (rt : dist_runtime)
    (margs : model_args) (targs : train_args) : outcome BiEncoderModel.t :=
  do! lms := build_encoders e margs in
  do! pooler := build_optional_pooler e margs in
  do! bound := bind_keywords BiEncoderModel.init_parameters build_keywords in
  of_result
    (BiEncoderModel.init rt lms.1 lms.2 pooler
       (untie_encoder margs) (normlized margs)
       (sentence_pooling_method margs)
       (negatives_x_device targs) (temperature targs)
       (contrastive_loss_weight targs) (loss_type targs)).

(** [MultiBiEncoderModel.build]: the same text, calling the constructor
    of [MultiBiEncoderModel] with the same keywords. *)
Definition multi_build (e : env) (rt : dist_runtime)
    (margs : model_args) (targs : train_args) : outcome BiEncoderModel.t :=
  do! lms := build_encoders e margs in
  do! pooler := build_optional_pooler e margs in
  do! bound :=
    bind_keywords MultiBiEncoderModel.init_parameters build_keywords in
  of_result
    (MultiBiEncoderModel.init rt lms.1 lms.2 pooler
       (untie_encoder margs) (normlized margs)
       (sentence_pooling_method margs)
       (negatives_x_device targs) (temperature targs)
       (contrastive_loss_weight targs)).

(** Whether [load] finds separate weights for the two encoders. *)
Definition separate_weights (e : env) (path : string) : bool :=
  (isdir e path && path_exists e (join path "query_model"))%bool.

(** [BiEncoderModel.load]: the constructor is called with its defaults for
    [negatives_x_device], [temperature], [contrastive_loss_weight] and
    [loss_type]. *)
Definition load (e : env) (rt : dist_runtime) (path : string)
    (normlized : bool) (sentence_pooling_method : string)
  : outcome BiEncoderModel.t :=
  let untie_encoder := true in
  do! loaded :=
    if isdir e path then
      let _qry_model_path := join path "query_model" in
      let _psg_model_path := join path "passage_model" in
      if path_exists e _qry_model_path then
        do! lm_q := from_pretrained e _qry_model_path in
        do! lm_p := from_pretrained e _psg_model_path in
        let untie_encoder := false in
        Done (lm_q, lm_p, untie_encoder)
      else
        do! lm_q := from_pretrained e path in
        Done (lm_q, lm_q, untie_encoder)
    else
      do! lm_q := from_pretrained e path in
      Done (lm_q, lm_q, untie_encoder) in
  let '(lm_q, lm_p, untie_encoder) := loaded in
  let pooler_weights := join path "pooler.pt" in
  let pooler_config := join path "pooler_config.json" in
  do! pooler :=
    if (path_exists e pooler_weights && path_exists e pooler_config)%bool
    then
      do! pooler_config_dict := json_load e pooler_config in
      do! pooler := load_pooler e path pooler_config_dict in
      Done (Some pooler)
    else Done None in
  of_result
    (BiEncoderModel.init rt lm_q lm_p pooler untie_encoder normlized
       sentence_pooling_method false 1%R 1%R "softmax").

(** The calls [save] makes. *)
Inductive write : Type :=
  | Makedirs (path : string)
  | SavePretrained (lm : encoder) (path : string)
  | TorchSave (pooler : DensePooler.t) (path : string)
  | JsonDump (path : string).

(** [DensePooler.save_pooler]. *)
Definition save_pooler (self : DensePooler.t) (save_path : string)
  : list write :=
  [TorchSave self (join save_path "pooler.pt");
   JsonDump (join save_path "pooler_config.json")].

(** [BiEncoderModel.save]: the writes made and how the call ends.
    [os.makedirs] fails on a path that exists. *)
Definition save (e : env) (self : BiEncoderModel.t) (output_dir : string)
  : list write * outcome unit :=
  let pooler_writes :=
    match BiEncoderModel.pooler self with
    | Some pooler => save_pooler pooler output_dir
    | None => []
    end in
  if BiEncoderModel.untie_encoder self then
    let q := join output_dir "query_model" in
    let p := join output_dir "passage_model" in
    if path_exists e q then ([], Fail FileExistsError)
    else if path_exists e p then ([Makedirs q], Fail FileExistsError)
    else ([Makedirs q; Makedirs p;
           SavePretrained (BiEncoderModel.lm_q self) q;
           SavePretrained (BiEncoderModel.lm_p self) p] ++ pooler_writes,
          Done tt)
  else
    (SavePretrained (BiEncoderModel.lm_q self) output_dir :: pooler_writes,
     Done tt).

End Checkpoint.

(** ** Predicates used to state further properties *)

Module Shape.

(** A matrix with [n] rows of [w] entries. *)
Definition is_matrix (n w : nat) (m : matrix) : Prop :=
  length m = n /\ Forall (fun r : vec => length r = w) m.

(** A matrix whose rows have [w] entries. *)
Definition has_width (w : nat) (m : matrix) : Prop :=
  Forall (fun r : vec => length r = w) m.

(** An attention mask with one entry per token of the hidden states. *)
Definition mask_fits (hidden_state : list matrix) (mask : list (list Z))
  : Prop :=
  Forall2 (fun (tokens : matrix) (mask_row : list Z) =>
             length tokens = length mask_row) hidden_state mask.

(** An exchange that hands a process one tensor per rank, each of the
    shape of the tensor the process sent. *)
Definition exchange_ok (world_size : nat) (received : list matrix)
    (local : matrix) : Prop :=
  length received = world_size
  /\ Forall (fun r => Torch.same_shape r local = true) received.

(** Two examples with token vectors of the same sizes that hold the same
    vector wherever the mask is not zero. *)
Definition agree_on_unmasked (tokens tokens' : matrix) (mask_row : list Z)
  : Prop :=
  Forall2 (fun tok tok' : vec => length tok = length tok') tokens tokens'
  /\ forall t tok tok' m,
       tokens !! t = Some tok -> tokens' !! t = Some tok' ->
       mask_row !! t = Some m -> m <> 0%Z -> tok = tok'.

(** The similarity of queries and passages divided by the temperature. *)
Definition scaled_similarity (T : R) (q p : matrix) : matrix :=
  map (map (fun x => x / T)%R) (Torch.matmul_transposed q p).

(** The mean over the queries of the negative log-probability of the
    passage at column [i * k] of row [i]. *)
Definition in_batch_nll (k : nat) (scores : matrix) : R :=
  Torch.mean
    (imap (fun i row => (- nth (i * k) (Torch.log_softmax row) 0)%R) scores).

(** The squared Euclidean norm of a vector. *)
Definition sum_squares (v : vec) : R := Torch.sum ((fun x => x * x)%R <$> v).

(** The model with the same attributes and [negatives_x_device] off. *)
Definition on_one_device (self : BiEncoderModel.t) : BiEncoderModel.t :=
  {| BiEncoderModel.lm_q := BiEncoderModel.lm_q self;
     BiEncoderModel.lm_p := BiEncoderModel.lm_p self;
     BiEncoderModel.pooler := BiEncoderModel.pooler self;
     BiEncoderModel.untie_encoder := BiEncoderModel.untie_encoder self;
     BiEncoderModel.normlized := BiEncoderModel.normlized self;
     BiEncoderModel.sentence_pooling_method :=
       BiEncoderModel.sentence_pooling_method self;
     BiEncoderModel.temperature := BiEncoderModel.temperature self;
     BiEncoderModel.loss_type := BiEncoderModel.loss_type self;
     BiEncoderModel.negatives_x_device := false;
     BiEncoderModel.contrastive_loss_weight :=
       BiEncoderModel.contrastive_loss_weight self;
     BiEncoderModel.dist_attrs := BiEncoderModel.dist_attrs self;
     BiEncoderModel.training := BiEncoderModel.training self |}.

(** What [_dist_gather_tensor] returns on the process of rank [rank]:
    the tensors received from the lower ranks, the local tensor, the
    tensors received from the higher ranks. *)
Definition in_rank_order (rank : nat) (received : list matrix)
    (local : matrix) : matrix :=
  concat (take rank received) ++ local ++ concat (drop (S rank) received).

End Shape.

(** ** A two-process sample *)

Module Cluster.

(** The runtime as process 1 of 2 sees it: process 0 sent the one-row
    tensor [[9, 9]]. *)
Definition runtime : dist_runtime :=
  {| is_initialized := true; get_rank := 1; get_world_size := 2;
     all_gather := fun t => [[[9; 9]]%R; t] |}.

(** The model [__init__] builds on that process with
    [negatives_x_device] set. *)
Definition model : BiEncoderModel.t :=
  {| BiEncoderModel.lm_q := Sample.lm;
     BiEncoderModel.lm_p := Sample.lm;
     BiEncoderModel.pooler := None;
     BiEncoderModel.untie_encoder := false;
     BiEncoderModel.normlized := false;
     BiEncoderModel.sentence_pooling_method := "cls";
     BiEncoderModel.temperature := 1%R;
     BiEncoderModel.loss_type := "softmax";
     BiEncoderModel.negatives_x_device := true;
     BiEncoderModel.contrastive_loss_weight := 1%R;
     BiEncoderModel.dist_attrs := Some (1, 2);
     BiEncoderModel.training := true |}.

End Cluster.

(** ** Further sample inputs *)

Module Fixtures.

(** A model that normalises its embeddings. *)
Definition normalised_model : BiEncoderModel.t :=
  {| BiEncoderModel.lm_q := Sample.lm;
     BiEncoderModel.lm_p := Sample.lm;
     BiEncoderModel.pooler := None;
     BiEncoderModel.untie_encoder := false;
     BiEncoderModel.normlized := true;
     BiEncoderModel.sentence_pooling_method := "cls";
     BiEncoderModel.temperature := 1%R;
     BiEncoderModel.loss_type := "softmax";
     BiEncoderModel.negatives_x_device := false;
     BiEncoderModel.contrastive_loss_weight := 1%R;
     BiEncoderModel.dist_attrs := None;
     BiEncoderModel.training := false |}.

(** A projection from two to one dimension. *)
Definition projection : DensePooler.Linear :=
  {| DensePooler.weight := [[1; 1]]%R;
     DensePooler.bias := [0]%R;
     DensePooler.trainable := true |}.

Definition other_projection : DensePooler.Linear :=
  {| DensePooler.weight := [[1; 0]]%R;
     DensePooler.bias := [1]%R;
     DensePooler.trainable := true |}.

(** A tied model: one backbone, one projection for both sides. *)
Definition tied_model : BiEncoderModel.t :=
  {| BiEncoderModel.lm_q := Sample.lm;
     BiEncoderModel.lm_p := Sample.lm;
     BiEncoderModel.pooler :=
       Some (DensePooler.init projection other_projection true);
     BiEncoderModel.untie_encoder := false;
     BiEncoderModel.normlized := false;
     BiEncoderModel.sentence_pooling_method := "cls";
     BiEncoderModel.temperature := 1%R;
     BiEncoderModel.loss_type := "softmax";
     BiEncoderModel.negatives_x_device := false;
     BiEncoderModel.contrastive_loss_weight := 1%R;
     BiEncoderModel.dist_attrs := None;
     BiEncoderModel.training := true |}.

(** A second backbone, which embeds token id [k] as [(1, k)]. *)
Definition other_lm (tb : token_batch) : tensor (list matrix) :=
  Tensor ((fun ids : list Z => (fun k => [1%R; IZR k]) <$> ids)
            <$> input_ids tb) true.

(** A backbone of hidden size 3, which embeds token id [k] as
    [(k, 1, 1)]. *)
Definition wide_lm (tb : token_batch) : tensor (list matrix) :=
  Tensor ((fun ids : list Z => (fun k => [IZR k; 1%R; 1%R]) <$> ids)
            <$> input_ids tb) true.

(** A model whose two backbones have different hidden sizes. *)
Definition mismatched_model (training : bool) : BiEncoderModel.t :=
  {| BiEncoderModel.lm_q := Sample.lm;
     BiEncoderModel.lm_p := wide_lm;
     BiEncoderModel.pooler := None;
     BiEncoderModel.untie_encoder := true;
     BiEncoderModel.normlized := false;
     BiEncoderModel.sentence_pooling_method := "cls";
     BiEncoderModel.temperature := 1%R;
     BiEncoderModel.loss_type := "softmax";
     BiEncoderModel.negatives_x_device := false;
     BiEncoderModel.contrastive_loss_weight := 1%R;
     BiEncoderModel.dist_attrs := None;
     BiEncoderModel.training := training |}.

(** A disk on which [ckpt] holds separate weights for the two encoders
    and no pooler, and [tied] holds one set of weights; nothing else
    exists. *)
Definition disk : Checkpoint.env :=
  {| Checkpoint.isdir := fun p =>
       ((p =? "ckpt") || (p =? "tied") || (p =? "ckpt/query_model")
        || (p =? "ckpt/passage_model"))%string;
     Checkpoint.path_exists := fun p =>
       ((p =? "ckpt") || (p =? "tied") || (p =? "ckpt/query_model")
        || (p =? "ckpt/passage_model"))%string;
     Checkpoint.from_pretrained := fun p =>
       if (p =? "ckpt/query_model")%string then Checkpoint.Done Sample.lm
       else if (p =? "ckpt/passage_model")%string
       then Checkpoint.Done other_lm
       else if (p =? "tied")%string then Checkpoint.Done Sample.lm
       else Checkpoint.Fail Checkpoint.External;
     Checkpoint.new_linear_q := fun _ _ => projection;
     Checkpoint.new_linear_p := fun _ _ => other_projection;
     Checkpoint.torch_load := fun _ => Checkpoint.Fail Checkpoint.External;
     Checkpoint.load_state_dict := fun self _ => Checkpoint.Done self;
     Checkpoint.json_load := fun _ => Checkpoint.Fail Checkpoint.External |}.

(** What [load] returns for [ckpt] and for [tied]. *)
Definition loaded_from_ckpt : BiEncoderModel.t :=
  {| BiEncoderModel.lm_q := Sample.lm;
     BiEncoderModel.lm_p := other_lm;
     BiEncoderModel.pooler := None;
     BiEncoderModel.untie_encoder := false;
     BiEncoderModel.normlized := false;
     BiEncoderModel.sentence_pooling_method := "cls";
     BiEncoderModel.temperature := 1%R;
     BiEncoderModel.loss_type := "softmax";
     BiEncoderModel.negatives_x_device := false;
     BiEncoderModel.contrastive_loss_weight := 1%R;
     BiEncoderModel.dist_attrs := None;
     BiEncoderModel.training := true |}.

Definition loaded_from_tied : BiEncoderModel.t :=
  {| BiEncoderModel.lm_q := Sample.lm;
     BiEncoderModel.lm_p := Sample.lm;
     BiEncoderModel.pooler := None;
     BiEncoderModel.untie_encoder := true;
     BiEncoderModel.normlized := false;
     BiEncoderModel.sentence_pooling_method := "cls";
     BiEncoderModel.temperature := 1%R;
     BiEncoderModel.loss_type := "softmax";
     BiEncoderModel.negatives_x_device := false;
     BiEncoderModel.contrastive_loss_weight := 1%R;
     BiEncoderModel.dist_attrs := None;
     BiEncoderModel.training := true |}.

Definition local_args (path : string) (untie : bool)
  : Checkpoint.model_args :=
  {| Checkpoint.model_name_or_path := path;
     Checkpoint.untie_encoder := untie;
     Checkpoint.add_pooler := false;
     Checkpoint.projection_in_dim := 2;
     Checkpoint.projection_out_dim := 1;
     Checkpoint.normlized := false;
     Checkpoint.sentence_pooling_method := "cls" |}.

Definition training_args (negatives : bool) : Checkpoint.train_args :=
  {| Checkpoint.negatives_x_device := negatives;
     Checkpoint.temperature := (5 / 100)%R;
     Checkpoint.contrastive_loss_weight := 1%R;
     Checkpoint.loss_type := "myloss" |}.

End Fixtures.

(** * Properties *)

(** ** Integers that fit *)

Lemma wrap64_small (z : Z) :
  (- 2 ^ 63 <= z <= int64_max)%Z -> wrap64 z = z.
Proof.
  unfold wrap64, int64_max. intros Hz.
  rewrite Z.mod_small; lia.
Qed.

Lemma wrap64_of_nat (n : nat) :
  (Z.of_nat n <= int64_max)%Z -> wrap64 (Z.of_nat n) = Z.of_nat n.
Proof. intros Hn. apply wrap64_small. unfold int64_max in *. lia. Qed.

(** ** Scattering one block per row *)

Section Scatter.

Implicit Types (row src : list R) (self : list (list R)).

(** Writing [src] at the consecutive positions [start, start+1, ...]. *)
Lemma scatter_row_consecutive src : forall row start,
  start + length src <= length row ->
  Torch.scatter_row row (Z.of_nat <$> seq start (length src)) src
  = Ok (take start row ++ src ++ drop (start + length src) row).
Proof.
  induction src as [|v src IH]; intros row start Hlen; simpl in *.
  - by rewrite Nat.add_0_r, take_drop.
  - assert (Hin : start < length row) by lia.
    rewrite (proj2 (Z.leb_le 0 (Z.of_nat start))) by lia.
    rewrite (proj2 (Z.ltb_lt (Z.of_nat start) (Z.of_nat (length row))))
      by lia.
    simpl. rewrite Nat2Z.id, IH by (rewrite length_insert; lia).
    f_equal.
    rewrite (take_S_r _ _ v) by (by apply list_lookup_insert_eq).
    rewrite take_insert_ge by lia.
    rewrite drop_insert_lt by lia.
    rewrite <- app_assoc. simpl.
    by rewrite Nat.add_succ_r.
Qed.

(** The index tensor holds [i * N + j] at row i, column j, as long as
    the largest index fits 64 bits. *)
Lemma scatter_indices_consecutive (B N : nat) :
  (Z.of_nat (B * N) <= int64_max)%Z ->
  BiEncoderModel.scatter_indices B N
  = (fun i => Z.of_nat <$> seq (i * N) N) <$> seq 0 B.
Proof.
  intros Hfit. unfold BiEncoderModel.scatter_indices, Torch.arange.
  rewrite <- list_fmap_compose. apply list_eq. intros i.
  rewrite !list_lookup_fmap.
  destruct (seq 0 B !! i) as [i'|] eqn:Hi; [|done]. simpl. f_equal.
  apply lookup_seq in Hi as [-> Hi].
  rewrite <- list_fmap_compose. apply list_eq. intros j.
  rewrite !list_lookup_fmap.
  destruct (seq 0 N !! j) as [j'|] eqn:Hj.
  - apply lookup_seq in Hj as [-> Hj]. simpl.
    rewrite (proj2 (lookup_seq (i * N) N j (i * N + j))) by done. simpl.
    f_equal. unfold int64_max in Hfit.
    assert (i * N + j < B * N) by nia.
    rewrite <- Nat2Z.inj_mul, wrap64_of_nat by (unfold int64_max; nia).
    rewrite <- Nat2Z.inj_add, wrap64_of_nat by (unfold int64_max; lia).
    done.
  - apply lookup_ge_None in Hj. rewrite length_seq in Hj. simpl.
    rewrite (proj2 (lookup_ge_None (seq (i * N) N) j)); [done|].
    rewrite length_seq. lia.
Qed.

(** Scattering row [k] of [src] into the block of row [k] that starts at
    column [(i0 + k) * N], for every [k]. *)
Lemma scatter_blocks (N W : nat) src_rows : forall self i0,
  length self = length src_rows ->
  Forall (fun r => length r = N) src_rows ->
  Forall (fun r => length r = W) self ->
  (i0 + length src_rows) * N <= W ->
  exists target,
    Torch.scatter_ self
      ((fun i => Z.of_nat <$> seq (i * N) N) <$> seq i0 (length src_rows))
      src_rows = Ok target
    /\ length target = length src_rows
    /\ forall k Rk rowk,
         src_rows !! k = Some Rk -> self !! k = Some rowk ->
         target !! k
         = Some (take ((i0 + k) * N) rowk ++ Rk
                 ++ drop ((i0 + k) * N + N) rowk).
Proof.
  induction src_rows as [|s src_rows IH]; intros self i0 Hlen HN HW Hfit.
  - destruct self; [|done]. exists []. simpl. split_and!; [done..|].
    intros k ? ? Hk. by rewrite lookup_nil in Hk.
  - destruct self as [|row self]; [done|].
    apply Forall_cons in HN as [Hs HN]. apply Forall_cons in HW as [Hr HW].
    simpl in Hlen, Hfit.
    destruct (IH self (S i0)) as (rest & Hrest & Hlrest & Hrows);
      [lia | done | done | simpl; lia |].
    pose proof (scatter_row_consecutive s row (i0 * N)) as Hrow.
    rewrite Hs in Hrow.
    exists ((take (i0 * N) row ++ s ++ drop (i0 * N + N) row) :: rest).
    split.
    { cbn [length seq]. rewrite fmap_cons. cbn [Torch.scatter_].
      rewrite Hrow by nia. cbn [bind]. by rewrite Hrest. }
    split; [simpl; lia|].
    intros [|k] Rk rowk; simpl.
    + intros [= <-] [= <-]. by rewrite Nat.add_0_r.
    + intros HRk Hrowk. rewrite (Hrows k Rk rowk) by done.
      by replace (S i0 + k) with (i0 + S k) by lia.
Qed.

End Scatter.

Lemma zeros_like_lookup (m : list (list R)) (W i : nat) :
  Forall (fun r => length r = W) m -> i < length m ->
  Torch.zeros_like m !! i = Some (replicate W 0%R).
Proof.
  intros HW Hi. unfold Torch.zeros_like. rewrite list_lookup_fmap.
  destruct (lookup_lt_is_Some_2 m i Hi) as [r Hr]. rewrite Hr. simpl.
  by rewrite (proj1 (Forall_lookup _ m) HW i r Hr).
Qed.

(** C1.  For a teacher relevance matrix of shape B x N and scores of shape
    B x (B*N), the target built by [forward] exists, has B rows of length
    B*N, and its row i carries row i of the teacher matrix on the columns
    [i*N .. i*N+N-1] and zero on every other column. *)
Theorem teacher_target_blocks
    (B N : nat) (scores teacher_score : list (list R)) :
  length teacher_score = B ->
  Forall (fun r => length r = N) teacher_score ->
  length scores = B ->
  Forall (fun r => length r = B * N) scores ->
  (Z.of_nat (B * N) <= int64_max)%Z ->
  exists target,
    BiEncoderModel.teacher_target scores teacher_score = Ok target
    /\ length target = B
    /\ forall i Ri, teacher_score !! i = Some Ri ->
         exists row,
           target !! i = Some row
           /\ length row = B * N
           /\ (forall j, j < N -> row !! (i * N + j) = Ri !! j)
           /\ (forall c, c < B * N -> ~ (i * N <= c < i * N + N) ->
                 row !! c = Some 0%R).
Proof.
  intros HB HN HsB HsW Hfit. unfold BiEncoderModel.teacher_target.
  assert (HN' : B = 0 \/ size1 teacher_score = N).
  { destruct teacher_score as [|r ?]; [left; by subst B|right].
    by apply Forall_cons in HN as [? _]. }
  assert (Hidx : BiEncoderModel.scatter_indices
                   (length teacher_score) (size1 teacher_score)
                 = (fun i => Z.of_nat <$> seq (i * N) N)
                     <$> seq 0 (length teacher_score)).
  { destruct HN' as [->| ->].
    - rewrite HB. reflexivity.
    - rewrite HB. by apply scatter_indices_consecutive. }
  rewrite Hidx.
  destruct (scatter_blocks N (B * N) teacher_score
              (Torch.zeros_like scores) 0)
    as (target & Htarget & Hlen & Hrows).
  { unfold Torch.zeros_like. rewrite length_fmap. lia. }
  { done. }
  { unfold Torch.zeros_like. apply Forall_fmap.
    eapply Forall_impl; [exact HsW|]. intros r Hr. simpl.
    by rewrite length_replicate. }
  { simpl. rewrite HB. lia. }
  exists target. split; [done|]. split; [lia|].
  intros i Ri HRi.
  assert (Hi : i < B) by (rewrite <- HB; by eapply lookup_lt_Some).
  assert (HlRi : length Ri = N)
    by exact (proj1 (Forall_lookup _ teacher_score) HN i Ri HRi).
  assert (Hblock : i * N + N <= B * N) by nia.
  rewrite (Hrows i Ri (replicate (B * N) 0%R) HRi)
    by (apply zeros_like_lookup; [done | lia]).
  simpl. rewrite take_replicate, drop_replicate.
  rewrite Nat.min_l by lia.
  eexists. split; [done|]. split; [|split].
  - rewrite !length_app, !length_replicate. lia.
  - intros j Hj.
    rewrite lookup_app_r by (rewrite length_replicate; lia).
    rewrite length_replicate.
    replace (i * N + j - i * N) with j by lia.
    by rewrite lookup_app_l by lia.
  - intros c Hc Hout.
    destruct (decide (c < i * N)) as [Hlt|Hge].
    + rewrite lookup_app_l by (rewrite length_replicate; lia).
      by apply lookup_replicate_2.
    + rewrite lookup_app_r by (rewrite length_replicate; lia).
      rewrite length_replicate.
      rewrite lookup_app_r by lia.
      apply lookup_replicate_2. lia.
Qed.

Lemma teacher_target_blocks_witness :
  exists target,
    BiEncoderModel.teacher_target
      [[7; 7; 7; 7]; [7; 7; 7; 7]]%R [[1; 2]; [3; 4]]%R = Ok target
    /\ length target = 2
    /\ forall i Ri, [[1; 2]; [3; 4]]%R !! i = Some Ri ->
         exists row,
           target !! i = Some row
           /\ length row = 2 * 2
           /\ (forall j, j < 2 -> row !! (i * 2 + j) = Ri !! j)
           /\ (forall c, c < 2 * 2 -> ~ (i * 2 <= c < i * 2 + 2) ->
                 row !! c = Some 0%R).
Proof.
  apply (teacher_target_blocks 2 2).
  - reflexivity.
  - repeat constructor.
  - reflexivity.
  - repeat constructor.
  - unfold int64_max. simpl. lia.
Defined.

(** C2.  Without teacher scores, for Q queries and P = k * Q passages
    (k positive, P within the range of a tensor size), the class target
    exists when there is a query, has Q entries, and entry i is i * k. *)
Theorem implicit_target_multiple (Q k : nat) :
  0 < k ->
  (Z.of_nat (k * Q) <= int64_max)%Z ->
  (0 < Q -> exists target,
     BiEncoderModel.implicit_target Q (k * Q) Q = Ok target)
  /\ forall target,
       BiEncoderModel.implicit_target Q (k * Q) Q = Ok target ->
       length target = Q
       /\ forall i, i < Q -> target !! i = Some (Z.of_nat i * Z.of_nat k)%Z.
Proof.
  intros Hk Hfit. unfold BiEncoderModel.implicit_target.
  destruct Q as [|Q'] eqn:HQ; simpl Nat.eqb; cbv iota.
  - split; [lia|]. intros ? [=].
  - rewrite <- HQ in *. assert (HQpos : 0 < Q) by lia.
    rewrite Nat.div_mul by lia.
    split; [eauto|]. intros target [= <-].
    unfold Torch.arange. rewrite !length_fmap, length_seq.
    split; [done|]. intros i Hi.
    rewrite !list_lookup_fmap.
    rewrite (proj2 (lookup_seq 0 Q i i)) by done. simpl. f_equal.
    apply wrap64_small. unfold int64_max in *. nia.
Qed.

Lemma implicit_target_multiple_witness :
  (0 < 2 -> exists target,
     BiEncoderModel.implicit_target 2 (2 * 2) 2 = Ok target)
  /\ forall target,
       BiEncoderModel.implicit_target 2 (2 * 2) 2 = Ok target ->
       length target = 2
       /\ forall i, i < 2 -> target !! i = Some (Z.of_nat i * Z.of_nat 2)%Z.
Proof.
  apply (implicit_target_multiple 2 2).
  - lia.
  - unfold int64_max. simpl. lia.
Defined.

(** ** Counting nonzero losses *)

Lemma nonzero_true (x : R) : Torch.nonzero x = true <-> x <> 0%R.
Proof. unfold Torch.nonzero. destruct (Req_dec_T x 0); split; congruence. Qed.

Lemma positive_true (x : R) : Torch.positive x = true <-> (0 < x)%R.
Proof. unfold Torch.positive. destruct (Rlt_dec 0 x); split; congruence. Qed.

Lemma nonzero_count_le (loss : list R) :
  Spec.nonzero_count loss <= length loss.
Proof.
  unfold Spec.nonzero_count. induction loss as [|l loss IH]; simpl; [lia|].
  destruct (Torch.nonzero l); simpl; lia.
Qed.

Lemma nonzero_count_0 (loss : list R) :
  Spec.nonzero_count loss = 0 <-> Forall (fun l => l = 0%R) loss.
Proof.
  unfold Spec.nonzero_count. induction loss as [|l loss IH]; simpl.
  - split; [constructor | done].
  - destruct (Torch.nonzero l) eqn:Hl; simpl.
    + apply nonzero_true in Hl. split; [lia|].
      intros H. apply Forall_cons in H as [? _]. done.
    + assert (l = 0%R).
      { destruct (Req_dec_T l 0) as [?|Hne]; [done|].
        apply nonzero_true in Hne. congruence. }
      rewrite IH. split; [by constructor | by intros [_ ?]%Forall_cons].
Qed.

Lemma count_nonzero_fits (loss : list R) :
  (Z.of_nat (length loss) <= int64_max)%Z ->
  BiEncoderModel.count_nonzero loss = Z.of_nat (Spec.nonzero_count loss).
Proof.
  intros Hfit. unfold BiEncoderModel.count_nonzero.
  assert (Hsum : foldr Z.add 0%Z
                   ((fun l => if Torch.nonzero l then 1%Z else 0%Z) <$> loss)
                 = Z.of_nat (Spec.nonzero_count loss)).
  { unfold Spec.nonzero_count. clear Hfit.
    induction loss as [|l loss IH]; [done|].
    rewrite fmap_cons. cbn [foldr List.filter]. rewrite IH.
    destruct (Torch.nonzero l); cbn [length]; lia. }
  rewrite Hsum. apply wrap64_of_nat.
  pose proof (nonzero_count_le loss). lia.
Qed.

Lemma same_shape_length (a b : list (list R)) :
  Torch.same_shape a b = true -> length a = length b.
Proof.
  unfold Torch.same_shape. intros H.
  apply andb_prop in H as [H _]. by apply Nat.eqb_eq.
Qed.

(** The ['multi-softmax'] branch: unreduced losses, then the reduction. *)
Lemma multi_softmax_compute
    (self : BiEncoderModel.t) (scores : tensor (list (list R)))
    (target : list (list R)) :
  BiEncoderModel.loss_type self = "multi-softmax" ->
  Torch.same_shape (data scores) target = true ->
  Torch.cross_entropy_none (data scores) target
  = Ok (zip_with Torch.cross_entropy_row (data scores) target)
  /\ BiEncoderModel.compute_loss self scores (FloatTarget target)
     = Ok (Tensor (BiEncoderModel.multi_softmax_reduce
                     (zip_with Torch.cross_entropy_row (data scores) target))
                  (requires_grad scores)).
Proof.
  intros Hty Hshape.
  assert (Hce : Torch.cross_entropy_none (data scores) target
                = Ok (zip_with Torch.cross_entropy_row (data scores) target))
    by (unfold Torch.cross_entropy_none; by rewrite Hshape).
  split; [done|].
  unfold BiEncoderModel.compute_loss, BiEncoderModel.compute_loss_with. rewrite Hty. simpl String.eqb.
  cbv iota. by rewrite Hce.
Qed.

Lemma multi_softmax_reduce_zero (losses : list R) :
  (Z.of_nat (length losses) <= int64_max)%Z ->
  Forall (fun l => l = 0%R) losses ->
  BiEncoderModel.multi_softmax_reduce losses = 0%R.
Proof.
  intros Hfit Hzero. unfold BiEncoderModel.multi_softmax_reduce.
  rewrite (count_nonzero_fits _ Hfit).
  rewrite (proj2 (nonzero_count_0 losses) Hzero). simpl. lra.
Qed.

Lemma multi_softmax_reduce_nonzero (losses : list R) :
  (Z.of_nat (length losses) <= int64_max)%Z ->
  ~ Forall (fun l => l = 0%R) losses ->
  0 < Spec.nonzero_count losses
  /\ BiEncoderModel.multi_softmax_reduce losses
     = (Torch.sum losses / INR (Spec.nonzero_count losses))%R.
Proof.
  intros Hfit Hnz.
  assert (Hpos : 0 < Spec.nonzero_count losses).
  { destruct (Spec.nonzero_count losses) eqn:Hn; [|lia].
    by apply nonzero_count_0 in Hn. }
  split; [done|]. unfold BiEncoderModel.multi_softmax_reduce.
  rewrite (count_nonzero_fits _ Hfit).
  rewrite (proj2 (Z.eqb_neq _ 0)) by lia.
  by rewrite <- INR_IZR_INZ.
Qed.

(** The ['multi-softmax'] branch for any implementation of the unreduced
    cross entropy: its losses, then the reduction. *)
Lemma multi_softmax_compute_with
    (cross_entropy_batch : list (list R) -> list (list R) -> result (list R))
    (self : BiEncoderModel.t) (scores : tensor (list (list R)))
    (target : list (list R)) (losses : list R) :
  BiEncoderModel.loss_type self = "multi-softmax" ->
  cross_entropy_batch (data scores) target = Ok losses ->
  BiEncoderModel.compute_loss_with cross_entropy_batch self scores
    (FloatTarget target)
  = Ok (Tensor (BiEncoderModel.multi_softmax_reduce losses)
               (requires_grad scores)).
Proof.
  intros Hty Hce. unfold BiEncoderModel.compute_loss_with.
  rewrite Hty. simpl String.eqb. cbv iota. by rewrite Hce.
Qed.



(** The scores [[100, 0], [0, 0]] against the target [[1, 0], [1, 0]]:
    over the reals both examples cost something, in floats the first
    costs exactly 0.0.  On the losses [[0, log 2]] the code divides by
    one, not by two. *)
Example multi_softmax_saturated :
  BiEncoderModel.compute_loss_with (fun _ _ => Ok [0; ln 2]%R)
    (Sample.model "cls" "multi-softmax" 1 true)
    (Tensor [[100; 0]; [0; 0]]%R true) (FloatTarget [[1; 0]; [1; 0]]%R)
  = Ok (Tensor ((0 + (ln 2 + 0)) / INR 1)%R true).
Proof.
  rewrite (multi_softmax_compute_with _ _ _ _ [0; ln 2]%R) by done.
  assert (Hln : (0 < ln 2)%R).
  { rewrite <- ln_1. apply ln_increasing; lra. }
  destruct (multi_softmax_reduce_nonzero [0; ln 2]%R) as [_ ->].
  - unfold int64_max. simpl. lia.
  - intros H. apply Forall_cons in H as [_ H].
    apply Forall_cons in H as [H _]. lra.
  - do 3 f_equal. unfold Spec.nonzero_count. cbn [List.filter].
    unfold Torch.nonzero.
    destruct (Req_dec_T 0 0) as [_|Hne]; [|done].
    destruct (Req_dec_T (ln 2) 0) as [Heq|_]; [lra | done].
Qed.

Lemma sum_zero_products (t x : list R) :
  Forall (fun v => v = 0%R) t -> Torch.sum (zip_with Rmult t x) = 0%R.
Proof.
  intros Ht. revert x.
  induction Ht as [|v t -> _ IH]; intros [|y x]; simpl; try done.
  rewrite IH. lra.
Qed.

(** A target row of zeros costs nothing, so a batch whose target is zero
    everywhere has the ['multi-softmax'] loss 0. *)
Lemma multi_softmax_zero_target
    (self : BiEncoderModel.t) (scores : tensor (list (list R)))
    (target : list (list R)) :
  BiEncoderModel.loss_type self = "multi-softmax" ->
  Torch.same_shape (data scores) target = true ->
  (Z.of_nat (length (data scores)) <= int64_max)%Z ->
  Forall (Forall (fun v => v = 0%R)) target ->
  BiEncoderModel.compute_loss self scores (FloatTarget target)
  = Ok (Tensor 0%R (requires_grad scores)).
Proof.
  intros Hty Hshape Hfit Hzero.
  destruct (multi_softmax_compute self scores target Hty Hshape)
    as [_ ->].
  rewrite multi_softmax_reduce_zero; [done | |].
  - rewrite length_zip_with. apply same_shape_length in Hshape. lia.
  - apply Forall_lookup. intros i l Hl.
    rewrite lookup_zip_with in Hl.
    destruct (data scores !! i) as [x|]; [|done]. simpl in Hl.
    destruct (target !! i) as [t|] eqn:Ht; [|done]. simpl in Hl.
    injection Hl as <-. unfold Torch.cross_entropy_row.
    rewrite sum_zero_products; [lra|].
    exact (proj1 (Forall_lookup _ target) Hzero i t Ht).
Qed.

(** ** Rows kept by a mask *)

Lemma select_rows_retained (scores target : list (list R)) :
  length scores = length target ->
  let keep := (fun row => Torch.positive (Torch.sum row)) <$> target in
  zip (Torch.select_rows scores keep) (Torch.select_rows target keep)
  = Spec.retained_rows scores target.
Proof.
  unfold Spec.retained_rows. revert target.
  induction scores as [|s scores IH]; intros [|t target] Hlen;
    simpl in *; try done.
  destruct (Torch.positive (Torch.sum t)); simpl; rewrite IH by lia; done.
Qed.

Lemma select_rows_length (scores target : list (list R)) :
  length scores = length target ->
  let keep := (fun row => Torch.positive (Torch.sum row)) <$> target in
  length (Torch.select_rows scores keep)
  = length (Spec.retained_rows scores target).
Proof.
  unfold Spec.retained_rows. revert target.
  induction scores as [|s scores IH]; intros [|t target] Hlen;
    simpl in *; try done.
  destruct (Torch.positive (Torch.sum t)); simpl; rewrite IH by lia; done.
Qed.

Lemma retained_rows_nil (scores target : list (list R)) :
  length scores = length target ->
  Spec.retained_rows scores target = []
  <-> Forall (fun row => ~ (0 < Torch.sum row)%R) target.
Proof.
  unfold Spec.retained_rows. revert target.
  induction scores as [|s scores IH]; intros [|t target] Hlen;
    simpl in *; try done.
  destruct (Torch.positive (Torch.sum t)) eqn:Ht.
  - apply positive_true in Ht. split; [done|].
    by intros [? _]%Forall_cons.
  - rewrite IH by lia. split.
    + intros H. constructor; [|done].
      intros Hpos%positive_true. congruence.
    + by intros [_ ?]%Forall_cons.
Qed.

(** The ['myloss'] branch with no row kept, and with some row kept. *)
Lemma myloss_none_retained
    (scores : tensor (list (list R))) (target : list (list R)) :
  length (data scores) = length target ->
  Forall (fun row => ~ (0 < Torch.sum row)%R) target ->
  BiEncoderModel.myloss scores target = Ok (Tensor 0%R true).
Proof.
  intros Hlen Hall. unfold BiEncoderModel.myloss, Torch.index_mask.
  rewrite !length_fmap, Hlen, Nat.eqb_refl. cbn [bind].
  rewrite (select_rows_length _ _ Hlen).
  apply (retained_rows_nil _ _ Hlen) in Hall. by rewrite Hall.
Qed.

Lemma myloss_some_retained
    (scores : tensor (list (list R))) (target : list (list R)) :
  length (data scores) = length target ->
  Exists (fun row => (0 < Torch.sum row)%R) target ->
  BiEncoderModel.myloss scores target
  = Ok (Tensor (Spec.myloss (data scores) target) (requires_grad scores)).
Proof.
  intros Hlen Hex. unfold BiEncoderModel.myloss, Torch.index_mask.
  rewrite !length_fmap, Hlen, Nat.eqb_refl. cbn [bind].
  rewrite (select_rows_length _ _ Hlen).
  destruct (Spec.retained_rows (data scores) target) as [|p ps] eqn:Hret.
  { apply retained_rows_nil in Hret; [|done].
    apply Exists_exists in Hex as (row & Hin & Hpos).
    by destruct (proj1 (Forall_forall _ _) Hret row Hin). }
  cbn [length Nat.eqb]. do 2 f_equal.
  unfold Spec.myloss, Spec.myloss_row, Torch.dot. rewrite Hret. f_equal.
  rewrite zip_with_fmap_l, zip_with_zip.
  rewrite (select_rows_retained _ _ Hlen), Hret.
  rewrite <- !list_fmap_compose.
  apply list_fmap_ext. by intros _ [s t] _.
Qed.

Lemma myloss_compute
    (self : BiEncoderModel.t) (scores : tensor (list (list R)))
    (target : list (list R)) :
  BiEncoderModel.loss_type self = "myloss" ->
  BiEncoderModel.compute_loss self scores (FloatTarget target)
  = BiEncoderModel.myloss scores target.
Proof. intros Hty. unfold BiEncoderModel.compute_loss, BiEncoderModel.compute_loss_with. by rewrite Hty. Qed.

(** C4.  With [loss_type = 'myloss'] and a target of the shape of the
    scores: when some target row has a positive sum, the loss is the mean,
    over the rows whose target row-sum is positive, of
    [-log(clamp(softmax(scores_row) . target_row, 1e-9, 1.0))]; when no
    target row has a positive sum, the loss is exactly 0 with
    [requires_grad] set. *)
Theorem myloss_mean_over_retained
    (self : BiEncoderModel.t) (scores : tensor (list (list R)))
    (target : list (list R)) :
  BiEncoderModel.loss_type self = "myloss" ->
  Torch.same_shape (data scores) target = true ->
  (Exists (fun row => (0 < Torch.sum row)%R) target ->
   BiEncoderModel.compute_loss self scores (FloatTarget target)
   = Ok (Tensor (Spec.myloss (data scores) target) (requires_grad scores)))
  /\ (Forall (fun row => ~ (0 < Torch.sum row)%R) target ->
      BiEncoderModel.compute_loss self scores (FloatTarget target)
      = Ok (Tensor 0%R true)).
Proof.
  intros Hty Hshape. pose proof (same_shape_length _ _ Hshape) as Hlen.
  rewrite (myloss_compute self scores target Hty). split.
  - by apply myloss_some_retained.
  - by apply myloss_none_retained.
Qed.

Lemma myloss_mean_over_retained_witness :
  (Exists (fun row => (0 < Torch.sum row)%R) [[1; 0]]%R ->
   BiEncoderModel.compute_loss (Sample.model "cls" "myloss" 1 true)
     (Tensor [[0; 0]]%R true) (FloatTarget [[1; 0]]%R)
   = Ok (Tensor (Spec.myloss [[0; 0]]%R [[1; 0]]%R) true))
  /\ (Forall (fun row => ~ (0 < Torch.sum row)%R) [[1; 0]]%R ->
      BiEncoderModel.compute_loss (Sample.model "cls" "myloss" 1 true)
        (Tensor [[0; 0]]%R true) (FloatTarget [[1; 0]]%R)
      = Ok (Tensor 0%R true)).
Proof.
  apply (myloss_mean_over_retained (Sample.model "cls" "myloss" 1 true)
           (Tensor [[0; 0]]%R true) [[1; 0]]%R).
  - reflexivity.
  - reflexivity.
Defined.

(** A batch whose target rows all sum to zero has the ['myloss'] loss 0,
    on a fresh tensor that requires grad. *)
Lemma myloss_zero_target
    (self : BiEncoderModel.t) (scores : tensor (list (list R)))
    (target : list (list R)) :
  BiEncoderModel.loss_type self = "myloss" ->
  Torch.same_shape (data scores) target = true ->
  Forall (fun row => Torch.sum row = 0%R) target ->
  BiEncoderModel.compute_loss self scores (FloatTarget target)
  = Ok (Tensor 0%R true).
Proof.
  intros Hty Hshape Hzero. rewrite (myloss_compute self scores target Hty).
  apply myloss_none_retained; [by apply same_shape_length|].
  eapply Forall_impl; [exact Hzero|]. intros row ->. simpl. lra.
Qed.

(** ** Pooling methods *)

(** C5 (what the code does).  With a pooling method other than ['mean']
    and ['cls'], [sentence_embedding] raises nothing: neither branch is
    taken and the call returns [None]. *)
Theorem sentence_embedding_unknown_method
    (self : BiEncoderModel.t) (hidden_state : tensor (list (list (list R))))
    (mask : list (list Z)) :
  BiEncoderModel.sentence_pooling_method self <> "mean" ->
  BiEncoderModel.sentence_pooling_method self <> "cls" ->
  BiEncoderModel.sentence_embedding self hidden_state mask = Ok None.
Proof.
  intros Hmean Hcls. unfold BiEncoderModel.sentence_embedding.
  apply String.eqb_neq in Hmean, Hcls. by rewrite Hmean, Hcls.
Qed.

Lemma sentence_embedding_unknown_method_witness :
  BiEncoderModel.sentence_embedding (Sample.model "max" "softmax" 1 true)
    (Sample.lm (Sample.batch [[5; 6]]%Z [[1; 1]]%Z)) [[1; 1]]%Z
  = Ok None.
Proof.
  apply (sentence_embedding_unknown_method
           (Sample.model "max" "softmax" 1 true)); discriminate.
Defined.

(** The [None] is met only by the code that follows the pooling: a
    pooler raises [ValueError] on it, [F.normalize] and [.contiguous()]
    raise [AttributeError]. *)
Lemma encode_unknown_method_raises
    (self : BiEncoderModel.t) (side_q : bool) :
  raises (BiEncoderModel.finish_encode self side_q None).
Proof.
  unfold raises, BiEncoderModel.finish_encode.
  destruct (BiEncoderModel.pooler self) as [pl|]; simpl.
  - destruct side_q; simpl; eauto.
  - destruct (BiEncoderModel.normlized self); simpl; eauto.
Qed.

(** ** Views of rectangular tensors *)

Lemma concat_length_rect (w : nat) (m : list (list R)) :
  Forall (fun r => length r = w) m -> length (concat m) = length m * w.
Proof.
  induction 1 as [|r m Hr _ IH]; simpl; [done|].
  rewrite length_app, IH, Hr. lia.
Qed.

Lemma concat_row (w : nat) (m : list (list R)) : forall i r,
  Forall (fun r => length r = w) m ->
  m !! i = Some r ->
  take w (drop (i * w) (concat m)) = r.
Proof.
  induction m as [|r0 m IH]; intros i r Hw Hi; [by rewrite lookup_nil in Hi|].
  apply Forall_cons in Hw as [Hr0 Hw]. destruct i as [|i]; simpl in *.
  - injection Hi as <-. rewrite <- Hr0. rewrite drop_0.
    by rewrite take_app_length.
  - rewrite drop_app_ge by lia.
    replace (w + i * w - length r0) with (i * w) by lia.
    by apply IH.
Qed.

(** [view(n, -1)] of a tensor that already has [n] rows is that tensor. *)
Lemma view_rows_concat (w : nat) (m : list (list R)) :
  0 < length m ->
  Forall (fun r => length r = w) m ->
  Torch.view_rows (length m) (concat m) = Ok m.
Proof.
  intros Hn Hw. unfold Torch.view_rows.
  rewrite (proj2 (Nat.eqb_neq (length m) 0)) by lia.
  rewrite (concat_length_rect w m Hw).
  replace (length m * w) with (w * length m) by lia.
  rewrite Nat.Div0.mod_mul, Nat.div_mul by lia. simpl. f_equal.
  apply list_eq. intros i. rewrite list_lookup_fmap.
  destruct (m !! i) as [r|] eqn:Hi.
  - rewrite (proj2 (lookup_seq 0 (length m) i i))
      by (split; [done | by eapply lookup_lt_Some]).
    simpl. f_equal. by apply concat_row.
  - apply lookup_ge_None in Hi.
    rewrite (proj2 (lookup_ge_None (seq 0 (length m)) i)); [done|].
    by rewrite length_seq.
Qed.

(** Dividing two-axis scores by the temperature and viewing them with one
    row per query. *)
Lemma scale_and_view_2d
    (self : BiEncoderModel.t) (q : tensor (list (list R)))
    (scores : list (list R)) (rg : bool) (w : nat) :
  0 < length (data q) ->
  length scores = length (data q) ->
  Forall (fun r => length r = w) scores ->
  BiEncoderModel.scale_and_view self q (Tensor (Nd2 scores) rg)
  = Ok (Tensor
          (map (map (fun x => x / BiEncoderModel.temperature self)%R) scores)
          rg).
Proof.
  intros Hq Hlen Hw. unfold BiEncoderModel.scale_and_view. simpl.
  rewrite <- Hlen.
  rewrite <- (length_map (map (fun x => (x / BiEncoderModel.temperature self)%R))
                scores).
  rewrite (view_rows_concat w); [done | rewrite length_map; lia |].
  apply Forall_fmap. eapply Forall_impl; [exact Hw|].
  intros r Hr. simpl. by rewrite length_map.
Qed.

(** ** Temperature *)

(** C6 (as the code has it).  The constructor never looks at the
    temperature: it raises only when [negatives_x_device] is set and the
    distributed runtime is not initialised, and otherwise stores the
    temperature it was given, whatever its sign.  The training forward pass
    divides the scores by the stored temperature without a check. *)
Theorem temperature_not_validated
    (rt : dist_runtime)
    (lm_q lm_p : token_batch -> tensor (list (list (list R))))
    (pooler : option DensePooler.t) (untie_encoder normlized : bool)
    (method : string) (negatives_x_device : bool) (T weight : R)
    (loss_type : string)
    (q : tensor (list (list R))) (scores : list (list R)) (rg : bool)
    (w : nat) :
  0 < length (data q) ->
  length scores = length (data q) ->
  Forall (fun r => length r = w) scores ->
  BiEncoderModel.init rt lm_q lm_p pooler untie_encoder normlized method
    negatives_x_device T weight loss_type
  = (if (negatives_x_device && negb (is_initialized rt))%bool
     then Raise ValueError
     else Ok {| BiEncoderModel.lm_q := lm_q;
                BiEncoderModel.lm_p := lm_p;
                BiEncoderModel.pooler := pooler;
                BiEncoderModel.untie_encoder := untie_encoder;
                BiEncoderModel.normlized := normlized;
                BiEncoderModel.sentence_pooling_method := method;
                BiEncoderModel.temperature := T;
                BiEncoderModel.loss_type := loss_type;
                BiEncoderModel.negatives_x_device := negatives_x_device;
                BiEncoderModel.contrastive_loss_weight := weight;
                BiEncoderModel.dist_attrs :=
                  if negatives_x_device
                  then Some (get_rank rt, get_world_size rt) else None;
                BiEncoderModel.training := true |})
  /\ forall self,
       BiEncoderModel.temperature self = T ->
       BiEncoderModel.scale_and_view self q (Tensor (Nd2 scores) rg)
       = Ok (Tensor (map (map (fun x => x / T)%R) scores) rg).
Proof.
  intros Hq Hlen Hw. split.
  - unfold BiEncoderModel.init.
    destruct negatives_x_device; [|done].
    by destruct (is_initialized rt).
  - intros self <-. by apply (scale_and_view_2d self q scores rg w).
Qed.

Lemma temperature_not_validated_witness :
  BiEncoderModel.init Sample.single_process Sample.lm Sample.lm None
    false false "cls" false (-1) 1 "softmax"
  = Ok (Sample.model "cls" "softmax" (-1) true)
  /\ forall self,
       BiEncoderModel.temperature self = (-1)%R ->
       BiEncoderModel.scale_and_view self
         (Tensor [[1; 1]; [2; 1]]%R true)
         (Tensor (Nd2 [[4; 5]; [7; 9]]%R) true)
       = Ok (Tensor (map (map (fun x => x / (-1))%R) [[4; 5]; [7; 9]]%R)
                    true).
Proof.
  apply (temperature_not_validated Sample.single_process Sample.lm Sample.lm
           None false false "cls" false (-1) 1 "softmax"
           (Tensor [[1; 1]; [2; 1]]%R true) [[4; 5]; [7; 9]]%R true 2).
  - simpl. lia.
  - reflexivity.
  - repeat constructor.
Defined.

(** C6 (as the specification has it) fails: a model with temperature -1
    is constructed without an error, and its training forward pass on two
    queries and two passages returns scores and a loss. *)
Lemma nonpositive_temperature_accepted :
  (-1 <= 0)%R
  /\ ~ raises (BiEncoderModel.init Sample.single_process Sample.lm Sample.lm
                 None false false "cls" false (-1) 1 "softmax")
  /\ BiEncoderModel.init Sample.single_process Sample.lm Sample.lm
       None false false "cls" false (-1) 1 "softmax"
     = Ok (Sample.model "cls" "softmax" (-1) true)
  /\ ~ raises (BiEncoderModel.forward (Sample.model "cls" "softmax" (-1) true)
                 Sample.single_process
                 (Some (Sample.batch [[1]; [2]]%Z [[1]; [1]]%Z))
                 (Some (Sample.batch [[3]; [4]]%Z [[1]; [1]]%Z)) None).
Proof.
  split; [lra|]. split; [intros [e He]; discriminate He|].
  split; [reflexivity|]. intros [e He]. discriminate He.
Qed.

(** ** Mean pooling *)

Section MeanPooling.

Implicit Types (tokens : list (list R)) (tok : list R) (mask_row : list Z).

(** Adding up vectors of one length, component by component. *)
Lemma foldr_vector_sum (D : nat) (vs : list (list R)) :
  Forall (fun v => length v = D) vs ->
  foldr (zip_with Rplus) (replicate D 0%R) vs
  = (fun h => Torch.sum (Spec.column h vs)) <$> seq 0 D.
Proof.
  induction 1 as [|v vs Hv _ IH]; cbn [foldr].
  - apply list_eq. intros h. rewrite list_lookup_fmap.
    destruct (decide (h < D)) as [Hh|Hh].
    + rewrite (proj2 (lookup_seq 0 D h h)) by done.
      by apply lookup_replicate_2.
    + rewrite (proj2 (lookup_ge_None (seq 0 D) h)) by (rewrite length_seq; lia).
      apply lookup_ge_None. rewrite length_replicate. lia.
  - rewrite IH. apply list_eq. intros h.
    rewrite lookup_zip_with, !list_lookup_fmap.
    destruct (decide (h < D)) as [Hh|Hh].
    + rewrite (proj2 (lookup_seq 0 D h h)) by done.
      destruct (lookup_lt_is_Some_2 v h) as [x Hx]; [lia|].
      rewrite Hx. simpl. do 2 f_equal.
      symmetry. by apply nth_lookup_Some with (d := 0%R).
    + rewrite (proj2 (lookup_ge_None (seq 0 D) h)) by (rewrite length_seq; lia).
      simpl. by destruct (v !! h).
Qed.

Lemma nth_scaled (c : R) tok : forall h,
  nth h ((fun x => x * c)%R <$> tok) 0%R = (nth h tok 0 * c)%R.
Proof.
  induction tok as [|x tok IH]; intros [|h]; simpl; try lra. apply IH.
Qed.

Lemma column_scaled (h : nat) tokens mask_row :
  Spec.column h
    (zip_with (fun tok m => (fun x => x * IZR m)%R <$> tok) tokens mask_row)
  = zip_with (fun x m => x * IZR m)%R (Spec.column h tokens) mask_row.
Proof.
  unfold Spec.column. revert mask_row.
  induction tokens as [|tok tokens IH]; intros [|m mask_row]; simpl; try done.
  rewrite IH. f_equal. apply nth_scaled.
Qed.

(** On a 0/1 mask the sum of the mask is the number of unmasked tokens. *)
Lemma mask_sum_count mask_row :
  Forall (fun m => m = 0%Z \/ m = 1%Z) mask_row ->
  foldr Z.add 0%Z mask_row = Z.of_nat (Spec.unmasked_count mask_row).
Proof.
  unfold Spec.unmasked_count.
  induction 1 as [|m mask_row [-> | ->] _ IH]; simpl; [done|lia|lia].
Qed.

Lemma unmasked_count_le mask_row :
  Spec.unmasked_count mask_row <= length mask_row.
Proof.
  unfold Spec.unmasked_count.
  induction mask_row as [|m mask_row IH]; simpl; [lia|].
  destruct (negb (m =? 0)%Z); simpl; lia.
Qed.

Lemma mask_count_unmasked mask_row :
  Forall (fun m => m = 0%Z \/ m = 1%Z) mask_row ->
  (Z.of_nat (length mask_row) <= int64_max)%Z ->
  BiEncoderModel.mask_count mask_row = INR (Spec.unmasked_count mask_row).
Proof.
  intros Hbin Hfit. unfold BiEncoderModel.mask_count.
  rewrite (mask_sum_count _ Hbin), wrap64_of_nat.
  - by rewrite <- INR_IZR_INZ.
  - pose proof (unmasked_count_le mask_row). lia.
Qed.

(** One example: the code's [s / d] is the masked average. *)
Lemma mean_pool_masked_average (L D : nat) tokens mask_row :
  length tokens = L ->
  Forall (fun tok => length tok = D) tokens ->
  length mask_row = L ->
  Forall (fun m => m = 0%Z \/ m = 1%Z) mask_row ->
  0 < Spec.unmasked_count mask_row ->
  (Z.of_nat L <= int64_max)%Z ->
  BiEncoderModel.mean_pool tokens mask_row
  = Spec.masked_average D tokens mask_row.
Proof.
  intros HL HD HmL Hbin Hpos Hfit.
  unfold BiEncoderModel.mean_pool, BiEncoderModel.masked_sum,
    Spec.masked_average.
  assert (Hsize : size1 tokens = D).
  { pose proof (unmasked_count_le mask_row).
    destruct tokens as [|tok ?]; [simpl in *; lia|].
    by apply Forall_cons in HD as [? _]. }
  rewrite Hsize, (foldr_vector_sum D).
  - rewrite <- list_fmap_compose. apply list_fmap_ext. intros _ h _. simpl.
    rewrite column_scaled, mask_count_unmasked by (done || lia). done.
  - apply Forall_lookup. intros i v Hv.
    rewrite lookup_zip_with in Hv.
    destruct (tokens !! i) as [tok|] eqn:Htok; [|done]. simpl in Hv.
    destruct (mask_row !! i) as [m|]; [|done]. injection Hv as <-.
    rewrite length_fmap.
    exact (proj1 (Forall_lookup _ tokens) HD i tok Htok).
Qed.

(** With every token unmasked the masked average is the plain one. *)
Lemma masked_average_all_ones (D : nat) tokens :
  Spec.masked_average D tokens (replicate (length tokens) 1%Z)
  = Spec.plain_average D tokens.
Proof.
  unfold Spec.masked_average, Spec.plain_average.
  apply list_fmap_ext. intros _ h _. f_equal.
  - f_equal. unfold Spec.column.
    rewrite zip_with_replicate_r by (rewrite length_fmap; lia).
    rewrite <- list_fmap_compose. apply list_fmap_ext.
    intros _ tok _. simpl. lra.
  - f_equal. unfold Spec.unmasked_count.
    induction tokens as [|tok tokens IH]; simpl; [done|]. by rewrite IH.
Qed.

End MeanPooling.

(** Operands of one size along an axis are paired as they are. *)
Lemma broadcast_axis_same {A B : Type} (a : list A) (b : list B) :
  length a = length b -> Torch.broadcast_axis a b = Ok (a, b).
Proof.
  intros Hlen. unfold Torch.broadcast_axis.
  by rewrite (proj2 (Nat.eqb_eq _ _) Hlen).
Qed.

Lemma mean_pool_example_fits (tokens : list (list R)) (mask_row : list Z) :
  length tokens = length mask_row ->
  BiEncoderModel.mean_pool_example tokens mask_row
  = Ok (BiEncoderModel.mean_pool tokens mask_row).
Proof.
  intros Hlen. unfold BiEncoderModel.mean_pool_example.
  by rewrite broadcast_axis_same.
Qed.

Lemma mapM_mean_pool_fits
    (hidden_state : list (list (list R))) (mask : list (list Z)) :
  Shape.mask_fits hidden_state mask ->
  BiEncoderModel.mapM
    (fun example => BiEncoderModel.mean_pool_example example.1 example.2)
    (zip hidden_state mask)
  = Ok (zip_with BiEncoderModel.mean_pool hidden_state mask).
Proof.
  induction 1 as [|tokens mask_row hidden_state mask Hlen _ IH];
    cbn [zip_with BiEncoderModel.mapM]; [done|].
  cbn [fst snd]. rewrite (mean_pool_example_fits _ _ Hlen). cbn [bind].
  fold (zip hidden_state mask). by rewrite IH.
Qed.

(** The ['mean'] branch on a mask with one entry per token: nothing is
    broadcast and every example is pooled with its own mask row. *)
Lemma sentence_embedding_mean
    (self : BiEncoderModel.t) (hidden_state : tensor (list (list (list R))))
    (mask : list (list Z)) :
  BiEncoderModel.sentence_pooling_method self = "mean" ->
  Shape.mask_fits (data hidden_state) mask ->
  BiEncoderModel.sentence_embedding self hidden_state mask
  = Ok (Some (Tensor (zip_with BiEncoderModel.mean_pool
                               (data hidden_state) mask)
                     (requires_grad hidden_state))).
Proof.
  intros Hmethod Hfits. unfold BiEncoderModel.sentence_embedding.
  rewrite Hmethod. simpl String.eqb. cbv iota.
  rewrite broadcast_axis_same by (by eapply Forall2_length).
  cbn [bind fst snd]. by rewrite mapM_mean_pool_fits.
Qed.

Lemma mask_fits_shapes
    (hidden_state : list (list (list R))) (mask : list (list Z))
    (L D : nat) :
  length hidden_state = length mask ->
  Forall (Spec.well_shaped_example L D) hidden_state ->
  Forall (Spec.attention_row L) mask ->
  Shape.mask_fits hidden_state mask.
Proof.
  intros Hlen Hhid Hmask. apply Forall2_same_length_lookup_2; [done|].
  intros b tokens mask_row Htok Hrow.
  destruct (proj1 (Forall_lookup _ _) Hhid b tokens Htok) as [HL _].
  destruct (proj1 (Forall_lookup _ _) Hmask b mask_row Hrow) as [HmL _].
  lia.
Qed.

(** C7.  With [sentence_pooling_method = 'mean'], hidden states of shape
    B x L x D and a 0/1 attention mask of shape B x L in which every
    example has an unmasked token, the embedding of each example is the
    masked average of its token vectors: per component, the sum over the
    sequence of hidden state times mask, divided by the number of unmasked
    tokens.  When the mask is 1 everywhere this is the plain average of the
    token vectors. *)
Theorem mean_pooling_masked_average
    (self : BiEncoderModel.t) (hidden_state : tensor (list (list (list R))))
    (mask : list (list Z)) (L D : nat) :
  BiEncoderModel.sentence_pooling_method self = "mean" ->
  length (data hidden_state) = length mask ->
  Forall (Spec.well_shaped_example L D) (data hidden_state) ->
  Forall (Spec.attention_row L) mask ->
  (Z.of_nat L <= int64_max)%Z ->
  BiEncoderModel.sentence_embedding self hidden_state mask
  = Ok (Some (Tensor (zip_with (Spec.masked_average D)
                               (data hidden_state) mask)
                     (requires_grad hidden_state)))
  /\ (Forall (fun mask_row => mask_row = replicate L 1%Z) mask ->
      BiEncoderModel.sentence_embedding self hidden_state mask
      = Ok (Some (Tensor (Spec.plain_average D <$> data hidden_state)
                         (requires_grad hidden_state)))).
Proof.
  intros Hmethod Hlen Hhid Hmask Hfit.
  assert (Hcode : BiEncoderModel.sentence_embedding self hidden_state mask
                  = Ok (Some (Tensor (zip_with (Spec.masked_average D)
                                               (data hidden_state) mask)
                                     (requires_grad hidden_state)))).
  { rewrite sentence_embedding_mean
      by (done || by apply (mask_fits_shapes _ _ L D)).
    do 3 f_equal.
    apply list_eq. intros b. rewrite !lookup_zip_with.
    destruct (data hidden_state !! b) as [tokens|] eqn:Htok; [|done].
    destruct (mask !! b) as [mask_row|] eqn:Hrow; [|done]. simpl. f_equal.
    destruct (proj1 (Forall_lookup _ _) Hhid b tokens Htok) as [HL HD].
    destruct (proj1 (Forall_lookup _ _) Hmask b mask_row Hrow)
      as (HmL & Hbin & Hpos).
    by apply (mean_pool_masked_average L D). }
  split; [done|]. intros Hones. rewrite Hcode. do 3 f_equal.
  apply list_eq. intros b. rewrite lookup_zip_with, list_lookup_fmap.
  destruct (data hidden_state !! b) as [tokens|] eqn:Htok.
  - destruct (lookup_lt_is_Some_2 mask b) as [mask_row Hrow].
    { rewrite <- Hlen. by eapply lookup_lt_Some. }
    rewrite Hrow. simpl. f_equal.
    rewrite (proj1 (Forall_lookup _ _) Hones b mask_row Hrow).
    destruct (proj1 (Forall_lookup _ _) Hhid b tokens Htok) as [<- _].
    apply masked_average_all_ones.
  - done.
Qed.

Lemma mean_pooling_masked_average_witness :
  BiEncoderModel.sentence_embedding (Sample.model "mean" "softmax" 1 true)
    (Sample.lm (Sample.batch [[5; 6]]%Z [[1; 1]]%Z)) [[1; 1]]%Z
  = Ok (Some (Tensor (zip_with (Spec.masked_average 2)
                               [[[5; 1]; [6; 1]]]%R [[1; 1]]%Z)
                     true))
  /\ (Forall (fun mask_row => mask_row = replicate 2 1%Z) [[1; 1]]%Z ->
      BiEncoderModel.sentence_embedding (Sample.model "mean" "softmax" 1 true)
        (Sample.lm (Sample.batch [[5; 6]]%Z [[1; 1]]%Z)) [[1; 1]]%Z
      = Ok (Some (Tensor (Spec.plain_average 2 <$> [[[5; 1]; [6; 1]]]%R)
                         true))).
Proof.
  apply (mean_pooling_masked_average (Sample.model "mean" "softmax" 1 true)
           (Sample.lm (Sample.batch [[5; 6]]%Z [[1; 1]]%Z)) [[1; 1]]%Z 2 2).
  - reflexivity.
  - reflexivity.
  - repeat constructor.
  - constructor; [|constructor].
    split; [reflexivity|]. split; [repeat constructor; by right|].
    unfold Spec.unmasked_count. simpl. lia.
  - unfold int64_max. simpl. lia.
Defined.

(** ** Gathering across processes *)

(** C8.  With [world_size = 1] (and the rank the runtime then gives, 0)
    gathering a tensor returns that tensor, with its own gradient flag,
    whatever the exchange delivered; gathering [None] returns [None]. *)
Theorem dist_gather_single_process
    (self : BiEncoderModel.t) (rt : dist_runtime)
    (t : tensor (list (list R))) (process_rank : nat) :
  BiEncoderModel.dist_attrs self = Some (process_rank, 1) ->
  process_rank < 1 ->
  BiEncoderModel._dist_gather_tensor self rt (Some t) = Ok (Some t)
  /\ BiEncoderModel._dist_gather_tensor self rt None = Ok None.
Proof.
  intros Hattrs Hrank. split; [|done].
  assert (process_rank = 0) as -> by lia.
  unfold BiEncoderModel._dist_gather_tensor. rewrite Hattrs.
  destruct t as [d rg]. cbn. by rewrite app_nil_r, orb_false_r.
Qed.

Lemma dist_gather_single_process_witness :
  BiEncoderModel._dist_gather_tensor Sample.gathering_model
    Sample.single_process (Some (Tensor [[1; 2]; [3; 4]]%R true))
  = Ok (Some (Tensor [[1; 2]; [3; 4]]%R true))
  /\ BiEncoderModel._dist_gather_tensor Sample.gathering_model
       Sample.single_process None
     = Ok None.
Proof.
  apply (dist_gather_single_process Sample.gathering_model
           Sample.single_process
           (Tensor [[1; 2]; [3; 4]]%R true) 0).
  - reflexivity.
  - lia.
Defined.

Example gathering_model_init :
  BiEncoderModel.init Sample.single_process Sample.lm Sample.lm None
    false false "cls" true 1 1 "softmax"
  = Ok Sample.gathering_model.
Proof. reflexivity. Qed.

(** ** The hinge loss of the multi-encoder variant *)

Lemma concat_fmap_rows (f : R -> R) (m : list (list R)) :
  concat ((fun row : list R => f <$> row) <$> m) = f <$> concat m.
Proof.
  induction m as [|row m IH]; [done|].
  rewrite fmap_cons. cbn [concat]. by rewrite IH, fmap_app.
Qed.

(** On 0/1 targets the two [where] terms of the hinge loss add up to the
    documented case distinction. *)
Lemma hinge_terms_binary (cs ct : list R) :
  Forall (fun t => t = 0%R \/ t = 1%R) ct ->
  zip_with Rplus
    (zip_with (fun t mc => if Req_dec_T t 1 then 0%R else mc)
       ((fun x => x * 2 - 1)%R <$> ct)
       ((fun x => Rmax (5 / 10 - x) 0) <$> ((fun x => 1 - x)%R <$> cs)))
    (zip_with (fun t x => if Req_dec_T t (-1) then 0%R else x)
       ((fun x => x * 2 - 1)%R <$> ct) ((fun x => 1 - x)%R <$> cs))
  = zip_with Spec.hinge_term cs ct.
Proof.
  intros Hbin. revert cs.
  induction Hbin as [|t ct Ht _ IH]; intros [|s cs]; simpl; try done.
  rewrite IH. f_equal. unfold Spec.hinge_term.
  destruct Ht as [-> | ->];
    repeat match goal with
           | |- context [Req_dec_T ?a ?b] => destruct (Req_dec_T a b)
           end; lra.
Qed.

Lemma sum_zeros (v : list R) :
  Forall (fun x => x = 0%R) v -> Torch.sum v = 0%R.
Proof. induction 1 as [|x v -> _ IH]; simpl; [done|]. rewrite IH. lra. Qed.

(** C9.  For scores S and a target T of one shape with at least one entry,
    the loss of the multi-encoder variant is the mean-reduced hinge
    embedding loss with margin 0.5 of the flattened distances [1 - S]
    against the flattened labels [T * 2 - 1]; on a 0/1 target this is the
    mean over all entries of the hinge term; and when S and T are 1
    everywhere it is 0. *)
Theorem hinge_loss_flattened
    (scores : tensor (list (list R))) (target : list (list R)) :
  Torch.same_shape (data scores) target = true ->
  0 < length (concat target) ->
  MultiBiEncoderModel.compute_loss scores target
  = Tensor
      (Torch.hinge_embedding_loss (5 / 10)
         (concat ((fun row : list R => (fun x => 1 - x)%R <$> row)
                    <$> data scores))
         (concat ((fun row : list R => (fun x => x * 2 - 1)%R <$> row)
                    <$> target)))
      (requires_grad scores)
  /\ (Forall (Forall (fun t => t = 0%R \/ t = 1%R)) target ->
      data (MultiBiEncoderModel.compute_loss scores target)
      = Spec.hinge_mean (data scores) target)
  /\ (Forall (Forall (fun s => s = 1%R)) (data scores) ->
      Forall (Forall (fun t => t = 1%R)) target ->
      data (MultiBiEncoderModel.compute_loss scores target) = 0%R).
Proof.
  intros Hshape Hne.
  assert (Hbin : Forall (Forall (fun t => t = 0%R \/ t = 1%R)) target ->
                 data (MultiBiEncoderModel.compute_loss scores target)
                 = Spec.hinge_mean (data scores) target).
  { intros Hbin. unfold MultiBiEncoderModel.compute_loss,
      MultiBiEncoderModel.loss_func, Torch.hinge_embedding_loss,
      Spec.hinge_mean. cbn [data].
    rewrite !concat_fmap_rows.
    by rewrite hinge_terms_binary by (by apply Forall_concat). }
  split; [done|]. split; [done|].
  intros Hs Ht. rewrite Hbin.
  - unfold Spec.hinge_mean, Torch.mean. rewrite sum_zeros.
    + unfold Rdiv. apply Rmult_0_l.
    + apply Forall_concat in Hs, Ht. apply Forall_lookup. intros i x Hx.
      rewrite lookup_zip_with in Hx.
      destruct (concat (data scores) !! i) as [s|] eqn:Hsi; [|done].
      destruct (concat target !! i) as [t|] eqn:Hti; [|done].
      injection Hx as <-.
      rewrite (proj1 (Forall_lookup _ _) Hs i s Hsi).
      rewrite (proj1 (Forall_lookup _ _) Ht i t Hti).
      unfold Spec.hinge_term. destruct (Req_dec_T 1 1); lra.
  - eapply Forall_impl; [exact Ht|]. intros row Hrow.
    eapply Forall_impl; [exact Hrow|]. intros t ->. by right.
Qed.

Lemma hinge_loss_flattened_witness :
  MultiBiEncoderModel.compute_loss (Tensor [[1; 1]]%R true) [[1; 1]]%R
  = Tensor
      (Torch.hinge_embedding_loss (5 / 10)
         (concat ((fun row : list R => (fun x => 1 - x)%R <$> row)
                    <$> [[1; 1]]%R))
         (concat ((fun row : list R => (fun x => x * 2 - 1)%R <$> row)
                    <$> [[1; 1]]%R)))
      true
  /\ (Forall (Forall (fun t => t = 0%R \/ t = 1%R)) [[1; 1]]%R ->
      data (MultiBiEncoderModel.compute_loss (Tensor [[1; 1]]%R true)
              [[1; 1]]%R)
      = Spec.hinge_mean [[1; 1]]%R [[1; 1]]%R)
  /\ (Forall (Forall (fun s => s = 1%R)) [[1; 1]]%R ->
      Forall (Forall (fun t => t = 1%R)) [[1; 1]]%R ->
      data (MultiBiEncoderModel.compute_loss (Tensor [[1; 1]]%R true)
              [[1; 1]]%R) = 0%R).
Proof.
  apply (hinge_loss_flattened (Tensor [[1; 1]]%R true) [[1; 1]]%R).
  - reflexivity.
  - simpl. lia.
Defined.

(** ** Similarity *)

Lemma size1_has_width (D : nat) (m : list (list R)) :
  Shape.has_width D m -> m <> [] -> size1 m = D.
Proof.
  intros Hm Hne. destruct m as [|r m]; [done|].
  by apply Forall_cons in Hm as [? _].
Qed.

(** Operands whose rows have one length pass the size test of [matmul]
    and of [nn.Linear]. *)
Lemma same_width_has_width (D : nat) (a b : list (list R)) :
  Shape.has_width D a -> Shape.has_width D b -> Torch.same_width a b = true.
Proof.
  intros Ha Hb. unfold Torch.same_width.
  assert (Hall : Shape.has_width D (a ++ b)) by (by apply Forall_app).
  destruct (a ++ b) as [|r m] eqn:Hab; [done|]. rewrite <- Hab in *.
  rewrite (size1_has_width D) by (done || by rewrite Hab).
  apply forallb_forall. intros x Hx. apply list_elem_of_In in Hx.
  apply Nat.eqb_eq. exact (proj1 (Forall_forall _ _) Hall x Hx).
Qed.

Lemma same_width_true (a b : list (list R)) :
  Torch.same_width a b = true ->
  Shape.has_width (size1 (a ++ b)) a /\ Shape.has_width (size1 (a ++ b)) b.
Proof.
  unfold Torch.same_width. intros H.
  assert (Hall : Shape.has_width (size1 (a ++ b)) (a ++ b)).
  { apply Forall_forall. intros x Hx. apply Nat.eqb_eq.
    apply (proj1 (forallb_forall _ _) H). by apply list_elem_of_In. }
  by apply Forall_app in Hall.
Qed.

(** Two embeddings of one size have a similarity matrix. *)
Lemma compute_similarity_2d
    (q p : tensor (list (list R))) (D : nat) :
  Shape.has_width D (data q) ->
  Shape.has_width D (data p) ->
  BiEncoderModel.compute_similarity q (BiEncoderModel.lift2 p)
  = Ok (Tensor (Nd2 (Torch.matmul_transposed (data q) (data p)))
               (requires_grad q || requires_grad p)).
Proof.
  intros Hq Hp. unfold BiEncoderModel.compute_similarity, Torch.matmul.
  cbn [BiEncoderModel.lift2 data requires_grad].
  by rewrite (same_width_has_width D).
Qed.

(** Whatever [compute_similarity] returns for two-axis embeddings is the
    matrix of their inner products; embeddings of different sizes make it
    raise. *)
Lemma compute_similarity_cases (q p : tensor (list (list R))) :
  (Torch.same_width (data q) (data p) = true
   /\ BiEncoderModel.compute_similarity q (BiEncoderModel.lift2 p)
      = Ok (Tensor (Nd2 (Torch.matmul_transposed (data q) (data p)))
                   (requires_grad q || requires_grad p)))
  \/ (Torch.same_width (data q) (data p) = false
      /\ BiEncoderModel.compute_similarity q (BiEncoderModel.lift2 p)
         = Raise RuntimeError).
Proof.
  unfold BiEncoderModel.compute_similarity, Torch.matmul.
  cbn [BiEncoderModel.lift2 data requires_grad].
  destruct (Torch.same_width (data q) (data p)); [by left | by right].
Qed.

(** ** Inference *)

(** C10.  Outside training mode, when both encoders return an embedding
    and the two embeddings have one size D, [forward] returns the
    embeddings, no loss, and as scores the product of the query
    embeddings with the transposed passage embeddings: entry (i, j) is the
    inner product of query i and passage j, with no division by the
    temperature and no change of shape. *)
Theorem forward_eval_raw_similarity
    (self : BiEncoderModel.t) (rt : dist_runtime)
    (qry psg : token_batch) (teacher_score : option (list (list R)))
    (q p : tensor (list (list R))) (D : nat) :
  BiEncoderModel.training self = false ->
  BiEncoderModel.encode_query self (Some qry) = Ok (Some q) ->
  BiEncoderModel.encode_passage self (Some psg) = Ok (Some p) ->
  Shape.has_width D (data q) ->
  Shape.has_width D (data p) ->
  BiEncoderModel.forward self rt (Some qry) (Some psg) teacher_score
  = Ok {| q_reps := Some q; p_reps := Some p; loss := None;
          scores :=
            Some (Tensor
                    (Nd2 ((fun qi => (fun pj => Torch.dot qi pj) <$> data p)
                            <$> data q))
                    (requires_grad q || requires_grad p)) |}
  /\ BiEncoderModel.compute_similarity q (BiEncoderModel.lift2 p)
     = Ok (Tensor (Nd2 ((fun qi => (fun pj => Torch.dot qi pj) <$> data p)
                          <$> data q))
                  (requires_grad q || requires_grad p)).
Proof.
  intros Heval Hq Hp Hwq Hwp.
  pose proof (compute_similarity_2d q p D Hwq Hwp) as Hsim.
  split; [|done].
  unfold BiEncoderModel.forward. rewrite Hq, Hp. cbn [bind].
  by rewrite Heval, Hsim.
Qed.

Lemma forward_eval_raw_similarity_witness :
  BiEncoderModel.forward (Sample.model "cls" "softmax" (5 / 10) false)
    Sample.single_process
    (Some (Sample.batch [[1]; [2]]%Z [[1]; [1]]%Z))
    (Some (Sample.batch [[3]; [4]]%Z [[1]; [1]]%Z)) None
  = Ok {| q_reps := Some (Tensor [[1; 1]; [2; 1]]%R true);
          p_reps := Some (Tensor [[3; 1]; [4; 1]]%R true);
          loss := None;
          scores :=
            Some (Tensor
                    (Nd2 ((fun qi => (fun pj => Torch.dot qi pj)
                                       <$> [[3; 1]; [4; 1]]%R)
                            <$> [[1; 1]; [2; 1]]%R))
                    (true || true)) |}
  /\ BiEncoderModel.compute_similarity
       (Tensor [[1; 1]; [2; 1]]%R true)
       (BiEncoderModel.lift2 (Tensor [[3; 1]; [4; 1]]%R true))
     = Ok (Tensor (Nd2 ((fun qi => (fun pj => Torch.dot qi pj)
                                     <$> [[3; 1]; [4; 1]]%R)
                          <$> [[1; 1]; [2; 1]]%R))
                  (true || true)).
Proof.
  apply (forward_eval_raw_similarity
           (Sample.model "cls" "softmax" (5 / 10) false)
           Sample.single_process
           (Sample.batch [[1]; [2]]%Z [[1]; [1]]%Z)
           (Sample.batch [[3]; [4]]%Z [[1]; [1]]%Z) None
           (Tensor [[1; 1]; [2; 1]]%R true)
           (Tensor [[3; 1]; [4; 1]]%R true) 2).
  - reflexivity.
  - reflexivity.
  - reflexivity.
  - by repeat constructor.
  - by repeat constructor.
Defined.

(** Query embeddings of size 2 against passage embeddings of size 3:
    [matmul] refuses them, in evaluation mode as in training mode and in
    both model variants. *)
Example forward_width_mismatch :
  BiEncoderModel.forward (Fixtures.mismatched_model false)
    Sample.single_process
    (Some (Sample.batch [[1]; [2]]%Z [[1]; [1]]%Z))
    (Some (Sample.batch [[3]; [4]]%Z [[1]; [1]]%Z)) None
  = Raise RuntimeError
  /\ BiEncoderModel.forward (Fixtures.mismatched_model true)
       Sample.single_process
       (Some (Sample.batch [[1]; [2]]%Z [[1]; [1]]%Z))
       (Some (Sample.batch [[3]; [4]]%Z [[1]; [1]]%Z)) None
     = Raise RuntimeError
  /\ MultiForward.forward (Fixtures.mismatched_model true)
       Sample.single_process
       (Some (Sample.batch [[1]; [2]]%Z [[1]; [1]]%Z))
       (Some (Sample.batch [[3]; [4]]%Z [[1]; [1]]%Z)) None
     = Raise RuntimeError.
Proof. by split_and!. Qed.

(** ** The training pass

    What [forward] hands to [compute_loss] on one process: the similarity
    divided by the temperature, one row per query, and the target built by
    [implicit_target] or [teacher_target]. *)

Lemma similarity_rows (q p : list (list R)) :
  length (Torch.matmul_transposed q p) = length q
  /\ Forall (fun r => length r = length p) (Torch.matmul_transposed q p).
Proof.
  unfold Torch.matmul_transposed. split; [by rewrite length_fmap|].
  apply Forall_fmap, Forall_true. intros qi. simpl. by rewrite length_fmap.
Qed.

Lemma training_scores
    (self : BiEncoderModel.t) (q p : tensor (list (list R))) :
  0 < length (data q) ->
  BiEncoderModel.scale_and_view self q
    (Tensor (Nd2 (Torch.matmul_transposed (data q) (data p)))
            (requires_grad q || requires_grad p))
  = Ok (Tensor
          (map (map (fun x => x / BiEncoderModel.temperature self)%R)
               (Torch.matmul_transposed (data q) (data p)))
          (requires_grad q || requires_grad p)).
Proof.
  intros Hq. destruct (similarity_rows (data q) (data p)) as [Hlen Hw].
  by apply (scale_and_view_2d self q _ _ (length (data p))).
Qed.

(** The similarity of two-axis embeddings, as [forward] reads it: the
    size test of [matmul], then the matrix of inner products. *)
Lemma compute_similarity_matmul (q p : tensor (list (list R))) :
  BiEncoderModel.compute_similarity q (BiEncoderModel.lift2 p)
  = (let! checked := Torch.matmul (data q) (data p) in
     Ok (Tensor (Nd2 (Torch.matmul_transposed (data q) (data p)))
                (requires_grad q || requires_grad p))).
Proof.
  unfold BiEncoderModel.compute_similarity, Torch.matmul.
  cbn [BiEncoderModel.lift2 data requires_grad].
  by destruct (Torch.same_width (data q) (data p)).
Qed.

Lemma matmul_has_width (q p : list (list R)) (D : nat) :
  Shape.has_width D q -> Shape.has_width D p ->
  Torch.matmul q p = Ok (Torch.matmul_transposed q p).
Proof.
  intros Hq Hp. unfold Torch.matmul. by rewrite (same_width_has_width D).
Qed.

Lemma forward_training_implicit
    (self : BiEncoderModel.t) (rt : dist_runtime)
    (qry psg : token_batch) (q p : tensor (list (list R))) :
  BiEncoderModel.training self = true ->
  BiEncoderModel.negatives_x_device self = false ->
  BiEncoderModel.encode_query self (Some qry) = Ok (Some q) ->
  BiEncoderModel.encode_passage self (Some psg) = Ok (Some p) ->
  0 < length (data q) ->
  let scores :=
    Tensor (map (map (fun x => x / BiEncoderModel.temperature self)%R)
                (Torch.matmul_transposed (data q) (data p)))
           (requires_grad q || requires_grad p) in
  BiEncoderModel.forward self rt (Some qry) (Some psg) None
  = (let! checked := Torch.matmul (data q) (data p) in
     let! target :=
       BiEncoderModel.implicit_target
         (length (data q)) (length (data p)) (length (data q)) in
     let! l := BiEncoderModel.compute_loss self scores (ClassTarget target) in
     Ok {| loss := Some l; scores := Some (BiEncoderModel.lift2 scores);
           q_reps := Some q; p_reps := Some p |}).
Proof.
  intros Htrain Hdev Hq Hp Hpos scores.
  unfold BiEncoderModel.forward. rewrite Hq, Hp. cbn [bind].
  rewrite Htrain, Hdev. cbn [bind].
  rewrite compute_similarity_matmul.
  destruct (Torch.matmul (data q) (data p)) as [checked|e]; cbn [bind];
    [|done].
  rewrite (training_scores self q p Hpos). cbn [bind data].
  fold scores. by rewrite !length_map, (proj1 (similarity_rows _ _)).
Qed.

Lemma forward_training_teacher
    (self : BiEncoderModel.t) (rt : dist_runtime)
    (qry psg : token_batch) (q p : tensor (list (list R)))
    (teacher_score : list (list R)) :
  BiEncoderModel.training self = true ->
  BiEncoderModel.negatives_x_device self = false ->
  BiEncoderModel.encode_query self (Some qry) = Ok (Some q) ->
  BiEncoderModel.encode_passage self (Some psg) = Ok (Some p) ->
  0 < length (data q) ->
  let scores :=
    Tensor (map (map (fun x => x / BiEncoderModel.temperature self)%R)
                (Torch.matmul_transposed (data q) (data p)))
           (requires_grad q || requires_grad p) in
  BiEncoderModel.forward self rt (Some qry) (Some psg) (Some teacher_score)
  = (let! checked := Torch.matmul (data q) (data p) in
     let! target :=
       BiEncoderModel.teacher_target (data scores) teacher_score in
     let! l := BiEncoderModel.compute_loss self scores (FloatTarget target) in
     Ok {| loss := Some l; scores := Some (BiEncoderModel.lift2 scores);
           q_reps := Some q; p_reps := Some p |}).
Proof.
  intros Htrain Hdev Hq Hp Hpos scores.
  unfold BiEncoderModel.forward. rewrite Hq, Hp. cbn [bind].
  rewrite Htrain, Hdev. cbn [bind].
  rewrite compute_similarity_matmul.
  destruct (Torch.matmul (data q) (data p)) as [checked|e]; cbn [bind];
    [|done].
  by rewrite (training_scores self q p Hpos).
Qed.

(** ** Worked examples *)

(** Two queries, two candidates each: the teacher rows land in the two
    diagonal blocks. *)
Example teacher_target_2x2 :
  BiEncoderModel.teacher_target
    [[7; 7; 7; 7]; [7; 7; 7; 7]]%R [[1; 2]; [3; 4]]%R
  = Ok [[1; 2; 0; 0]; [0; 0; 3; 4]]%R.
Proof. reflexivity. Qed.

(** A teacher matrix wider than the blocks the scores leave room for is
    rejected by [scatter_]. *)
Example teacher_target_too_wide :
  BiEncoderModel.teacher_target
    [[7; 7; 7]; [7; 7; 7]]%R [[1; 2]; [3; 4]]%R
  = Raise RuntimeError.
Proof. reflexivity. Qed.

(** Two queries, four passages: the positives sit at columns 0 and 2. *)
Example implicit_target_2_4 :
  BiEncoderModel.implicit_target 2 4 2 = Ok [0; 2]%Z.
Proof. reflexivity. Qed.

(** Five passages for two queries: the quotient is rounded down and the
    targets are those of four passages. *)
Example implicit_target_2_5 :
  BiEncoderModel.implicit_target 2 5 2 = Ok [0; 2]%Z.
Proof. reflexivity. Qed.

(** An unknown loss type fails the assertion of [compute_loss]. *)
Example compute_loss_unknown_type :
  BiEncoderModel.compute_loss (Sample.model "cls" "hinge" 1 true)
    (Tensor [[0; 0]]%R true) (FloatTarget [[1; 0]]%R)
  = Raise AssertionError.
Proof. reflexivity. Qed.

(** An unknown pooling method makes [encode_query] fail on the [None]
    that pooling returned, with an [AttributeError]. *)
Example encode_query_unknown_method :
  BiEncoderModel.encode_query (Sample.model "max" "softmax" 1 true)
    (Some (Sample.batch [[5; 6]]%Z [[1; 1]]%Z))
  = Raise AttributeError.
Proof. reflexivity. Qed.

(** Requesting negatives across devices without an initialised runtime is
    the one error of the constructor. *)
Example init_without_runtime :
  BiEncoderModel.init Sample.no_runtime Sample.lm Sample.lm None
    false false "cls" true 1 1 "softmax"
  = Raise ValueError.
Proof. reflexivity. Qed.

(** * Further properties of the code *)

(** ** Pooling *)

Lemma mapM_cls_pool_nonempty (hidden : list (list (list R))) :
  Forall (fun tokens => tokens <> []) hidden ->
  exists emb,
    BiEncoderModel.mapM BiEncoderModel.cls_pool hidden = Ok emb
    /\ length emb = length hidden
    /\ forall b tokens, hidden !! b = Some tokens -> emb !! b = tokens !! 0.
Proof.
  induction 1 as [|tokens hidden Hne _ (emb & Hemb & Hlen & Hrows)].
  - exists []. split_and!; [done..|]. intros b ? Hb.
    by rewrite lookup_nil in Hb.
  - destruct tokens as [|tok tokens]; [done|].
    exists (tok :: emb). cbn [BiEncoderModel.mapM BiEncoderModel.cls_pool bind].
    rewrite Hemb. cbn [bind]. split_and!; [done | simpl; lia |].
    intros [|b] tokens'; simpl; [by intros [= <-] | apply Hrows].
Qed.

Lemma mapM_cls_pool_empty (hidden : list (list (list R))) :
  Exists (fun tokens => tokens = []) hidden ->
  BiEncoderModel.mapM BiEncoderModel.cls_pool hidden = Raise IndexError.
Proof.
  induction 1 as [tokens hidden -> | tokens hidden _ IH]; [done|].
  cbn [BiEncoderModel.mapM]. destruct tokens as [|tok tokens]; [done|].
  cbn [BiEncoderModel.cls_pool bind]. by rewrite IH.
Qed.

(** X1.  With [sentence_pooling_method = 'cls'] the embedding of every
    example is its first token vector, whatever the attention mask holds
    (the mask is not read); if some example has no token at all, indexing
    position 0 fails with [IndexError]. *)
Theorem cls_pooling_first_token
    (self : BiEncoderModel.t) (hidden_state : tensor (list (list (list R))))
    (mask : list (list Z)) :
  BiEncoderModel.sentence_pooling_method self = "cls" ->
  (Forall (fun tokens => tokens <> []) (data hidden_state) ->
   exists emb,
     BiEncoderModel.sentence_embedding self hidden_state mask
     = Ok (Some (Tensor emb (requires_grad hidden_state)))
     /\ length emb = length (data hidden_state)
     /\ forall b tokens,
          data hidden_state !! b = Some tokens -> emb !! b = tokens !! 0)
  /\ (Exists (fun tokens => tokens = []) (data hidden_state) ->
      BiEncoderModel.sentence_embedding self hidden_state mask
      = Raise IndexError).
Proof.
  intros Hmethod. unfold BiEncoderModel.sentence_embedding.
  rewrite Hmethod. simpl String.eqb. cbv iota. split.
  - intros Hne.
    destruct (mapM_cls_pool_nonempty _ Hne) as (emb & -> & Hlen & Hrows).
    by exists emb.
  - intros Hex. by rewrite (mapM_cls_pool_empty _ Hex).
Qed.

Lemma cls_pooling_first_token_witness :
  (Forall (fun tokens => tokens <> [])
     (data (Sample.lm (Sample.batch [[5; 6]]%Z [[0; 0]]%Z))) ->
   exists emb,
     BiEncoderModel.sentence_embedding (Sample.model "cls" "softmax" 1 true)
       (Sample.lm (Sample.batch [[5; 6]]%Z [[0; 0]]%Z)) [[0; 0]]%Z
     = Ok (Some (Tensor emb true))
     /\ length emb = 1
     /\ forall b tokens,
          [[[5; 1]; [6; 1]]]%R !! b = Some tokens -> emb !! b = tokens !! 0)
  /\ (Exists (fun tokens => tokens = [])
        (data (Sample.lm (Sample.batch [[5; 6]]%Z [[0; 0]]%Z))) ->
      BiEncoderModel.sentence_embedding (Sample.model "cls" "softmax" 1 true)
        (Sample.lm (Sample.batch [[5; 6]]%Z [[0; 0]]%Z)) [[0; 0]]%Z
      = Raise IndexError).
Proof.
  apply (cls_pooling_first_token (Sample.model "cls" "softmax" 1 true)
           (Sample.lm (Sample.batch [[5; 6]]%Z [[0; 0]]%Z)) [[0; 0]]%Z).
  reflexivity.
Defined.

Lemma scale_by_zero (tok : list R) :
  (fun x => x * IZR 0)%R <$> tok = replicate (length tok) 0%R.
Proof.
  induction tok as [|x tok IH]; [done|].
  rewrite fmap_cons, IH. simpl. f_equal. lra.
Qed.

Lemma scaled_tokens_agree (tokens tokens' : list (list R)) (mask_row : list Z) :
  Shape.agree_on_unmasked tokens tokens' mask_row ->
  zip_with (fun tok m => (fun x => x * IZR m)%R <$> tok) tokens mask_row
  = zip_with (fun tok m => (fun x => x * IZR m)%R <$> tok) tokens' mask_row.
Proof.
  intros [Hlen Hsame]. revert mask_row Hsame.
  induction Hlen as [|tok tok' tokens tokens' Htok _ IH];
    intros [|m mask_row] Hsame; try done.
  cbn [zip_with]. f_equal.
  - destruct (decide (m = 0%Z)) as [->|Hm].
    + by rewrite !scale_by_zero, Htok.
    + by rewrite (Hsame 0 tok tok' m).
  - apply IH. intros t. apply (Hsame (S t)).
Qed.

(** X2.  On a mask with one entry per token, mean pooling does not see
    the hidden states of masked tokens: two batches of hidden states of
    the same sizes that agree on every token whose mask entry is not zero
    get the same embeddings. *)
Theorem mean_pooling_ignores_masked_tokens
    (self : BiEncoderModel.t)
    (hidden_state hidden_state' : tensor (list (list (list R))))
    (mask : list (list Z)) :
  BiEncoderModel.sentence_pooling_method self = "mean" ->
  requires_grad hidden_state = requires_grad hidden_state' ->
  length (data hidden_state) = length (data hidden_state') ->
  Shape.mask_fits (data hidden_state) mask ->
  (forall b tokens tokens' mask_row,
     data hidden_state !! b = Some tokens ->
     data hidden_state' !! b = Some tokens' ->
     mask !! b = Some mask_row ->
     Shape.agree_on_unmasked tokens tokens' mask_row) ->
  BiEncoderModel.sentence_embedding self hidden_state mask
  = BiEncoderModel.sentence_embedding self hidden_state' mask.
Proof.
  intros Hmethod Hrg Hlen Hfits Hagree.
  assert (Hfits' : Shape.mask_fits (data hidden_state') mask).
  { apply Forall2_same_length_lookup_2.
    - rewrite <- Hlen. by eapply Forall2_length.
    - intros b tokens' mask_row Htok' Hrow.
      destruct (lookup_lt_is_Some_2 (data hidden_state) b) as [tokens Htok].
      { rewrite Hlen. by eapply lookup_lt_Some. }
      pose proof (Forall2_lookup_lr _ _ _ _ _ _ Hfits Htok Hrow) as Hl.
      destruct (Hagree b tokens tokens' mask_row Htok Htok' Hrow) as [Hl' _].
      apply Forall2_length in Hl'. simpl in Hl. lia. }
  rewrite !sentence_embedding_mean by done.
  rewrite Hrg. do 3 f_equal.
  apply list_eq. intros b. rewrite !lookup_zip_with.
  destruct (data hidden_state !! b) as [tokens|] eqn:Htok.
  - destruct (lookup_lt_is_Some_2 (data hidden_state') b) as [tokens' Htok'].
    { rewrite <- Hlen. by eapply lookup_lt_Some. }
    rewrite Htok'. simpl.
    destruct (mask !! b) as [mask_row|] eqn:Hrow; [|done]. simpl. f_equal.
    pose proof (Hagree b tokens tokens' mask_row Htok Htok' Hrow) as Hag.
    unfold BiEncoderModel.mean_pool, BiEncoderModel.masked_sum.
    rewrite (scaled_tokens_agree _ _ _ Hag). do 3 f_equal.
    destruct Hag as [Hl _]. by destruct Hl.
  - apply lookup_ge_None in Htok. rewrite Hlen in Htok.
    apply lookup_ge_None in Htok. by rewrite Htok.
Qed.

Lemma mean_pooling_ignores_masked_tokens_witness :
  BiEncoderModel.sentence_embedding (Sample.model "mean" "softmax" 1 true)
    (Tensor [[[5; 1]; [6; 1]]]%R true) [[1; 0]]%Z
  = BiEncoderModel.sentence_embedding (Sample.model "mean" "softmax" 1 true)
      (Tensor [[[5; 1]; [9; 9]]]%R true) [[1; 0]]%Z.
Proof.
  apply (mean_pooling_ignores_masked_tokens
           (Sample.model "mean" "softmax" 1 true)
           (Tensor [[[5; 1]; [6; 1]]]%R true)
           (Tensor [[[5; 1]; [9; 9]]]%R true) [[1; 0]]%Z).
  - reflexivity.
  - reflexivity.
  - reflexivity.
  - by repeat constructor.
  - intros [|b] tokens tokens' mask_row; simpl; [|done].
    intros [= <-] [= <-] [= <-]. split; [repeat constructor|].
    intros [|[|t]] tok tok' m; simpl; try done.
    + by intros [= <-] [= <-].
    + by intros _ _ [= <-].
Defined.

(** A mask with a single entry for an example of two tokens is broadcast
    over the tokens, and the divisor is the one entry: both tokens count
    and the sum is not averaged. *)
Example mean_pooling_broadcasts_mask :
  BiEncoderModel.sentence_embedding (Sample.model "mean" "softmax" 1 true)
    (Tensor [[[5; 1]; [6; 1]]]%R true) [[1]]%Z
  = Ok (Some (Tensor
                [[(5 * 1 + (6 * 1 + 0)) / 1;
                  (1 * 1 + (1 * 1 + 0)) / 1]]%R true)).
Proof. reflexivity. Qed.

(** A mask of three entries for an example of two tokens is refused. *)
Example mean_pooling_mask_mismatch :
  BiEncoderModel.sentence_embedding (Sample.model "mean" "softmax" 1 true)
    (Tensor [[[5; 1]; [6; 1]]]%R true) [[1; 1; 1]]%Z
  = Raise RuntimeError.
Proof. reflexivity. Qed.

(** ** Encoding *)

Lemma finish_encode_Some
    (self : BiEncoderModel.t) (side_q : bool)
    (reps r : option (tensor (list (list R)))) :
  BiEncoderModel.finish_encode self side_q reps = Ok r -> is_Some r.
Proof.
  unfold BiEncoderModel.finish_encode.
  destruct (BiEncoderModel.pooler self) as [pl|]; cbn [bind].
  - destruct (if side_q then DensePooler.forward pl reps None
              else DensePooler.forward pl None reps) as [x|e]; cbn [bind];
      [|done].
    destruct (BiEncoderModel.normlized self); cbn [bind];
      intros [= <-]; eauto.
  - destruct (BiEncoderModel.normlized self); cbn [bind].
    + destruct reps; cbn [bind]; [|done]. intros [= <-]; eauto.
    + destruct reps; [|done]. intros [= <-]; eauto.
Qed.

Lemma encode_query_Some
    (self : BiEncoderModel.t) (qry : token_batch)
    (r : option (tensor (list (list R)))) :
  BiEncoderModel.encode_query self (Some qry) = Ok r -> is_Some r.
Proof.
  unfold BiEncoderModel.encode_query.
  destruct (BiEncoderModel.sentence_embedding _ _ _) as [reps|e];
    cbn [bind]; [|done].
  apply finish_encode_Some.
Qed.

Lemma encode_passage_Some
    (self : BiEncoderModel.t) (psg : token_batch)
    (r : option (tensor (list (list R)))) :
  BiEncoderModel.encode_passage self (Some psg) = Ok r -> is_Some r.
Proof.
  unfold BiEncoderModel.encode_passage.
  destruct (BiEncoderModel.sentence_embedding _ _ _) as [reps|e];
    cbn [bind]; [|done].
  apply finish_encode_Some.
Qed.

(** X3.  Encoding a batch that is present never returns [None]: it returns
    an embedding or raises (also with an unknown pooling method, whose
    [None] is caught by the code after the pooling).  Encoding [None]
    returns [None] without calling the encoder. *)
Theorem encode_returns_embedding_or_raises
    (self : BiEncoderModel.t) (batch : token_batch) :
  BiEncoderModel.encode_query self (Some batch) <> Ok None
  /\ BiEncoderModel.encode_passage self (Some batch) <> Ok None
  /\ BiEncoderModel.encode_query self None = Ok None
  /\ BiEncoderModel.encode_passage self None = Ok None.
Proof.
  split_and!; [| |done..].
  - intros H. by destruct (encode_query_Some _ _ _ H).
  - intros H. by destruct (encode_passage_Some _ _ _ H).
Qed.

(** X4.  When the query or the passage input is absent, [forward] returns
    no loss and no scores, in training mode as in evaluation mode and with
    or without teacher scores; each returned embedding is present exactly
    when its input was. *)
Theorem forward_embedding_only
    (self : BiEncoderModel.t) (rt : dist_runtime)
    (query passage : option token_batch)
    (teacher_score : option (list (list R))) (out : EncoderOutput) :
  query = None \/ passage = None ->
  BiEncoderModel.forward self rt query passage teacher_score = Ok out ->
  loss out = None /\ scores out = None
  /\ (is_Some (q_reps out) <-> is_Some query)
  /\ (is_Some (p_reps out) <-> is_Some passage)
  /\ BiEncoderModel.encode_query self query = Ok (q_reps out)
  /\ BiEncoderModel.encode_passage self passage = Ok (p_reps out).
Proof.
  intros Habsent. unfold BiEncoderModel.forward.
  destruct (BiEncoderModel.encode_query self query) as [q|e] eqn:Hq;
    cbn [bind]; [|done].
  destruct (BiEncoderModel.encode_passage self passage) as [p|e] eqn:Hp;
    cbn [bind]; [|done].
  assert (Hqs : is_Some q <-> is_Some query).
  { destruct query as [qry|].
    - split; [eauto|]. intros _. by eapply encode_query_Some.
    - injection Hq as <-. split; intros [? [=]]. }
  assert (Hps : is_Some p <-> is_Some passage).
  { destruct passage as [psg|].
    - split; [eauto|]. intros _. by eapply encode_passage_Some.
    - injection Hp as <-. split; intros [? [=]]. }
  destruct q as [q|], p as [p|].
  - destruct Habsent as [-> | ->].
    + destruct (proj1 Hqs) as [? [=]]. eauto.
    + destruct (proj1 Hps) as [? [=]]. eauto.
  - intros [= <-]. simpl. done.
  - intros [= <-]. simpl. done.
  - intros [= <-]. simpl. done.
Qed.

Lemma forward_embedding_only_witness :
  loss {| q_reps := None;
          p_reps := Some (Tensor [[3; 1]; [4; 1]]%R true);
          loss := None; scores := None |} = None
  /\ scores {| q_reps := None;
               p_reps := Some (Tensor [[3; 1]; [4; 1]]%R true);
               loss := None; scores := None |} = None
  /\ (is_Some (@None (tensor (list (list R)))) <-> is_Some (@None token_batch))
  /\ (is_Some (Some (Tensor [[3; 1]; [4; 1]]%R true))
      <-> is_Some (Some (Sample.batch [[3]; [4]]%Z [[1]; [1]]%Z)))
  /\ BiEncoderModel.encode_query (Sample.model "cls" "softmax" 1 true) None
     = Ok None
  /\ BiEncoderModel.encode_passage (Sample.model "cls" "softmax" 1 true)
       (Some (Sample.batch [[3]; [4]]%Z [[1]; [1]]%Z))
     = Ok (Some (Tensor [[3; 1]; [4; 1]]%R true)).
Proof.
  apply (forward_embedding_only (Sample.model "cls" "softmax" 1 true)
           Sample.single_process None
           (Some (Sample.batch [[3]; [4]]%Z [[1]; [1]]%Z))
           (Some [[1]; [0]]%R)
           {| q_reps := None;
              p_reps := Some (Tensor [[3; 1]; [4; 1]]%R true);
              loss := None; scores := None |}).
  - by left.
  - reflexivity.
Defined.

(** ** Loss selection *)

(** X5.  A loss type other than ['softmax'], ['multi-softmax'] and
    ['myloss'] makes [compute_loss] fail its assertion, for every scores
    tensor and every target. *)
Theorem compute_loss_unknown_type_raises
    (self : BiEncoderModel.t) (scores : tensor (list (list R)))
    (target : target_t) :
  BiEncoderModel.loss_type self <> "softmax" ->
  BiEncoderModel.loss_type self <> "multi-softmax" ->
  BiEncoderModel.loss_type self <> "myloss" ->
  BiEncoderModel.compute_loss self scores target = Raise AssertionError.
Proof.
  intros H1 H2 H3. unfold BiEncoderModel.compute_loss, BiEncoderModel.compute_loss_with.
  apply String.eqb_neq in H1, H2, H3. by rewrite H1, H2, H3.
Qed.

Lemma compute_loss_unknown_type_raises_witness :
  BiEncoderModel.compute_loss (Sample.model "cls" "hinge" 1 true)
    (Tensor [[0; 0]]%R true) (ClassTarget [0]%Z)
  = Raise AssertionError.
Proof.
  apply (compute_loss_unknown_type_raises (Sample.model "cls" "hinge" 1 true));
    discriminate.
Defined.

(** ** The training pass without teacher scores *)

Lemma implicit_target_values (Q P : nat) :
  0 < Q -> 0 < P -> (Z.of_nat P <= int64_max)%Z ->
  BiEncoderModel.implicit_target Q P Q
  = Ok ((fun i => Z.of_nat (i * (P / Q))) <$> seq 0 Q)
  /\ forall i, i < Q -> i * (P / Q) < P.
Proof.
  intros HQ HP Hfit.
  assert (Hin : forall i, i < Q -> i * (P / Q) < P).
  { intros i Hi. pose proof (Nat.Div0.mul_div_le P Q) as Hle.
    destruct (Nat.eq_dec (P / Q) 0) as [-> | Hk]; [lia|]. nia. }
  split; [|done]. unfold BiEncoderModel.implicit_target, Torch.arange.
  rewrite (proj2 (Nat.eqb_neq Q 0)) by lia. f_equal.
  rewrite <- list_fmap_compose. apply list_eq. intros i.
  rewrite !list_lookup_fmap.
  destruct (seq 0 Q !! i) as [i'|] eqn:Hi; [|done]. simpl. f_equal.
  apply lookup_seq in Hi as [-> Hi]. simpl.
  rewrite <- Nat2Z.inj_mul. apply wrap64_of_nat.
  specialize (Hin i Hi). lia.
Qed.

Lemma cross_entropy_class_rows_in_range (k P : nat) (rows : list (list R)) :
  forall i0,
  Forall (fun r => length r = P) rows ->
  (forall i, i < length rows -> (i0 + i) * k < P) ->
  Torch.cross_entropy_class_rows rows
    ((fun i => Z.of_nat (i * k)) <$> seq i0 (length rows))
  = Ok (imap (fun i row =>
                Some (- nth ((i0 + i) * k) (Torch.log_softmax row) 0)%R)
             rows).
Proof.
  induction rows as [|row rows IH]; intros i0 HP Hin; [done|].
  apply Forall_cons in HP as [Hrow HP].
  cbn [length seq]. rewrite fmap_cons. cbn [Torch.cross_entropy_class_rows].
  assert (Hi0 : i0 * k < P).
  { specialize (Hin 0). rewrite Nat.add_0_r in Hin. apply Hin. simpl. lia. }
  unfold Torch.cross_entropy_class_row at 1.
  rewrite (proj2 (Z.eqb_neq (Z.of_nat (i0 * k)) (-100))) by lia.
  rewrite (proj2 (Z.leb_le 0 (Z.of_nat (i0 * k)))) by lia.
  rewrite Nat2Z.id.
  destruct (lookup_lt_is_Some_2 (Torch.log_softmax row) (i0 * k)) as [l Hl].
  { unfold Torch.log_softmax. rewrite length_fmap. lia. }
  rewrite Hl. cbn [bind].
  rewrite (IH (S i0)); [|done|].
  - cbn [bind imap]. do 2 f_equal.
    + rewrite Nat.add_0_r. do 2 f_equal. symmetry.
      by apply nth_lookup_Some with (d := 0%R).
    + apply imap_ext. intros i r _. unfold compose.
      by assert (S i0 + i = i0 + S i) as -> by lia.
  - intros i Hi. assert (S i0 + i = i0 + S i) as -> by lia.
    apply Hin. simpl. lia.
Qed.

Lemma omap_imap_Some {A B : Type} (g : nat -> A -> B) (l : list A) :
  omap (fun o : option B => o) (imap (fun i a => Some (g i a)) l) = imap g l.
Proof.
  revert g. induction l as [|a l IH]; intros g; [done|].
  cbn [imap]. change (omap (fun o : option B => o)
                        (Some (g 0 a)
                         :: imap ((fun i a => Some (g i a)) ∘ S) l))
    with (g 0 a :: omap (fun o : option B => o)
                        (imap (fun i a => Some ((g ∘ S) i a)) l)).
  f_equal. apply (IH (g ∘ S)).
Qed.

(** X6.  On one process, in training mode, without teacher scores and with
    [loss_type = 'softmax']: for Q >= 1 query embeddings and P >= 1
    passage embeddings of one size D (P a multiple of Q or not) every
    class target [i * (P // Q)] is a valid column, so [forward] does not
    raise; the scores it returns are the similarity divided by the
    temperature and the loss is the mean over the queries of the negative
    log-softmax at column [i * (P // Q)] of row [i]. *)
Theorem forward_training_softmax_in_batch
    (self : BiEncoderModel.t) (rt : dist_runtime) (qry psg : token_batch)
    (q p : tensor (list (list R))) (D : nat) :
  BiEncoderModel.training self = true ->
  BiEncoderModel.negatives_x_device self = false ->
  BiEncoderModel.loss_type self = "softmax" ->
  BiEncoderModel.encode_query self (Some qry) = Ok (Some q) ->
  BiEncoderModel.encode_passage self (Some psg) = Ok (Some p) ->
  Shape.has_width D (data q) ->
  Shape.has_width D (data p) ->
  0 < length (data q) ->
  0 < length (data p) ->
  (Z.of_nat (length (data p)) <= int64_max)%Z ->
  BiEncoderModel.forward self rt (Some qry) (Some psg) None
  = Ok {| q_reps := Some q; p_reps := Some p;
          loss :=
            Some (Tensor
                    (Shape.in_batch_nll
                       (length (data p) / length (data q))
                       (Shape.scaled_similarity
                          (BiEncoderModel.temperature self)
                          (data q) (data p)))
                    (requires_grad q || requires_grad p));
          scores :=
            Some (Tensor
                    (Nd2 (Shape.scaled_similarity
                            (BiEncoderModel.temperature self)
                            (data q) (data p)))
                    (requires_grad q || requires_grad p)) |}.
Proof.
  intros Htrain Hdev Hty Hq Hp Hwq Hwp HQ HP Hfit.
  rewrite (forward_training_implicit self rt qry psg q p) by done.
  rewrite (matmul_has_width _ _ D) by done. cbn [bind].
  destruct (implicit_target_values _ _ HQ HP Hfit) as [-> Hin].
  cbn [bind]. unfold BiEncoderModel.compute_loss, BiEncoderModel.compute_loss_with. rewrite Hty.
  simpl String.eqb. cbv iota. cbn [data].
  unfold Torch.cross_entropy_class_mean.
  fold (Shape.scaled_similarity (BiEncoderModel.temperature self)
          (data q) (data p)).
  destruct (similarity_rows (data q) (data p)) as [Hlen Hw].
  assert (Hlen' : length (Shape.scaled_similarity
                            (BiEncoderModel.temperature self)
                            (data q) (data p)) = length (data q))
    by (unfold Shape.scaled_similarity; by rewrite length_map).
  rewrite <- Hlen' at 1.
  rewrite (cross_entropy_class_rows_in_range _ (length (data p)) _ 0).
  - cbn [bind]. rewrite omap_imap_Some. unfold Shape.in_batch_nll, Torch.mean.
    done.
  - unfold Shape.scaled_similarity. apply Forall_fmap.
    eapply Forall_impl; [exact Hw|]. intros r Hr. simpl.
    by rewrite length_map.
  - intros i Hi. simpl. apply Hin. lia.
Qed.

Lemma forward_training_softmax_in_batch_witness :
  BiEncoderModel.forward (Sample.model "cls" "softmax" (5 / 10) true)
    Sample.single_process
    (Some (Sample.batch [[1]; [2]]%Z [[1]; [1]]%Z))
    (Some (Sample.batch [[3]; [4]; [5]; [6]]%Z [[1]; [1]; [1]; [1]]%Z)) None
  = Ok {| q_reps := Some (Tensor [[1; 1]; [2; 1]]%R true);
          p_reps := Some (Tensor [[3; 1]; [4; 1]; [5; 1]; [6; 1]]%R true);
          loss :=
            Some (Tensor
                    (Shape.in_batch_nll (4 / 2)
                       (Shape.scaled_similarity (5 / 10)
                          [[1; 1]; [2; 1]]%R
                          [[3; 1]; [4; 1]; [5; 1]; [6; 1]]%R))
                    (true || true));
          scores :=
            Some (Tensor
                    (Nd2 (Shape.scaled_similarity (5 / 10)
                            [[1; 1]; [2; 1]]%R
                            [[3; 1]; [4; 1]; [5; 1]; [6; 1]]%R))
                    (true || true)) |}.
Proof.
  apply (forward_training_softmax_in_batch
           (Sample.model "cls" "softmax" (5 / 10) true) Sample.single_process
           (Sample.batch [[1]; [2]]%Z [[1]; [1]]%Z)
           (Sample.batch [[3]; [4]; [5]; [6]]%Z [[1]; [1]; [1]; [1]]%Z)
           (Tensor [[1; 1]; [2; 1]]%R true)
           (Tensor [[3; 1]; [4; 1]; [5; 1]; [6; 1]]%R true) 2).
  - reflexivity.
  - reflexivity.
  - reflexivity.
  - reflexivity.
  - reflexivity.
  - by repeat constructor.
  - by repeat constructor.
  - simpl. lia.
  - simpl. lia.
  - unfold int64_max. simpl. lia.
Defined.

(** ** Room for the teacher scores *)

Lemma scatter_row_overflow (src : list R) : forall (row : list R) start,
  src <> [] ->
  length row < start + length src ->
  Torch.scatter_row row (Z.of_nat <$> seq start (length src)) src
  = Raise RuntimeError.
Proof.
  induction src as [|v src IH]; intros row start Hne Hlen; [done|].
  cbn [length seq]. rewrite fmap_cons. cbn [Torch.scatter_row].
  rewrite (proj2 (Z.leb_le 0 (Z.of_nat start))) by lia.
  destruct (decide (start < length row)) as [Hin|Hout].
  - rewrite (proj2 (Z.ltb_lt (Z.of_nat start) (Z.of_nat (length row))))
      by lia.
    cbn [andb]. rewrite Nat2Z.id. apply IH.
    + destruct src; [simpl in Hlen; lia | done].
    + rewrite length_insert. simpl in Hlen. lia.
  - by rewrite (proj2 (Z.ltb_ge (Z.of_nat start) (Z.of_nat (length row))))
      by lia.
Qed.

Lemma scatter_blocks_overflow (N W : nat) (src_rows : list (list R)) :
  forall (self : list (list R)) i0,
  0 < N ->
  src_rows <> [] ->
  length self = length src_rows ->
  Forall (fun r => length r = N) src_rows ->
  Forall (fun r => length r = W) self ->
  W < (i0 + length src_rows) * N ->
  Torch.scatter_ self
    ((fun i => Z.of_nat <$> seq (i * N) N) <$> seq i0 (length src_rows))
    src_rows
  = Raise RuntimeError.
Proof.
  induction src_rows as [|s src_rows IH];
    intros self i0 HNpos Hne Hlen HN HW Hfit; [done|].
  destruct self as [|row self]; [done|].
  apply Forall_cons in HN as [Hs HN]. apply Forall_cons in HW as [Hr HW].
  cbn [length seq]. rewrite fmap_cons. cbn [Torch.scatter_].
  destruct (decide (i0 * N + N <= W)) as [Hroom|Hnoroom].
  - pose proof (scatter_row_consecutive s row (i0 * N)) as Hrow.
    rewrite Hs in Hrow. rewrite Hrow by lia. cbn [bind].
    rewrite (IH self (S i0)); [done | done | | by injection Hlen | done
                              | done | simpl in *; lia].
    destruct src_rows; [simpl in *; lia | done].
  - pose proof (scatter_row_overflow s row (i0 * N)) as Hrow.
    rewrite Hs in Hrow. rewrite Hrow; [done | | lia].
    destruct s; [simpl in Hs; lia | done].
Qed.

Lemma teacher_target_consecutive
    (B N : nat) (scores teacher_score : list (list R)) :
  Shape.is_matrix B N teacher_score ->
  (Z.of_nat (B * N) <= int64_max)%Z ->
  BiEncoderModel.teacher_target scores teacher_score
  = Torch.scatter_ (Torch.zeros_like scores)
      ((fun i => Z.of_nat <$> seq (i * N) N)
         <$> seq 0 (length teacher_score))
      teacher_score.
Proof.
  intros [HB HN] Hfit. unfold BiEncoderModel.teacher_target. f_equal.
  destruct teacher_score as [|r rows].
  - reflexivity.
  - apply Forall_cons in HN as [Hr _]. cbn [size1]. rewrite Hr, HB.
    by apply scatter_indices_consecutive.
Qed.

Lemma teacher_target_fits
    (B N W : nat) (scores teacher_score : list (list R)) :
  Shape.is_matrix B N teacher_score ->
  Shape.is_matrix B W scores ->
  (Z.of_nat (B * N) <= int64_max)%Z ->
  B * N <= W ->
  exists target,
    BiEncoderModel.teacher_target scores teacher_score = Ok target
    /\ length target = B
    /\ forall i Ri, teacher_score !! i = Some Ri ->
         target !! i
         = Some (replicate (i * N) 0%R ++ Ri
                 ++ replicate (W - (i * N + N)) 0%R).
Proof.
  intros Hteacher [HsB HsW] Hfit Hroom.
  rewrite (teacher_target_consecutive B N) by done.
  destruct Hteacher as [HB HN].
  destruct (scatter_blocks N W teacher_score (Torch.zeros_like scores) 0)
    as (target & Htarget & Hlen & Hrows).
  { unfold Torch.zeros_like. rewrite length_fmap. lia. }
  { done. }
  { unfold Torch.zeros_like. apply Forall_fmap.
    eapply Forall_impl; [exact HsW|]. intros r Hr. simpl.
    by rewrite length_replicate. }
  { simpl. lia. }
  exists target. split; [done|]. split; [lia|].
  intros i Ri HRi.
  assert (Hi : i < B) by (rewrite <- HB; by eapply lookup_lt_Some).
  rewrite (Hrows i Ri (replicate W 0%R) HRi)
    by (apply zeros_like_lookup; [done | lia]).
  simpl. rewrite take_replicate, drop_replicate.
  rewrite Nat.min_l by nia. done.
Qed.

Lemma teacher_target_overflows
    (B N W : nat) (scores teacher_score : list (list R)) :
  Shape.is_matrix B N teacher_score ->
  Shape.is_matrix B W scores ->
  (Z.of_nat (B * N) <= int64_max)%Z ->
  W < B * N ->
  BiEncoderModel.teacher_target scores teacher_score = Raise RuntimeError.
Proof.
  intros Hteacher [HsB HsW] Hfit Hnoroom.
  rewrite (teacher_target_consecutive B N) by done.
  destruct Hteacher as [HB HN].
  apply (scatter_blocks_overflow N W); try done.
  - destruct N; lia.
  - destruct teacher_score; [simpl in *; subst B; lia | done].
  - unfold Torch.zeros_like. rewrite length_fmap. lia.
  - unfold Torch.zeros_like. apply Forall_fmap.
    eapply Forall_impl; [exact HsW|]. intros r Hr. simpl.
    by rewrite length_replicate.
  - simpl. rewrite HB. lia.
Qed.

(** X7.  The scattered target exists exactly when the score rows have
    room for all the teacher columns: for a teacher matrix B x N and scores
    B x W, the target is built when B * N <= W (row i then carries the
    teacher row at columns [i*N, i*N+N) and zeros elsewhere, also in the
    columns past B * N), and [scatter_] raises [RuntimeError] on an index
    out of range when W < B * N. *)
Theorem teacher_target_needs_room
    (B N W : nat) (scores teacher_score : list (list R)) :
  Shape.is_matrix B N teacher_score ->
  Shape.is_matrix B W scores ->
  (Z.of_nat (B * N) <= int64_max)%Z ->
  (B * N <= W ->
   exists target,
     BiEncoderModel.teacher_target scores teacher_score = Ok target
     /\ length target = B
     /\ forall i Ri, teacher_score !! i = Some Ri ->
          target !! i
          = Some (replicate (i * N) 0%R ++ Ri
                  ++ replicate (W - (i * N + N)) 0%R))
  /\ (W < B * N ->
      BiEncoderModel.teacher_target scores teacher_score
      = Raise RuntimeError).
Proof.
  intros Hteacher Hscores Hfit. split.
  - by apply teacher_target_fits.
  - by apply teacher_target_overflows.
Qed.

Lemma teacher_target_needs_room_witness :
  (2 * 2 <= 3 ->
   exists target,
     BiEncoderModel.teacher_target
       [[7; 7; 7]; [7; 7; 7]]%R [[1; 2]; [3; 4]]%R = Ok target
     /\ length target = 2
     /\ forall i Ri, [[1; 2]; [3; 4]]%R !! i = Some Ri ->
          target !! i
          = Some (replicate (i * 2) 0%R ++ Ri
                  ++ replicate (3 - (i * 2 + 2)) 0%R))
  /\ (3 < 2 * 2 ->
      BiEncoderModel.teacher_target
        [[7; 7; 7]; [7; 7; 7]]%R [[1; 2]; [3; 4]]%R
      = Raise RuntimeError).
Proof.
  apply (teacher_target_needs_room 2 2 3).
  - split; [reflexivity | repeat constructor].
  - split; [reflexivity | repeat constructor].
  - unfold int64_max. simpl. lia.
Defined.

(** ** Gathering across several processes *)

Lemma gathered_slots (received : list (list (list R))) (buffer : tensor (list (list R))) :
  imap (fun i b => match received !! i with
                   | Some r => Tensor r false
                   | None => b
                   end) (replicate (length received) buffer)
  = (fun r => Tensor r false) <$> received.
Proof.
  apply list_eq. intros i. rewrite list_lookup_imap, list_lookup_fmap.
  destruct (received !! i) as [r|] eqn:Hr.
  - rewrite (lookup_replicate_2 _ _ i) by (by eapply lookup_lt_Some).
    done.
  - apply lookup_ge_None in Hr.
    rewrite (proj2 (lookup_ge_None (replicate (length received) buffer) i));
      [done|]. by rewrite length_replicate.
Qed.

Lemma existsb_no_grad (rs : list (list (list R))) :
  existsb requires_grad ((fun r => Tensor r false) <$> rs) = false.
Proof. induction rs as [|r rs IH]; [done|]. by rewrite fmap_cons. Qed.

Lemma data_received (rs : list (list (list R))) :
  data <$> ((fun r => Tensor r false) <$> rs) = rs.
Proof. induction rs as [|r rs IH]; [done|]. rewrite !fmap_cons. by f_equal. Qed.

Lemma exchange_fits_ok
    (process_rank world_size : nat) (received : list (list (list R)))
    (local : list (list R)) :
  Shape.exchange_ok world_size received local ->
  BiEncoderModel.exchange_fits process_rank world_size received local = true.
Proof.
  intros [Hlen Hshape]. unfold BiEncoderModel.exchange_fits.
  apply forallb_forall. intros i Hi. apply in_seq in Hi.
  destruct (lookup_lt_is_Some_2 received i) as [r Hr]; [lia|].
  rewrite Hr, (proj1 (Forall_lookup _ _) Hshape i r Hr).
  apply orb_true_r.
Qed.

Lemma exchange_fits_mismatch
    (process_rank world_size i : nat) (received : list (list (list R)))
    (r local : list (list R)) :
  i < world_size ->
  i <> process_rank ->
  received !! i = Some r ->
  Torch.same_shape r local = false ->
  BiEncoderModel.exchange_fits process_rank world_size received local = false.
Proof.
  intros Hi Hne Hr Hshape.
  destruct (BiEncoderModel.exchange_fits _ _ _ _) eqn:Hfits; [|done].
  unfold BiEncoderModel.exchange_fits in Hfits.
  assert (Hin : In i (seq 0 world_size)) by (apply in_seq; lia).
  pose proof (proj1 (forallb_forall _ _) Hfits i Hin) as Hslot.
  cbv beta in Hslot. rewrite Hr, Hshape in Hslot.
  rewrite (proj2 (Nat.eqb_neq _ _) Hne) in Hslot. done.
Qed.

Lemma dist_gather_slots
    (self : BiEncoderModel.t) (rt : dist_runtime)
    (t : tensor (list (list R))) (process_rank world_size : nat) :
  BiEncoderModel.dist_attrs self = Some (process_rank, world_size) ->
  process_rank < world_size ->
  Shape.exchange_ok world_size (all_gather rt (data t)) (data t) ->
  BiEncoderModel._dist_gather_tensor self rt (Some t)
  = Ok (Some (Tensor
                (Shape.in_rank_order process_rank
                   (all_gather rt (data t)) (data t))
                (requires_grad t))).
Proof.
  intros Hattrs Hrank Hok. unfold BiEncoderModel._dist_gather_tensor.
  rewrite Hattrs. cbv zeta. rewrite (exchange_fits_ok _ _ _ _ Hok).
  destruct Hok as [Hlen _].
  rewrite <- Hlen. rewrite gathered_slots.
  rewrite length_fmap.
  rewrite (proj2 (Nat.ltb_lt process_rank _)) by lia.
  rewrite insert_take_drop by (rewrite length_fmap; lia).
  rewrite <- fmap_take, <- fmap_drop.
  rewrite fmap_app, fmap_cons, !data_received, concat_app. cbn [concat].
  rewrite existsb_app. cbn [existsb].
  rewrite !existsb_no_grad. cbn [orb]. by rewrite orb_false_r.
Qed.

(** X8.  With [world_size] processes, a valid rank and an exchange that
    delivers one tensor per process, each of the shape of the tensor the
    caller sent, the gathered tensor is the concatenation, in rank order,
    of what the other processes sent, with the caller's own tensor (not
    the copy that came back) in the slot of its rank; the result requires
    grad exactly when the caller's tensor does. *)
Theorem dist_gather_rank_order
    (self : BiEncoderModel.t) (rt : dist_runtime)
    (t : tensor (list (list R))) (process_rank world_size : nat) :
  BiEncoderModel.dist_attrs self = Some (process_rank, world_size) ->
  process_rank < world_size ->
  Shape.exchange_ok world_size (all_gather rt (data t)) (data t) ->
  BiEncoderModel._dist_gather_tensor self rt (Some t)
  = Ok (Some (Tensor
                (concat (take process_rank (all_gather rt (data t)))
                 ++ data t
                 ++ concat (drop (S process_rank) (all_gather rt (data t))))
                (requires_grad t))).
Proof. apply dist_gather_slots. Qed.

Lemma dist_gather_rank_order_witness :
  BiEncoderModel._dist_gather_tensor Cluster.model Cluster.runtime
    (Some (Tensor [[1; 2]]%R true))
  = Ok (Some (Tensor
                (concat (take 1 (all_gather Cluster.runtime [[1; 2]]%R))
                 ++ [[1; 2]]%R
                 ++ concat (drop 2 (all_gather Cluster.runtime [[1; 2]]%R)))
                true)).
Proof.
  apply (dist_gather_rank_order Cluster.model Cluster.runtime
           (Tensor [[1; 2]]%R true) 1 2).
  - reflexivity.
  - lia.
  - split; [reflexivity | by repeat constructor].
Defined.

(** When another process sent a tensor that does not have the shape of
    the buffers, the exchange fails. *)
Lemma dist_gather_mismatch
    (self : BiEncoderModel.t) (rt : dist_runtime)
    (t : tensor (list (list R))) (process_rank world_size i : nat)
    (r : list (list R)) :
  BiEncoderModel.dist_attrs self = Some (process_rank, world_size) ->
  i < world_size ->
  i <> process_rank ->
  all_gather rt (data t) !! i = Some r ->
  Torch.same_shape r (data t) = false ->
  raises (BiEncoderModel._dist_gather_tensor self rt (Some t)).
Proof.
  intros Hattrs Hi Hne Hr Hshape. exists RuntimeError.
  unfold BiEncoderModel._dist_gather_tensor.
  rewrite Hattrs. cbv zeta.
  by rewrite (exchange_fits_mismatch _ _ i _ r).
Qed.

Example cluster_model_init :
  BiEncoderModel.init Cluster.runtime Sample.lm Sample.lm None
    false false "cls" true 1 1 "softmax"
  = Ok Cluster.model.
Proof. reflexivity. Qed.

Example cluster_gather_rows :
  BiEncoderModel._dist_gather_tensor Cluster.model Cluster.runtime
    (Some (Tensor [[1; 2]]%R true))
  = Ok (Some (Tensor [[9; 9]; [1; 2]]%R true)).
Proof. reflexivity. Qed.

(** Process 0 sent one row; a local tensor of two rows does not fit the
    exchange. *)
Example cluster_gather_mismatch :
  BiEncoderModel._dist_gather_tensor Cluster.model Cluster.runtime
    (Some (Tensor [[1; 2]; [3; 4]]%R true))
  = Raise RuntimeError.
Proof. reflexivity. Qed.

(** X9.  The attributes [process_rank] and [world_size] exist only on a
    model constructed with [negatives_x_device]: on a model constructed
    without it, [_dist_gather_tensor] of a tensor raises [AttributeError];
    on a model constructed with it, the runtime was initialised and the
    attributes are the runtime's rank and world size. *)
Theorem gather_needs_negatives_x_device
    (rt rt' : dist_runtime)
    (lm_q lm_p : token_batch -> tensor (list (list (list R))))
    (pooler : option DensePooler.t) (untie_encoder normlized : bool)
    (method : string) (negatives_x_device : bool) (T weight : R)
    (loss_type : string) (m : BiEncoderModel.t)
    (t : tensor (list (list R))) :
  BiEncoderModel.init rt lm_q lm_p pooler untie_encoder normlized method
    negatives_x_device T weight loss_type = Ok m ->
  BiEncoderModel.negatives_x_device m = negatives_x_device
  /\ (negatives_x_device = false ->
      BiEncoderModel._dist_gather_tensor m rt' (Some t)
      = Raise AttributeError)
  /\ (negatives_x_device = true ->
      is_initialized rt = true
      /\ BiEncoderModel.dist_attrs m
         = Some (get_rank rt, get_world_size rt)).
Proof.
  unfold BiEncoderModel.init. destruct negatives_x_device.
  - destruct (is_initialized rt); cbn [negb bind]; [|done].
    intros [= <-]. by split_and!.
  - cbn [bind]. intros [= <-]. by split_and!.
Qed.

Lemma gather_needs_negatives_x_device_witness :
  BiEncoderModel.negatives_x_device (Sample.model "cls" "softmax" 1 true)
  = false
  /\ (false = false ->
      BiEncoderModel._dist_gather_tensor
        (Sample.model "cls" "softmax" 1 true) Cluster.runtime
        (Some (Tensor [[1; 2]]%R true))
      = Raise AttributeError)
  /\ (false = true ->
      is_initialized Sample.single_process = true
      /\ BiEncoderModel.dist_attrs (Sample.model "cls" "softmax" 1 true)
         = Some (get_rank Sample.single_process,
                 get_world_size Sample.single_process)).
Proof.
  apply (gather_needs_negatives_x_device Sample.single_process
           Cluster.runtime Sample.lm Sample.lm None false false "cls"
           false 1 1 "softmax").
  reflexivity.
Defined.

(** ** Training scores *)

(** X10.  On one process, whenever the training pass returns, with or
    without teacher scores, its scores are the raw similarity of the two
    embeddings (what the evaluation pass returns) divided entry by entry by
    the temperature, one row per query, and the returned embeddings are the
    encoders' outputs. *)
Theorem forward_training_scores
    (self : BiEncoderModel.t) (rt : dist_runtime) (qry psg : token_batch)
    (teacher_score : option (list (list R)))
    (q p : tensor (list (list R))) (out : EncoderOutput) :
  BiEncoderModel.training self = true ->
  BiEncoderModel.negatives_x_device self = false ->
  BiEncoderModel.encode_query self (Some qry) = Ok (Some q) ->
  BiEncoderModel.encode_passage self (Some psg) = Ok (Some p) ->
  0 < length (data q) ->
  BiEncoderModel.forward self rt (Some qry) (Some psg) teacher_score
  = Ok out ->
  scores out
  = Some (Tensor (Nd2 (Shape.scaled_similarity
                         (BiEncoderModel.temperature self)
                         (data q) (data p)))
                 (requires_grad q || requires_grad p))
  /\ q_reps out = Some q /\ p_reps out = Some p /\ is_Some (loss out).
Proof.
  intros Htrain Hdev Hq Hp HQ.
  destruct teacher_score as [ts|].
  - rewrite (forward_training_teacher self rt qry psg q p ts) by done.
    destruct (Torch.matmul (data q) (data p)) as [checked|e];
      cbn [bind]; [|done].
    destruct (BiEncoderModel.teacher_target _ _) as [target|e];
      cbn [bind]; [|done].
    destruct (BiEncoderModel.compute_loss _ _ _) as [l|e];
      cbn [bind]; [|done].
    intros [= <-]. simpl. split_and!; eauto.
  - rewrite (forward_training_implicit self rt qry psg q p) by done.
    destruct (Torch.matmul (data q) (data p)) as [checked|e];
      cbn [bind]; [|done].
    destruct (BiEncoderModel.implicit_target _ _ _) as [target|e];
      cbn [bind]; [|done].
    destruct (BiEncoderModel.compute_loss _ _ _) as [l|e];
      cbn [bind]; [|done].
    intros [= <-]. simpl. split_and!; eauto.
Qed.

Lemma forward_training_scores_witness :
  exists out,
    BiEncoderModel.forward (Sample.model "cls" "softmax" (5 / 10) true)
      Sample.single_process
      (Some (Sample.batch [[1]; [2]]%Z [[1]; [1]]%Z))
      (Some (Sample.batch [[3]; [4]]%Z [[1]; [1]]%Z)) None = Ok out
    /\ scores out
       = Some (Tensor (Nd2 (Shape.scaled_similarity (5 / 10)
                              [[1; 1]; [2; 1]]%R [[3; 1]; [4; 1]]%R))
                      (true || true))
    /\ q_reps out = Some (Tensor [[1; 1]; [2; 1]]%R true)
    /\ p_reps out = Some (Tensor [[3; 1]; [4; 1]]%R true)
    /\ is_Some (loss out).
Proof.
  eexists. split; [reflexivity|].
  apply (forward_training_scores
           (Sample.model "cls" "softmax" (5 / 10) true) Sample.single_process
           (Sample.batch [[1]; [2]]%Z [[1]; [1]]%Z)
           (Sample.batch [[3]; [4]]%Z [[1]; [1]]%Z) None
           (Tensor [[1; 1]; [2; 1]]%R true)
           (Tensor [[3; 1]; [4; 1]]%R true)).
  - reflexivity.
  - reflexivity.
  - reflexivity.
  - reflexivity.
  - simpl. lia.
  - reflexivity.
Defined.

(** ** One process with negatives across devices *)

Lemma dist_gather_alone
    (self : BiEncoderModel.t) (rt : dist_runtime)
    (t : tensor (list (list R))) :
  BiEncoderModel.dist_attrs self = Some (0, 1) ->
  BiEncoderModel.gather self rt t = Ok t.
Proof.
  intros Hattrs.
  unfold BiEncoderModel.gather, BiEncoderModel._dist_gather_tensor.
  rewrite Hattrs. destruct t as [d rg]. cbn.
  by rewrite app_nil_r, orb_false_r.
Qed.

(** X11.  On a single process (rank 0 of 1) switching
    [negatives_x_device] on changes nothing: [forward] returns what it
    returns with the option off, for every input, in training and in
    evaluation mode, whatever the exchange primitive delivers. *)
Theorem forward_single_process_negatives
    (self : BiEncoderModel.t) (rt : dist_runtime)
    (query passage : option token_batch)
    (teacher_score : option (list (list R))) :
  BiEncoderModel.dist_attrs self = Some (0, 1) ->
  BiEncoderModel.forward self rt query passage teacher_score
  = BiEncoderModel.forward (Shape.on_one_device self) rt
      query passage teacher_score.
Proof.
  intros Hattrs. unfold BiEncoderModel.forward.
  change (BiEncoderModel.encode_query (Shape.on_one_device self) query)
    with (BiEncoderModel.encode_query self query).
  change (BiEncoderModel.encode_passage (Shape.on_one_device self) passage)
    with (BiEncoderModel.encode_passage self passage).
  destruct (BiEncoderModel.encode_query self query) as [[q|]|e];
    cbn [bind]; try done;
    destruct (BiEncoderModel.encode_passage self passage) as [[p|]|e'];
    cbn [bind]; try done.
  change (BiEncoderModel.training (Shape.on_one_device self))
    with (BiEncoderModel.training self).
  destruct (BiEncoderModel.training self); [|done].
  change (BiEncoderModel.negatives_x_device (Shape.on_one_device self))
    with false.
  destruct (BiEncoderModel.negatives_x_device self); [|done].
  destruct teacher_score as [ts|].
  - rewrite !(dist_gather_alone self rt) by done. cbn [bind data]. done.
  - rewrite !(dist_gather_alone self rt) by done. cbn [bind]. done.
Qed.

Lemma forward_single_process_negatives_witness :
  BiEncoderModel.forward Sample.gathering_model Sample.single_process
    (Some (Sample.batch [[1]; [2]]%Z [[1]; [1]]%Z))
    (Some (Sample.batch [[3]; [4]]%Z [[1]; [1]]%Z)) None
  = BiEncoderModel.forward (Shape.on_one_device Sample.gathering_model)
      Sample.single_process
      (Some (Sample.batch [[1]; [2]]%Z [[1]; [1]]%Z))
      (Some (Sample.batch [[3]; [4]]%Z [[1]; [1]]%Z)) None.
Proof.
  apply (forward_single_process_negatives Sample.gathering_model
           Sample.single_process).
  reflexivity.
Defined.

(** ** Bounds on the losses *)

Lemma ln_monotone (x y : R) : (0 < x)%R -> (x <= y)%R -> (ln x <= ln y)%R.
Proof.
  intros Hx [Hlt | ->]; [|lra]. left. by apply ln_increasing.
Qed.

Lemma clamp_between (lo hi x : R) :
  (lo <= hi)%R -> (lo <= Torch.clamp lo hi x <= hi)%R.
Proof.
  intros Hle. unfold Torch.clamp, Rmin, Rmax.
  destruct (Rle_dec x lo); destruct (Rle_dec _ hi); lra.
Qed.

Lemma sum_between (a b : R) (v : list R) :
  Forall (fun x => (a <= x <= b)%R) v ->
  (INR (length v) * a <= Torch.sum v <= INR (length v) * b)%R.
Proof.
  induction 1 as [|x v Hx _ IH]; [simpl; lra|].
  cbn [Torch.sum foldr length]. fold (Torch.sum v). rewrite S_INR. lra.
Qed.

Lemma mean_between (a b : R) (v : list R) :
  v <> [] ->
  Forall (fun x => (a <= x <= b)%R) v ->
  (a <= Torch.mean v <= b)%R.
Proof.
  intros Hne Hv. pose proof (sum_between a b v Hv) as Hsum.
  assert (Hn : (0 < INR (length v))%R).
  { apply lt_0_INR. destruct v; [done | simpl; lia]. }
  pose proof (Rinv_0_lt_compat _ Hn) as Hinv.
  unfold Torch.mean, Rdiv. split.
  - apply Rle_trans with (INR (length v) * a * / INR (length v))%R.
    + right. field. lra.
    + apply Rmult_le_compat_r; lra.
  - apply Rle_trans with (INR (length v) * b * / INR (length v))%R.
    + apply Rmult_le_compat_r; lra.
    + right. field. lra.
Qed.

Lemma myloss_row_between (s t : list R) :
  (0 <= Spec.myloss_row s t <= - ln (1 / 10 ^ 9))%R.
Proof.
  unfold Spec.myloss_row.
  assert (Hlo : (0 < 1 / 10 ^ 9)%R) by lra.
  pose proof (clamp_between (1 / 10 ^ 9) 1
                (Torch.dot (Torch.softmax s) t)) as Hc.
  assert (Hc' : (1 / 10 ^ 9 <= Torch.clamp (1 / 10 ^ 9) 1
                                 (Torch.dot (Torch.softmax s) t) <= 1)%R)
    by (apply Hc; lra).
  pose proof (ln_monotone _ _ Hlo (proj1 Hc')) as Hln1.
  assert (Hln2 : (ln (Torch.clamp (1 / 10 ^ 9) 1
                        (Torch.dot (Torch.softmax s) t)) <= ln 1)%R)
    by (apply ln_monotone; lra).
  rewrite ln_1 in Hln2. lra.
Qed.

(** X12.  The ['myloss'] loss never leaves the interval
    [[0, -log(1e-9)]]: the clamp keeps every row's positive mass within
    [[1e-9, 1]], so no row contributes a negative or an unbounded term,
    and a batch with no kept row gives 0. *)
Theorem myloss_bounded
    (self : BiEncoderModel.t) (scores : tensor (list (list R)))
    (target : list (list R)) :
  BiEncoderModel.loss_type self = "myloss" ->
  Torch.same_shape (data scores) target = true ->
  exists l,
    BiEncoderModel.compute_loss self scores (FloatTarget target) = Ok l
    /\ (0 <= data l <= - ln (1 / 10 ^ 9))%R.
Proof.
  intros Hty Hshape. pose proof (same_shape_length _ _ Hshape) as Hlen.
  rewrite (myloss_compute self scores target Hty).
  assert (Hzero : (0 <= - ln (1 / 10 ^ 9))%R)
    by exact (Rle_trans _ _ _ (proj1 (myloss_row_between [] []))
                (proj2 (myloss_row_between [] []))).
  destruct (Forall_Exists_dec
              (fun row => ~ (0 < Torch.sum row)%R)
              (fun row => (0 < Torch.sum row)%R)
              (fun row => match Rlt_dec 0 (Torch.sum row) with
                          | left H => right H
                          | right H => left H
                          end) target) as [Hnone | Hsome].
  - rewrite (myloss_none_retained scores target Hlen Hnone).
    eexists. split; [done|]. cbn [data]. lra.
  - rewrite (myloss_some_retained scores target Hlen Hsome).
    eexists. split; [done|]. cbn [data]. unfold Spec.myloss.
    apply mean_between.
    + intros Hnil. apply fmap_nil_inv in Hnil.
      apply (retained_rows_nil _ _ Hlen) in Hnil.
      apply Exists_exists in Hsome as (row & Hin & Hpos).
      by destruct (proj1 (Forall_forall _ _) Hnil row Hin).
    + apply Forall_fmap, Forall_true. intros [s t]. simpl.
      apply myloss_row_between.
Qed.

Lemma myloss_bounded_witness :
  exists l,
    BiEncoderModel.compute_loss (Sample.model "cls" "myloss" 1 true)
      (Tensor [[0; 0]]%R true) (FloatTarget [[1; 0]]%R) = Ok l
    /\ (0 <= data l <= - ln (1 / 10 ^ 9))%R.
Proof.
  apply (myloss_bounded (Sample.model "cls" "myloss" 1 true)
           (Tensor [[0; 0]]%R true) [[1; 0]]%R).
  - reflexivity.
  - reflexivity.
Defined.

Lemma sum_nonneg (v : list R) :
  Forall (fun x => (0 <= x)%R) v -> (0 <= Torch.sum v)%R.
Proof. induction 1 as [|x v Hx _ IH]; simpl; [lra|]. fold (Torch.sum v). lra. Qed.

Lemma elem_le_sum (v : list R) (i : nat) (x : R) :
  Forall (fun x => (0 <= x)%R) v -> v !! i = Some x -> (x <= Torch.sum v)%R.
Proof.
  intros Hv. revert i. induction Hv as [|y v Hy Hv IH]; intros i Hi.
  - by rewrite lookup_nil in Hi.
  - cbn [Torch.sum foldr]. fold (Torch.sum v).
    pose proof (sum_nonneg v Hv). destruct i as [|i]; simpl in Hi.
    + injection Hi as ->. lra.
    + specialize (IH i Hi). lra.
Qed.

Lemma log_softmax_nonpos (x : list R) :
  Forall (fun l => (l <= 0)%R) (Torch.log_softmax x).
Proof.
  unfold Torch.log_softmax. apply Forall_lookup. intros i l Hl.
  rewrite list_lookup_fmap in Hl.
  destruct (x !! i) as [xi|] eqn:Hxi; [|done]. injection Hl as <-.
  assert (Hle : (exp xi <= Torch.sum (exp <$> x))%R).
  { apply (elem_le_sum _ i).
    - apply Forall_fmap, Forall_true. intros y. simpl. left. apply exp_pos.
    - by rewrite list_lookup_fmap, Hxi. }
  pose proof (ln_monotone _ _ (exp_pos xi) Hle) as Hln.
  rewrite ln_exp in Hln. lra.
Qed.

Lemma cross_entropy_row_nonneg (x t : list R) :
  Forall (fun v => (0 <= v)%R) t -> (0 <= Torch.cross_entropy_row x t)%R.
Proof.
  intros Ht. unfold Torch.cross_entropy_row.
  pose proof (log_softmax_nonpos x) as Hl.
  revert Hl. generalize (Torch.log_softmax x). intros ls Hl.
  assert (Torch.sum (zip_with Rmult t ls) <= 0)%R; [|lra].
  revert ls Hl. induction Ht as [|v t Hv _ IH]; intros ls Hl; [simpl; lra|].
  destruct Hl as [|l ls Hl Hls]; [simpl; lra|].
  cbn [zip_with Torch.sum foldr]. fold (Torch.sum (zip_with Rmult t ls)).
  specialize (IH ls Hls). nra.
Qed.

(** X13.  For a non-negative target and at least one example, the
    ['multi-softmax'] loss is never below the plain mean of the
    per-example cross entropies (what ['softmax'] computes on the same float
    target), and neither is negative: dividing by the number of nonzero
    losses instead of the batch size can only raise the value. *)
Theorem multi_softmax_at_least_mean
    (multi plain : BiEncoderModel.t) (scores : tensor (list (list R)))
    (target : list (list R)) :
  BiEncoderModel.loss_type multi = "multi-softmax" ->
  BiEncoderModel.loss_type plain = "softmax" ->
  Torch.same_shape (data scores) target = true ->
  0 < length (data scores) ->
  (Z.of_nat (length (data scores)) <= int64_max)%Z ->
  Forall (Forall (fun v => (0 <= v)%R)) target ->
  exists l_multi l_plain,
    BiEncoderModel.compute_loss multi scores (FloatTarget target)
    = Ok l_multi
    /\ BiEncoderModel.compute_loss plain scores (FloatTarget target)
       = Ok l_plain
    /\ (0 <= data l_plain <= data l_multi)%R.
Proof.
  intros Hmulti Hplain Hshape Hpos Hfit Hnonneg.
  destruct (multi_softmax_compute multi scores target Hmulti Hshape)
    as [Hce ->].
  set (losses := zip_with Torch.cross_entropy_row (data scores) target) in *.
  assert (Hlen : length losses = length (data scores)).
  { unfold losses. rewrite length_zip_with.
    apply same_shape_length in Hshape. lia. }
  assert (Hl : Forall (fun l => (0 <= l)%R) losses).
  { apply Forall_lookup. intros i l Hi. unfold losses in Hi.
    rewrite lookup_zip_with in Hi.
    destruct (data scores !! i) as [x|]; [|done]. simpl in Hi.
    destruct (target !! i) as [t|] eqn:Ht; [|done]. injection Hi as <-.
    apply cross_entropy_row_nonneg.
    exact (proj1 (Forall_lookup _ target) Hnonneg i t Ht). }
  pose proof (sum_nonneg losses Hl) as Hsum.
  assert (HB : (0 < INR (length losses))%R) by (apply lt_0_INR; lia).
  eexists. exists (Tensor (Torch.mean losses) (requires_grad scores)).
  split; [done|]. split.
  { unfold BiEncoderModel.compute_loss, BiEncoderModel.compute_loss_with. rewrite Hplain. simpl String.eqb.
    cbv iota. unfold Torch.cross_entropy_mean. by rewrite Hce. }
  cbn [data]. unfold Torch.mean.
  pose proof (Rinv_0_lt_compat _ HB) as HinvB.
  split; [unfold Rdiv; nra|].
  destruct (Spec.nonzero_count losses) as [|n] eqn:Hn.
  - apply nonzero_count_0 in Hn.
    rewrite multi_softmax_reduce_zero by (done || lia).
    rewrite (sum_zeros losses Hn). unfold Rdiv. lra.
  - destruct (multi_softmax_reduce_nonzero losses) as [_ ->]; [lia| |].
    { intros Hz. apply nonzero_count_0 in Hz. lia. }
    rewrite Hn. pose proof (nonzero_count_le losses) as Hle.
    rewrite Hn in Hle.
    assert (Hn0 : (0 < INR (S n))%R) by (apply lt_0_INR; lia).
    assert (HnB : (INR (S n) <= INR (length losses))%R) by (apply le_INR; lia).
    pose proof (Rinv_le_contravar _ _ Hn0 HnB) as Hinv.
    unfold Rdiv. nra.
Qed.

Lemma multi_softmax_at_least_mean_witness :
  exists l_multi l_plain,
    BiEncoderModel.compute_loss (Sample.model "cls" "multi-softmax" 1 true)
      (Tensor [[0; 0]; [1; 0]]%R true) (FloatTarget [[1; 0]; [0; 0]]%R)
    = Ok l_multi
    /\ BiEncoderModel.compute_loss (Sample.model "cls" "softmax" 1 true)
         (Tensor [[0; 0]; [1; 0]]%R true) (FloatTarget [[1; 0]; [0; 0]]%R)
       = Ok l_plain
    /\ (0 <= data l_plain <= data l_multi)%R.
Proof.
  apply (multi_softmax_at_least_mean
           (Sample.model "cls" "multi-softmax" 1 true)
           (Sample.model "cls" "softmax" 1 true)
           (Tensor [[0; 0]; [1; 0]]%R true) [[1; 0]; [0; 0]]%R).
  - reflexivity.
  - reflexivity.
  - reflexivity.
  - simpl. lia.
  - unfold int64_max. simpl. lia.
  - repeat constructor; lra.
Defined.

(** ** The hinge loss on 0/1 targets *)

Lemma hinge_binary_mean
    (scores : tensor (list (list R))) (target : list (list R)) :
  Forall (Forall (fun t => t = 0%R \/ t = 1%R)) target ->
  data (MultiBiEncoderModel.compute_loss scores target)
  = Torch.mean (uncurry Spec.hinge_term
                  <$> zip (concat (data scores)) (concat target)).
Proof.
  intros Hbin. unfold MultiBiEncoderModel.compute_loss,
    MultiBiEncoderModel.loss_func, Torch.hinge_embedding_loss. cbn [data].
  rewrite !concat_fmap_rows.
  rewrite hinge_terms_binary by (by apply Forall_concat).
  by rewrite zip_with_zip.
Qed.

(** X14.  On a 0/1 target of the shape of the scores, with at least one
    entry: if no score exceeds 1 the hinge loss of the multi-encoder
    variant is not negative; and it is exactly 0 when every positive entry
    has score 1 and every negative entry has a score of at most 0.5, the
    margin subtracted from 1. *)
Theorem hinge_loss_margin
    (scores : tensor (list (list R))) (target : list (list R)) :
  Torch.same_shape (data scores) target = true ->
  0 < length (concat target) ->
  Forall (Forall (fun t => t = 0%R \/ t = 1%R)) target ->
  (Forall (fun st => (st.1 <= 1)%R)
     (zip (concat (data scores)) (concat target)) ->
   (0 <= data (MultiBiEncoderModel.compute_loss scores target))%R)
  /\ (Forall (fun st => (st.2 = 1%R -> st.1 = 1%R)
                        /\ (st.2 = 0%R -> (st.1 <= 5 / 10)%R))
        (zip (concat (data scores)) (concat target)) ->
      data (MultiBiEncoderModel.compute_loss scores target) = 0%R).
Proof.
  intros Hshape Hne Hbin. rewrite (hinge_binary_mean scores target Hbin).
  set (entries := zip (concat (data scores)) (concat target)).
  split.
  - intros Hle. unfold Torch.mean.
    assert (Hsum : (0 <= Torch.sum (uncurry Spec.hinge_term <$> entries))%R).
    { apply sum_nonneg, Forall_fmap.
      eapply Forall_impl; [exact Hle|]. intros [s t] Hs. simpl in *.
      unfold Spec.hinge_term.
      destruct (Req_dec_T t 1); [lra | apply Rmax_r]. }
    pose proof (pos_INR (length (uncurry Spec.hinge_term <$> entries))) as Hn.
    destruct Hn as [Hn | <-].
    + pose proof (Rinv_0_lt_compat _ Hn). unfold Rdiv. nra.
    + unfold Rdiv. rewrite Rinv_0. lra.
  - intros Hmargin. unfold Torch.mean. rewrite sum_zeros.
    + unfold Rdiv. apply Rmult_0_l.
    + apply Forall_fmap, Forall_forall. intros [s t] Hin.
      destruct (proj1 (Forall_forall _ _) Hmargin _ Hin) as [Hpos Hneg].
      simpl in *. unfold Spec.hinge_term.
      destruct (Req_dec_T t 1) as [Ht|Ht]; [rewrite (Hpos Ht); lra|].
      apply elem_of_zip_r in Hin. apply Forall_concat in Hbin.
      destruct (proj1 (Forall_forall _ _) Hbin t Hin) as [Ht0|]; [|done].
      specialize (Hneg Ht0). unfold Rmax.
      destruct (Rle_dec (5 / 10 - (1 - s)) 0); lra.
Qed.

Lemma hinge_loss_margin_witness :
  (Forall (fun st => (st.1 <= 1)%R)
     (zip (concat [[1; 0]]%R) (concat [[1; 0]]%R)) ->
   (0 <= data (MultiBiEncoderModel.compute_loss (Tensor [[1; 0]]%R true)
                 [[1; 0]]%R))%R)
  /\ (Forall (fun st => (st.2 = 1%R -> st.1 = 1%R)
                        /\ (st.2 = 0%R -> (st.1 <= 5 / 10)%R))
        (zip (concat [[1; 0]]%R) (concat [[1; 0]]%R)) ->
      data (MultiBiEncoderModel.compute_loss (Tensor [[1; 0]]%R true)
              [[1; 0]]%R) = 0%R).
Proof.
  apply (hinge_loss_margin (Tensor [[1; 0]]%R true) [[1; 0]]%R).
  - reflexivity.
  - simpl. lia.
  - constructor; [|constructor].
    constructor; [right; reflexivity|].
    constructor; [left; reflexivity|]. constructor.
Defined.

(** ** Normalised embeddings *)

Lemma sum_squares_nonneg (v : list R) : (0 <= Shape.sum_squares v)%R.
Proof.
  unfold Shape.sum_squares. apply sum_nonneg, Forall_fmap, Forall_true.
  intros x. simpl. nra.
Qed.

(** Cauchy-Schwarz for the inner product the code computes (which stops
    at the shorter vector). *)
Lemma dot_squared_le (u : list R) : forall v : list R,
  (Torch.dot u v * Torch.dot u v
   <= Shape.sum_squares u * Shape.sum_squares v)%R.
Proof.
  induction u as [|x u IH]; intros [|y v].
  - unfold Torch.dot, Shape.sum_squares. simpl. lra.
  - pose proof (sum_squares_nonneg (y :: v)).
    unfold Torch.dot, Shape.sum_squares in *. simpl in *. lra.
  - pose proof (sum_squares_nonneg (x :: u)).
    unfold Torch.dot, Shape.sum_squares in *. simpl in *. lra.
  - specialize (IH v).
    pose proof (sum_squares_nonneg u) as Ha.
    pose proof (sum_squares_nonneg v) as Hb.
    unfold Torch.dot, Shape.sum_squares in *.
    rewrite !fmap_cons. cbn [zip_with Torch.sum foldr].
    fold (Torch.sum (zip_with Rmult u v)).
    fold (Torch.sum ((fun x => x * x)%R <$> u)).
    fold (Torch.sum ((fun x => x * x)%R <$> v)).
    set (c := Torch.sum (zip_with Rmult u v)) in *.
    set (a := Torch.sum ((fun x => x * x)%R <$> u)) in *.
    set (b := Torch.sum ((fun x => x * x)%R <$> v)) in *.
    assert (Hcross : (2 * (x * y * c) <= x * x * b + a * (y * y))%R).
    { apply Rsqr_incr_0_var; [|nra]. unfold Rsqr.
      pose proof (Rle_0_sqr (x * x * b - a * (y * y))) as H1.
      unfold Rsqr in H1.
      assert (H2 : (0 <= (x * y) * (x * y) * (a * b - c * c))%R).
      { apply Rmult_le_pos; nra. }
      nra. }
    nra.
Qed.

Lemma normalize_row_sum_squares (row : list R) (d : R) :
  (0 < d)%R ->
  (Shape.sum_squares row <= d * d)%R ->
  (Shape.sum_squares ((fun x => x / d)%R <$> row) <= 1)%R.
Proof.
  intros Hd Hle.
  assert (Heq : (Shape.sum_squares ((fun x => x / d)%R <$> row)
                 = Shape.sum_squares row / (d * d))%R).
  { clear Hle. unfold Shape.sum_squares, Torch.sum.
    induction row as [|x row IH].
    - simpl. unfold Rdiv. lra.
    - rewrite !fmap_cons. cbn [foldr]. rewrite IH. field; lra. }
  rewrite Heq.
  assert (Hdd : (0 < d * d)%R) by nra.
  pose proof (Rinv_0_lt_compat _ Hdd) as Hinv.
  apply Rle_trans with ((d * d) * / (d * d))%R.
  - unfold Rdiv. apply Rmult_le_compat_r; lra.
  - right. field. lra.
Qed.

Lemma normalize_rows_unit (m : list (list R)) :
  Forall (fun row => (Shape.sum_squares row <= 1)%R) (Torch.normalize m).
Proof.
  unfold Torch.normalize. apply Forall_fmap, Forall_true. intros row.
  cbn beta. unfold compose. fold (Shape.sum_squares row).
  set (d := Rmax (sqrt (Shape.sum_squares row)) (1 / 10 ^ 12)).
  assert (Heps : (0 < 1 / 10 ^ 12)%R) by lra.
  assert (Hd : (0 < d)%R).
  { unfold d. pose proof (Rmax_r (sqrt (Shape.sum_squares row)) (1 / 10 ^ 12)).
    lra. }
  apply normalize_row_sum_squares; [done|].
  pose proof (sum_squares_nonneg row) as Hss.
  pose proof (sqrt_pos (Shape.sum_squares row)) as Hsq.
  pose proof (Rmax_l (sqrt (Shape.sum_squares row)) (1 / 10 ^ 12)) as Hl.
  fold d in Hl. rewrite <- (sqrt_sqrt _ Hss) at 1. nra.
Qed.

Lemma finish_encode_normalized
    (self : BiEncoderModel.t) (side_q : bool)
    (reps : option (tensor (list (list R)))) (r : tensor (list (list R))) :
  BiEncoderModel.normlized self = true ->
  BiEncoderModel.finish_encode self side_q reps = Ok (Some r) ->
  exists m, data r = Torch.normalize m.
Proof.
  intros Hnorm. unfold BiEncoderModel.finish_encode. rewrite Hnorm.
  destruct (BiEncoderModel.pooler self) as [pl|]; cbn [bind].
  - destruct (if side_q then DensePooler.forward pl reps None
              else DensePooler.forward pl None reps) as [x|e]; cbn [bind];
      [|done].
    intros [= <-]. by eexists.
  - destruct reps as [x|]; cbn [bind]; [|done]. intros [= <-]. by eexists.
Qed.

(** X15.  With [normlized] set, every embedding row returned by
    [encode_query] and [encode_passage] has a Euclidean norm of at most 1,
    so every entry of the similarity matrix of a query batch and a passage
    batch lies in [[-1, 1]]. *)
Theorem normalized_similarity_bounded
    (self : BiEncoderModel.t) (qry psg : token_batch)
    (q p : tensor (list (list R))) :
  BiEncoderModel.normlized self = true ->
  BiEncoderModel.encode_query self (Some qry) = Ok (Some q) ->
  BiEncoderModel.encode_passage self (Some psg) = Ok (Some p) ->
  Forall (fun row => (Shape.sum_squares row <= 1)%R) (data q)
  /\ Forall (fun row => (Shape.sum_squares row <= 1)%R) (data p)
  /\ Forall (Forall (fun s => (-1 <= s <= 1)%R))
       (Torch.matmul_transposed (data q) (data p)).
Proof.
  intros Hnorm Hq Hp.
  assert (Hqn : Forall (fun row => (Shape.sum_squares row <= 1)%R) (data q)).
  { unfold BiEncoderModel.encode_query in Hq.
    destruct (BiEncoderModel.sentence_embedding _ _ _) as [reps|e];
      cbn [bind] in Hq; [|done].
    destruct (finish_encode_normalized _ _ _ _ Hnorm Hq) as [m ->].
    apply normalize_rows_unit. }
  assert (Hpn : Forall (fun row => (Shape.sum_squares row <= 1)%R) (data p)).
  { unfold BiEncoderModel.encode_passage in Hp.
    destruct (BiEncoderModel.sentence_embedding _ _ _) as [reps|e];
      cbn [bind] in Hp; [|done].
    destruct (finish_encode_normalized _ _ _ _ Hnorm Hp) as [m ->].
    apply normalize_rows_unit. }
  split; [done|]. split; [done|].
  unfold Torch.matmul_transposed. apply Forall_fmap, Forall_forall.
  intros qi Hqi. simpl. apply Forall_fmap, Forall_forall. intros pj Hpj.
  simpl.
  pose proof (proj1 (Forall_forall _ _) Hqn qi Hqi) as Hu.
  pose proof (proj1 (Forall_forall _ _) Hpn pj Hpj) as Hv.
  pose proof (sum_squares_nonneg qi). pose proof (sum_squares_nonneg pj).
  pose proof (dot_squared_le qi pj) as Hcs.
  assert (Hsq : (Torch.dot qi pj * Torch.dot qi pj <= 1)%R) by nra.
  split; nra.
Qed.

Lemma normalized_similarity_bounded_witness :
  Forall (fun row => (Shape.sum_squares row <= 1)%R)
    (Torch.normalize [[1; 1]; [2; 1]]%R)
  /\ Forall (fun row => (Shape.sum_squares row <= 1)%R)
       (Torch.normalize [[3; 1]; [4; 1]]%R)
  /\ Forall (Forall (fun s => (-1 <= s <= 1)%R))
       (Torch.matmul_transposed (Torch.normalize [[1; 1]; [2; 1]]%R)
                                (Torch.normalize [[3; 1]; [4; 1]]%R)).
Proof.
  apply (normalized_similarity_bounded Fixtures.normalised_model
           (Sample.batch [[1]; [2]]%Z [[1]; [1]]%Z)
           (Sample.batch [[3]; [4]]%Z [[1]; [1]]%Z)
           (Tensor (Torch.normalize [[1; 1]; [2; 1]]%R) true)
           (Tensor (Torch.normalize [[3; 1]; [4; 1]]%R) true)).
  - reflexivity.
  - reflexivity.
  - reflexivity.
Defined.

(** ** Tied encoders *)

Lemma tied_encode_eq
    (self : BiEncoderModel.t) (batch : option token_batch) :
  BiEncoderModel.lm_q self = BiEncoderModel.lm_p self ->
  (forall pl, BiEncoderModel.pooler self = Some pl ->
     exists lq lp, pl = DensePooler.init lq lp true) ->
  BiEncoderModel.encode_query self batch
  = BiEncoderModel.encode_passage self batch.
Proof.
  intros Hlm Hpool. destruct batch as [batch|]; [|done].
  unfold BiEncoderModel.encode_query, BiEncoderModel.encode_passage.
  rewrite Hlm.
  destruct (BiEncoderModel.sentence_embedding _ _ _) as [reps|e];
    cbn [bind]; [|done].
  unfold BiEncoderModel.finish_encode.
  destruct (BiEncoderModel.pooler self) as [pl|] eqn:Hpl; [|done].
  destruct (Hpool pl eq_refl) as (lq & lp & ->).
  by destruct reps.
Qed.

(** X16.  When both sides use one backbone and the pooler, if there is
    one, was constructed tied, [encode_query] and [encode_passage] map
    the same batch to the same result: the tied bi-encoder does not
    distinguish a query from a passage. *)
Theorem tied_encoders_agree
    (self : BiEncoderModel.t) (batch : option token_batch) :
  BiEncoderModel.lm_q self = BiEncoderModel.lm_p self ->
  (forall pl, BiEncoderModel.pooler self = Some pl ->
     exists lq lp, pl = DensePooler.init lq lp true) ->
  BiEncoderModel.encode_query self batch
  = BiEncoderModel.encode_passage self batch.
Proof. apply tied_encode_eq. Qed.

Lemma tied_encoders_agree_witness :
  BiEncoderModel.encode_query Fixtures.tied_model
    (Some (Sample.batch [[1]; [2]]%Z [[1]; [1]]%Z))
  = BiEncoderModel.encode_passage Fixtures.tied_model
      (Some (Sample.batch [[1]; [2]]%Z [[1]; [1]]%Z)).
Proof.
  apply (tied_encoders_agree Fixtures.tied_model).
  - reflexivity.
  - intros pl [= <-]. by eexists _, _.
Defined.

Example tied_model_projects :
  BiEncoderModel.encode_query Fixtures.tied_model
    (Some (Sample.batch [[1]; [2]]%Z [[1]; [1]]%Z))
  = Ok (Some (Tensor [[1 * 1 + (1 * 1 + 0) + 0]; [2 * 1 + (1 * 1 + 0) + 0]]%R
                     true)).
Proof. reflexivity. Qed.

(** ** The forward pass of the multi-encoder variant *)

Lemma scaled_similarity_matrix (T : R) (q p : list (list R)) :
  Shape.is_matrix (length q) (length p) (Shape.scaled_similarity T q p).
Proof.
  destruct (similarity_rows q p) as [Hlen Hw].
  unfold Shape.is_matrix, Shape.scaled_similarity.
  split; [by rewrite length_map|].
  apply Forall_fmap. eapply Forall_impl; [exact Hw|].
  intros r Hr. simpl. by rewrite length_map.
Qed.

(** X17.  In training mode the multi-encoder variant cannot do without
    teacher scores: with both inputs present and [teacher_score = None]
    its [forward] never returns, and once embeddings of one size are
    computed and the scores viewed the failure is the [AttributeError] of
    reading [teacher_score.shape] (where [BiEncoderModel.forward] falls
    back to in-batch targets). *)
Theorem multi_forward_needs_teacher
    (self : BiEncoderModel.t) (rt : dist_runtime) (qry psg : token_batch) :
  BiEncoderModel.training self = true ->
  raises (MultiForward.forward self rt (Some qry) (Some psg) None)
  /\ forall q p D,
       BiEncoderModel.negatives_x_device self = false ->
       BiEncoderModel.encode_query self (Some qry) = Ok (Some q) ->
       BiEncoderModel.encode_passage self (Some psg) = Ok (Some p) ->
       Shape.has_width D (data q) ->
       Shape.has_width D (data p) ->
       0 < length (data q) ->
       MultiForward.forward self rt (Some qry) (Some psg) None
       = Raise AttributeError.
Proof.
  intros Htrain. split.
  - unfold raises, MultiForward.forward.
    destruct (BiEncoderModel.encode_query self (Some qry)) as [q|e] eqn:Hq;
      cbn [bind]; [|eauto].
    destruct (BiEncoderModel.encode_passage self (Some psg)) as [p|e]
      eqn:Hp; cbn [bind]; [|eauto].
    destruct (encode_query_Some _ _ _ Hq) as [q' ->].
    destruct (encode_passage_Some _ _ _ Hp) as [p' ->].
    rewrite Htrain.
    destruct (if BiEncoderModel.negatives_x_device self then _ else _)
      as [[q'' p'']|e]; cbn [bind]; [|eauto].
    destruct (BiEncoderModel.compute_similarity _ _) as [sim|e];
      cbn [bind]; [|eauto].
    destruct (BiEncoderModel.scale_and_view _ _ _) as [sc|e]; cbn [bind];
      eauto.
  - intros q p D Hdev Hq Hp Hwq Hwp HQ. unfold MultiForward.forward.
    rewrite Hq, Hp. cbn [bind]. rewrite Htrain, Hdev. cbn [bind].
    rewrite (compute_similarity_2d q p D) by done. cbn [bind].
    by rewrite (training_scores self q p HQ).
Qed.

Lemma multi_forward_needs_teacher_witness :
  raises (MultiForward.forward (Sample.model "cls" "softmax" 1 true)
            Sample.single_process
            (Some (Sample.batch [[1]; [2]]%Z [[1]; [1]]%Z))
            (Some (Sample.batch [[3]; [4]]%Z [[1]; [1]]%Z)) None)
  /\ MultiForward.forward (Sample.model "cls" "softmax" 1 true)
       Sample.single_process
       (Some (Sample.batch [[1]; [2]]%Z [[1]; [1]]%Z))
       (Some (Sample.batch [[3]; [4]]%Z [[1]; [1]]%Z)) None
     = Raise AttributeError.
Proof.
  destruct (multi_forward_needs_teacher
              (Sample.model "cls" "softmax" 1 true)
              Sample.single_process
              (Sample.batch [[1]; [2]]%Z [[1]; [1]]%Z)
              (Sample.batch [[3]; [4]]%Z [[1]; [1]]%Z)) as [Hraises Hattr].
  - reflexivity.
  - split; [exact Hraises|].
    apply (Hattr (Tensor [[1; 1]; [2; 1]]%R true)
                 (Tensor [[3; 1]; [4; 1]]%R true) 2).
    + reflexivity.
    + reflexivity.
    + reflexivity.
    + by repeat constructor.
    + by repeat constructor.
    + simpl. lia.
Defined.

(** X18.  On one process, the training pass of the multi-encoder variant
    with a teacher matrix B x N, B >= 1 query embeddings and P passage
    embeddings of one size D returns exactly when B * N <= P: its loss is
    then the hinge loss of the scores divided by the temperature against
    the scattered target, and the scores are returned scaled; when
    P < B * N the scatter raises [RuntimeError]. *)
Theorem multi_forward_training
    (self : BiEncoderModel.t) (rt : dist_runtime) (qry psg : token_batch)
    (q p : tensor (list (list R))) (teacher_score : list (list R))
    (N D : nat) :
  BiEncoderModel.training self = true ->
  BiEncoderModel.negatives_x_device self = false ->
  BiEncoderModel.encode_query self (Some qry) = Ok (Some q) ->
  BiEncoderModel.encode_passage self (Some psg) = Ok (Some p) ->
  Shape.has_width D (data q) ->
  Shape.has_width D (data p) ->
  0 < length (data q) ->
  Shape.is_matrix (length (data q)) N teacher_score ->
  (Z.of_nat (length (data q) * N) <= int64_max)%Z ->
  (length (data q) * N <= length (data p) ->
   exists target,
     BiEncoderModel.teacher_target
       (Shape.scaled_similarity (BiEncoderModel.temperature self)
          (data q) (data p)) teacher_score = Ok target
     /\ MultiForward.forward self rt (Some qry) (Some psg)
          (Some teacher_score)
        = Ok {| q_reps := Some q; p_reps := Some p;
                loss :=
                  Some (MultiBiEncoderModel.compute_loss
                          (Tensor (Shape.scaled_similarity
                                     (BiEncoderModel.temperature self)
                                     (data q) (data p))
                                  (requires_grad q || requires_grad p))
                          target);
                scores :=
                  Some (Tensor
                          (Nd2 (Shape.scaled_similarity
                                  (BiEncoderModel.temperature self)
                                  (data q) (data p)))
                          (requires_grad q || requires_grad p)) |})
  /\ (length (data p) < length (data q) * N ->
      MultiForward.forward self rt (Some qry) (Some psg)
        (Some teacher_score)
      = Raise RuntimeError).
Proof.
  intros Htrain Hdev Hq Hp Hwq Hwp HQ Hteacher Hfit.
  pose proof (scaled_similarity_matrix (BiEncoderModel.temperature self)
                (data q) (data p)) as Hscores.
  assert (Hfwd : MultiForward.forward self rt (Some qry) (Some psg)
                   (Some teacher_score)
                 = (let! target :=
                      BiEncoderModel.teacher_target
                        (Shape.scaled_similarity
                           (BiEncoderModel.temperature self)
                           (data q) (data p)) teacher_score in
                    Ok {| q_reps := Some q; p_reps := Some p;
                          loss :=
                            Some (MultiBiEncoderModel.compute_loss
                                    (Tensor (Shape.scaled_similarity
                                               (BiEncoderModel.temperature
                                                  self)
                                               (data q) (data p))
                                            (requires_grad q
                                             || requires_grad p))
                                    target);
                          scores :=
                            Some (Tensor
                                    (Nd2 (Shape.scaled_similarity
                                            (BiEncoderModel.temperature
                                               self)
                                            (data q) (data p)))
                                    (requires_grad q
                                     || requires_grad p)) |})).
  { unfold MultiForward.forward. rewrite Hq, Hp. cbn [bind].
    rewrite Htrain, Hdev. cbn [bind].
    rewrite (compute_similarity_2d q p D) by done. cbn [bind].
    by rewrite (training_scores self q p HQ). }
  rewrite Hfwd. split.
  - intros Hroom.
    destruct (teacher_target_fits _ _ _ _ _ Hteacher Hscores Hfit Hroom)
      as (target & Htarget & _).
    exists target. by rewrite Htarget.
  - intros Hnoroom.
    by rewrite (teacher_target_overflows _ _ _ _ _ Hteacher Hscores Hfit
                  Hnoroom).
Qed.

Lemma multi_forward_training_witness :
  (2 * 1 <= 2 ->
   exists target,
     BiEncoderModel.teacher_target
       (Shape.scaled_similarity 1 [[1; 1]; [2; 1]]%R [[3; 1]; [4; 1]]%R)
       [[1]; [0]]%R = Ok target
     /\ MultiForward.forward (Sample.model "cls" "softmax" 1 true)
          Sample.single_process
          (Some (Sample.batch [[1]; [2]]%Z [[1]; [1]]%Z))
          (Some (Sample.batch [[3]; [4]]%Z [[1]; [1]]%Z))
          (Some [[1]; [0]]%R)
        = Ok {| q_reps := Some (Tensor [[1; 1]; [2; 1]]%R true);
                p_reps := Some (Tensor [[3; 1]; [4; 1]]%R true);
                loss :=
                  Some (MultiBiEncoderModel.compute_loss
                          (Tensor (Shape.scaled_similarity 1
                                     [[1; 1]; [2; 1]]%R [[3; 1]; [4; 1]]%R)
                                  (true || true))
                          target);
                scores :=
                  Some (Tensor
                          (Nd2 (Shape.scaled_similarity 1
                                  [[1; 1]; [2; 1]]%R [[3; 1]; [4; 1]]%R))
                          (true || true)) |})
  /\ (2 < 2 * 1 ->
      MultiForward.forward (Sample.model "cls" "softmax" 1 true)
        Sample.single_process
        (Some (Sample.batch [[1]; [2]]%Z [[1]; [1]]%Z))
        (Some (Sample.batch [[3]; [4]]%Z [[1]; [1]]%Z))
        (Some [[1]; [0]]%R)
      = Raise RuntimeError).
Proof.
  apply (multi_forward_training (Sample.model "cls" "softmax" 1 true)
           Sample.single_process
           (Sample.batch [[1]; [2]]%Z [[1]; [1]]%Z)
           (Sample.batch [[3]; [4]]%Z [[1]; [1]]%Z)
           (Tensor [[1; 1]; [2; 1]]%R true)
           (Tensor [[3; 1]; [4; 1]]%R true) [[1]; [0]]%R 1 2).
  - reflexivity.
  - reflexivity.
  - reflexivity.
  - reflexivity.
  - by repeat constructor.
  - by repeat constructor.
  - simpl. lia.
  - split; [reflexivity | repeat constructor].
  - unfold int64_max. simpl. lia.
Defined.

(** X19.  Outside training mode, or when one input is absent, the two
    model variants run the same code: [MultiBiEncoderModel.forward] and
    [BiEncoderModel.forward] return the same thing. *)
Theorem multi_forward_inference_agrees
    (self : BiEncoderModel.t) (rt : dist_runtime)
    (query passage : option token_batch)
    (teacher_score : option (list (list R))) :
  BiEncoderModel.training self = false \/ query = None \/ passage = None ->
  MultiForward.forward self rt query passage teacher_score
  = BiEncoderModel.forward self rt query passage teacher_score.
Proof.
  intros Hcase. unfold MultiForward.forward, BiEncoderModel.forward.
  destruct (BiEncoderModel.encode_query self query) as [q|e] eqn:Hq;
    cbn [bind]; [|done].
  destruct (BiEncoderModel.encode_passage self passage) as [p|e] eqn:Hp;
    cbn [bind]; [|done].
  destruct q as [q|], p as [p|]; try done.
  destruct Hcase as [-> | [-> | ->]]; [done | |].
  - by injection Hq.
  - by injection Hp.
Qed.

Lemma multi_forward_inference_agrees_witness :
  MultiForward.forward (Sample.model "cls" "softmax" 1 false)
    Sample.single_process
    (Some (Sample.batch [[1]; [2]]%Z [[1]; [1]]%Z))
    (Some (Sample.batch [[3]; [4]]%Z [[1]; [1]]%Z)) None
  = BiEncoderModel.forward (Sample.model "cls" "softmax" 1 false)
      Sample.single_process
      (Some (Sample.batch [[1]; [2]]%Z [[1]; [1]]%Z))
      (Some (Sample.batch [[3]; [4]]%Z [[1]; [1]]%Z)) None.
Proof.
  apply (multi_forward_inference_agrees
           (Sample.model "cls" "softmax" 1 false) Sample.single_process).
  by left.
Defined.

(** * Building, loading and saving *)

Example join_paths :
  Checkpoint.join "out" "query_model" = "out/query_model"
  /\ Checkpoint.join "out/" "pooler.pt" = "out/pooler.pt"
  /\ Checkpoint.join "" "pooler.pt" = "pooler.pt".
Proof. by split_and!. Qed.

Lemma of_result_init_Done
    (rt : dist_runtime)
    (lm_q lm_p : token_batch -> tensor (list (list (list R))))
    (pooler : option DensePooler.t) (untie normlized : bool)
    (method : string) (negatives : bool) (T weight : R) (loss_type : string)
    (m : BiEncoderModel.t) :
  Checkpoint.of_result
    (BiEncoderModel.init rt lm_q lm_p pooler untie normlized method
       negatives T weight loss_type) = Checkpoint.Done m ->
  m = {| BiEncoderModel.lm_q := lm_q;
         BiEncoderModel.lm_p := lm_p;
         BiEncoderModel.pooler := pooler;
         BiEncoderModel.untie_encoder := untie;
         BiEncoderModel.normlized := normlized;
         BiEncoderModel.sentence_pooling_method := method;
         BiEncoderModel.temperature := T;
         BiEncoderModel.loss_type := loss_type;
         BiEncoderModel.negatives_x_device := negatives;
         BiEncoderModel.contrastive_loss_weight := weight;
         BiEncoderModel.dist_attrs :=
           if negatives then Some (get_rank rt, get_world_size rt) else None;
         BiEncoderModel.training := true |}
  /\ (negatives = true -> is_initialized rt = true).
Proof.
  unfold BiEncoderModel.init. destruct negatives.
  - destruct (is_initialized rt); cbn; [|done]. by intros [= <-].
  - cbn. by intros [= <-].
Qed.

Lemma load_encoders
    (e : Checkpoint.env) (rt : dist_runtime) (path : string)
    (normlized : bool) (method : string) (m : BiEncoderModel.t) :
  Checkpoint.load e rt path normlized method = Checkpoint.Done m ->
  BiEncoderModel.untie_encoder m = negb (Checkpoint.separate_weights e path)
  /\ (if Checkpoint.separate_weights e path
      then Checkpoint.from_pretrained e (Checkpoint.join path "query_model")
           = Checkpoint.Done (BiEncoderModel.lm_q m)
           /\ Checkpoint.from_pretrained e
                (Checkpoint.join path "passage_model")
              = Checkpoint.Done (BiEncoderModel.lm_p m)
      else Checkpoint.from_pretrained e path
           = Checkpoint.Done (BiEncoderModel.lm_q m)
           /\ BiEncoderModel.lm_p m = BiEncoderModel.lm_q m)
  /\ BiEncoderModel.normlized m = normlized
  /\ BiEncoderModel.sentence_pooling_method m = method
  /\ BiEncoderModel.negatives_x_device m = false
  /\ BiEncoderModel.temperature m = 1%R
  /\ BiEncoderModel.loss_type m = "softmax"
  /\ (BiEncoderModel.pooler m = None
      <-> (Checkpoint.path_exists e (Checkpoint.join path "pooler.pt")
           && Checkpoint.path_exists e
                (Checkpoint.join path "pooler_config.json"))%bool = false).
Proof.
  unfold Checkpoint.load, Checkpoint.separate_weights.
  set (both := (Checkpoint.path_exists e (Checkpoint.join path "pooler.pt")
                && Checkpoint.path_exists e
                     (Checkpoint.join path "pooler_config.json"))%bool).
  assert (Hpool : forall lq lp u,
    Checkpoint.and_then
      (if both
       then Checkpoint.and_then
              (Checkpoint.json_load e
                 (Checkpoint.join path "pooler_config.json"))
              (fun cfg =>
                 Checkpoint.and_then (Checkpoint.load_pooler e path cfg)
                   (fun pooler => Checkpoint.Done (Some pooler)))
       else Checkpoint.Done None)
      (fun pooler =>
         Checkpoint.of_result
           (BiEncoderModel.init rt lq lp pooler u normlized method
              false 1 1 "softmax")) = Checkpoint.Done m ->
    BiEncoderModel.lm_q m = lq /\ BiEncoderModel.lm_p m = lp
    /\ BiEncoderModel.untie_encoder m = u
    /\ BiEncoderModel.normlized m = normlized
    /\ BiEncoderModel.sentence_pooling_method m = method
    /\ BiEncoderModel.negatives_x_device m = false
    /\ BiEncoderModel.temperature m = 1%R
    /\ BiEncoderModel.loss_type m = "softmax"
    /\ (BiEncoderModel.pooler m = None <-> both = false)).
  { intros lq lp u. destruct both.
    - destruct (Checkpoint.json_load e _) as [cfg|err]; cbn; [|done].
      destruct (Checkpoint.load_pooler e path cfg) as [pl|err]; cbn; [|done].
      intros [= <-]. by split_and!.
    - cbn. intros [= <-]. by split_and!. }
  destruct (Checkpoint.isdir e path); cbn [andb].
  - destruct (Checkpoint.path_exists e (Checkpoint.join path "query_model")).
    + destruct (Checkpoint.from_pretrained e
                  (Checkpoint.join path "query_model")) as [lq|err] eqn:Elq;
        cbn; [|done].
      destruct (Checkpoint.from_pretrained e
                  (Checkpoint.join path "passage_model")) as [lp|err]
        eqn:Elp; cbn; [|done].
      intros H. destruct (Hpool _ _ _ H) as (Hq & Hp & Hu & ? & ? & ? & ? & ? & ?).
      rewrite Hq, Hp, Hu. by split_and!.
    + destruct (Checkpoint.from_pretrained e path) as [lq|err] eqn:Elq;
        cbn; [|done].
      intros H. destruct (Hpool _ _ _ H) as (Hq & Hp & Hu & ? & ? & ? & ? & ? & ?).
      rewrite Hq, Hp, Hu. by split_and!.
  - destruct (Checkpoint.from_pretrained e path) as [lq|err] eqn:Elq;
      cbn; [|done].
    intros H. destruct (Hpool _ _ _ H) as (Hq & Hp & Hu & ? & ? & ? & ? & ? & ?).
    rewrite Hq, Hp, Hu. by split_and!.
Qed.

(** X20.  [load] sets [untie_encoder] the wrong way round: a model loaded
    from a directory with separate [query_model]/[passage_model] weights
    has its two encoders loaded from there and [untie_encoder = False],
    while a model loaded from tied weights (or from a model identifier)
    shares one encoder between the two sides and has
    [untie_encoder = True]. *)
Theorem load_untie_flag
    (e : Checkpoint.env) (rt : dist_runtime) (path : string)
    (normlized : bool) (method : string) (m : BiEncoderModel.t) :
  Checkpoint.load e rt path normlized method = Checkpoint.Done m ->
  BiEncoderModel.untie_encoder m = negb (Checkpoint.separate_weights e path)
  /\ (if Checkpoint.separate_weights e path
      then Checkpoint.from_pretrained e (Checkpoint.join path "query_model")
           = Checkpoint.Done (BiEncoderModel.lm_q m)
           /\ Checkpoint.from_pretrained e
                (Checkpoint.join path "passage_model")
              = Checkpoint.Done (BiEncoderModel.lm_p m)
      else Checkpoint.from_pretrained e path
           = Checkpoint.Done (BiEncoderModel.lm_q m)
           /\ BiEncoderModel.lm_p m = BiEncoderModel.lm_q m).
Proof.
  intros Hload. destruct (load_encoders _ _ _ _ _ _ Hload) as (? & ? & _).
  by split.
Qed.

Lemma load_untie_flag_witness :
  BiEncoderModel.untie_encoder Fixtures.loaded_from_ckpt
  = negb (Checkpoint.separate_weights Fixtures.disk "ckpt")
  /\ (if Checkpoint.separate_weights Fixtures.disk "ckpt"
      then Checkpoint.from_pretrained Fixtures.disk
             (Checkpoint.join "ckpt" "query_model")
           = Checkpoint.Done (BiEncoderModel.lm_q Fixtures.loaded_from_ckpt)
           /\ Checkpoint.from_pretrained Fixtures.disk
                (Checkpoint.join "ckpt" "passage_model")
              = Checkpoint.Done
                  (BiEncoderModel.lm_p Fixtures.loaded_from_ckpt)
      else Checkpoint.from_pretrained Fixtures.disk "ckpt"
           = Checkpoint.Done (BiEncoderModel.lm_q Fixtures.loaded_from_ckpt)
           /\ BiEncoderModel.lm_p Fixtures.loaded_from_ckpt
              = BiEncoderModel.lm_q Fixtures.loaded_from_ckpt).
Proof.
  apply (load_untie_flag Fixtures.disk Sample.single_process "ckpt"
           false "cls" Fixtures.loaded_from_ckpt).
  reflexivity.
Defined.

Example load_tied_checkpoint :
  Checkpoint.load Fixtures.disk Sample.single_process "tied" false "cls"
  = Checkpoint.Done Fixtures.loaded_from_tied.
Proof. reflexivity. Qed.

(** X21.  A loaded model carries the constructor's defaults whatever the
    checkpoint was trained with: temperature 1.0, loss type ['softmax'],
    no negatives across devices; and it has a pooler exactly when both
    [pooler.pt] and [pooler_config.json] exist under the path (weights
    without the configuration file are ignored). *)
Theorem load_defaults
    (e : Checkpoint.env) (rt : dist_runtime) (path : string)
    (normlized : bool) (method : string) (m : BiEncoderModel.t) :
  Checkpoint.load e rt path normlized method = Checkpoint.Done m ->
  BiEncoderModel.normlized m = normlized
  /\ BiEncoderModel.sentence_pooling_method m = method
  /\ BiEncoderModel.negatives_x_device m = false
  /\ BiEncoderModel.temperature m = 1%R
  /\ BiEncoderModel.loss_type m = "softmax"
  /\ (BiEncoderModel.pooler m = None
      <-> (Checkpoint.path_exists e (Checkpoint.join path "pooler.pt")
           && Checkpoint.path_exists e
                (Checkpoint.join path "pooler_config.json"))%bool = false).
Proof.
  intros Hload. by destruct (load_encoders _ _ _ _ _ _ Hload) as (_ & _ & ?).
Qed.

Lemma load_defaults_witness :
  BiEncoderModel.normlized Fixtures.loaded_from_ckpt = false
  /\ BiEncoderModel.sentence_pooling_method Fixtures.loaded_from_ckpt = "cls"
  /\ BiEncoderModel.negatives_x_device Fixtures.loaded_from_ckpt = false
  /\ BiEncoderModel.temperature Fixtures.loaded_from_ckpt = 1%R
  /\ BiEncoderModel.loss_type Fixtures.loaded_from_ckpt = "softmax"
  /\ (BiEncoderModel.pooler Fixtures.loaded_from_ckpt = None
      <-> (Checkpoint.path_exists Fixtures.disk
             (Checkpoint.join "ckpt" "pooler.pt")
           && Checkpoint.path_exists Fixtures.disk
                (Checkpoint.join "ckpt" "pooler_config.json"))%bool = false).
Proof.
  apply (load_defaults Fixtures.disk Sample.single_process "ckpt"
           false "cls" Fixtures.loaded_from_ckpt).
  reflexivity.
Defined.

(** X22.  Loading a checkpoint and saving the loaded model does not
    reproduce the layout.  A model loaded from separate weights is saved
    as a single encoder, the query encoder, at the root of the output
    directory, and the passage encoder is not written; a model loaded from
    tied weights is saved, when the two subdirectories do not exist yet,
    as two copies of the one encoder under [query_model] and
    [passage_model].  The pooler files follow in both cases. *)
Theorem load_then_save_layout
    (e e' : Checkpoint.env) (rt : dist_runtime) (path output_dir : string)
    (normlized : bool) (method : string) (m : BiEncoderModel.t) :
  Checkpoint.load e rt path normlized method = Checkpoint.Done m ->
  let pooler_writes :=
    match BiEncoderModel.pooler m with
    | Some pooler => Checkpoint.save_pooler pooler output_dir
    | None => []
    end in
  (Checkpoint.separate_weights e path = true ->
   Checkpoint.save e' m output_dir
   = (Checkpoint.SavePretrained (BiEncoderModel.lm_q m) output_dir
        :: pooler_writes,
      Checkpoint.Done tt))
  /\ (Checkpoint.separate_weights e path = false ->
      Checkpoint.path_exists e'
        (Checkpoint.join output_dir "query_model") = false ->
      Checkpoint.path_exists e'
        (Checkpoint.join output_dir "passage_model") = false ->
      Checkpoint.save e' m output_dir
      = ([Checkpoint.Makedirs (Checkpoint.join output_dir "query_model");
          Checkpoint.Makedirs (Checkpoint.join output_dir "passage_model");
          Checkpoint.SavePretrained (BiEncoderModel.lm_q m)
            (Checkpoint.join output_dir "query_model");
          Checkpoint.SavePretrained (BiEncoderModel.lm_q m)
            (Checkpoint.join output_dir "passage_model")]
           ++ pooler_writes,
         Checkpoint.Done tt)).
Proof.
  intros Hload pooler_writes.
  destruct (load_encoders _ _ _ _ _ _ Hload) as (Hu & Hlm & _).
  unfold Checkpoint.save. fold pooler_writes. split.
  - intros Hsep. by rewrite Hu, Hsep.
  - intros Hsep Hq Hp. rewrite Hsep in Hlm. destruct Hlm as [_ Hlm].
    by rewrite Hu, Hsep, Hq, Hp, Hlm.
Qed.

Lemma load_then_save_layout_witness :
  (Checkpoint.separate_weights Fixtures.disk "ckpt" = true ->
   Checkpoint.save Fixtures.disk Fixtures.loaded_from_ckpt "out"
   = (Checkpoint.SavePretrained
        (BiEncoderModel.lm_q Fixtures.loaded_from_ckpt) "out"
        :: match BiEncoderModel.pooler Fixtures.loaded_from_ckpt with
           | Some pooler => Checkpoint.save_pooler pooler "out"
           | None => []
           end,
      Checkpoint.Done tt))
  /\ (Checkpoint.separate_weights Fixtures.disk "ckpt" = false ->
      Checkpoint.path_exists Fixtures.disk
        (Checkpoint.join "out" "query_model") = false ->
      Checkpoint.path_exists Fixtures.disk
        (Checkpoint.join "out" "passage_model") = false ->
      Checkpoint.save Fixtures.disk Fixtures.loaded_from_ckpt "out"
      = ([Checkpoint.Makedirs (Checkpoint.join "out" "query_model");
          Checkpoint.Makedirs (Checkpoint.join "out" "passage_model");
          Checkpoint.SavePretrained
            (BiEncoderModel.lm_q Fixtures.loaded_from_ckpt)
            (Checkpoint.join "out" "query_model");
          Checkpoint.SavePretrained
            (BiEncoderModel.lm_q Fixtures.loaded_from_ckpt)
            (Checkpoint.join "out" "passage_model")]
           ++ match BiEncoderModel.pooler Fixtures.loaded_from_ckpt with
              | Some pooler => Checkpoint.save_pooler pooler "out"
              | None => []
              end,
         Checkpoint.Done tt)).
Proof.
  apply (load_then_save_layout Fixtures.disk Fixtures.disk
           Sample.single_process "ckpt" "out" false "cls"
           Fixtures.loaded_from_ckpt).
  reflexivity.
Defined.

Example save_loaded_ckpt :
  Checkpoint.save Fixtures.disk Fixtures.loaded_from_ckpt "out"
  = ([Checkpoint.SavePretrained Sample.lm "out"], Checkpoint.Done tt).
Proof. reflexivity. Qed.

Example save_loaded_tied :
  Checkpoint.save Fixtures.disk Fixtures.loaded_from_tied "out"
  = ([Checkpoint.Makedirs "out/query_model";
      Checkpoint.Makedirs "out/passage_model";
      Checkpoint.SavePretrained Sample.lm "out/query_model";
      Checkpoint.SavePretrained Sample.lm "out/passage_model"],
     Checkpoint.Done tt).
Proof. reflexivity. Qed.

(** Saving an untied model over an existing [query_model] directory
    writes nothing and fails. *)
Example save_over_existing :
  Checkpoint.save Fixtures.disk Fixtures.loaded_from_tied "ckpt"
  = ([], Checkpoint.Fail Checkpoint.FileExistsError).
Proof. reflexivity. Qed.

Lemma build_encoders_sources
    (e : Checkpoint.env) (margs : Checkpoint.model_args)
    (lq lp : token_batch -> tensor (list (list (list R)))) :
  Checkpoint.build_encoders e margs = Checkpoint.Done (lq, lp) ->
  let path := Checkpoint.model_name_or_path margs in
  if (Checkpoint.isdir e path && Checkpoint.untie_encoder margs
      && Checkpoint.path_exists e (Checkpoint.join path "query_model"))%bool
  then Checkpoint.from_pretrained e (Checkpoint.join path "query_model")
       = Checkpoint.Done lq
       /\ Checkpoint.from_pretrained e (Checkpoint.join path "passage_model")
          = Checkpoint.Done lp
  else Checkpoint.from_pretrained e path = Checkpoint.Done lq
       /\ Checkpoint.from_pretrained e path = Checkpoint.Done lp.
Proof.
  unfold Checkpoint.build_encoders. cbv zeta.
  destruct (Checkpoint.isdir e _); cbn [andb].
  - destruct (Checkpoint.untie_encoder margs); cbn [andb].
    + destruct (Checkpoint.path_exists e _); cbn [negb fst snd].
      * destruct (Checkpoint.from_pretrained e (Checkpoint.join _ "query_model"))
          as [a|err] eqn:Ea; cbn; [|done].
        destruct (Checkpoint.from_pretrained e
                    (Checkpoint.join _ "passage_model"))
          as [b|err] eqn:Eb; cbn; [|done].
        by intros [= <- <-].
      * destruct (Checkpoint.from_pretrained e _) as [a|err] eqn:Ea;
          cbn; [|done].
        by intros [= <- <-].
    + destruct (Checkpoint.from_pretrained e _) as [a|err] eqn:Ea;
        cbn; [|done].
      by intros [= <- <-].
  - destruct (Checkpoint.from_pretrained e _) as [a|err] eqn:Ea;
      cbn; [|done].
    by intros [= <- <-].
Qed.

Lemma build_optional_pooler_None
    (e : Checkpoint.env) (margs : Checkpoint.model_args)
    (pooler : option DensePooler.t) :
  Checkpoint.build_optional_pooler e margs = Checkpoint.Done pooler ->
  (pooler = None <-> Checkpoint.add_pooler margs = false).
Proof.
  unfold Checkpoint.build_optional_pooler.
  destruct (Checkpoint.add_pooler margs).
  - destruct (Checkpoint.build_pooler e margs); cbn; [|done].
    by intros [= <-].
  - by intros [= <-].
Qed.

(** X23.  [build] hands the training arguments through to the model it
    returns (temperature, loss type, loss weight, negatives across
    devices, pooling method, normalisation, untied flag), unlike [load];
    it has a pooler exactly when [add_pooler] is set; and it returns a
    model with [negatives_x_device] only under an initialised distributed
    runtime. *)
Theorem build_passes_arguments
    (e : Checkpoint.env) (rt : dist_runtime)
    (margs : Checkpoint.model_args) (targs : Checkpoint.train_args)
    (m : BiEncoderModel.t) :
  Checkpoint.build e rt margs targs = Checkpoint.Done m ->
  BiEncoderModel.untie_encoder m = Checkpoint.untie_encoder margs
  /\ BiEncoderModel.normlized m = Checkpoint.normlized margs
  /\ BiEncoderModel.sentence_pooling_method m
     = Checkpoint.sentence_pooling_method margs
  /\ BiEncoderModel.negatives_x_device m = Checkpoint.negatives_x_device targs
  /\ BiEncoderModel.temperature m = Checkpoint.temperature targs
  /\ BiEncoderModel.contrastive_loss_weight m
     = Checkpoint.contrastive_loss_weight targs
  /\ BiEncoderModel.loss_type m = Checkpoint.loss_type targs
  /\ (BiEncoderModel.pooler m = None <-> Checkpoint.add_pooler margs = false)
  /\ (Checkpoint.negatives_x_device targs = true -> is_initialized rt = true).
Proof.
  unfold Checkpoint.build.
  destruct (Checkpoint.build_encoders e margs) as [[lq lp]|err]; cbn;
    [|done].
  destruct (Checkpoint.build_optional_pooler e margs) as [pooler|err]
    eqn:Hpool; cbn; [|done].
  intros [-> Hinit]%of_result_init_Done. cbn.
  split_and!; try done.
  by apply (build_optional_pooler_None e margs).
Qed.

Lemma build_passes_arguments_witness :
  let m :=
    {| BiEncoderModel.lm_q := Sample.lm;
       BiEncoderModel.lm_p := Fixtures.other_lm;
       BiEncoderModel.pooler := None;
       BiEncoderModel.untie_encoder := true;
       BiEncoderModel.normlized := false;
       BiEncoderModel.sentence_pooling_method := "cls";
       BiEncoderModel.temperature := (5 / 100)%R;
       BiEncoderModel.loss_type := "myloss";
       BiEncoderModel.negatives_x_device := false;
       BiEncoderModel.contrastive_loss_weight := 1%R;
       BiEncoderModel.dist_attrs := None;
       BiEncoderModel.training := true |} in
  BiEncoderModel.untie_encoder m
  = Checkpoint.untie_encoder (Fixtures.local_args "ckpt" true)
  /\ BiEncoderModel.normlized m
     = Checkpoint.normlized (Fixtures.local_args "ckpt" true)
  /\ BiEncoderModel.sentence_pooling_method m
     = Checkpoint.sentence_pooling_method (Fixtures.local_args "ckpt" true)
  /\ BiEncoderModel.negatives_x_device m
     = Checkpoint.negatives_x_device (Fixtures.training_args false)
  /\ BiEncoderModel.temperature m
     = Checkpoint.temperature (Fixtures.training_args false)
  /\ BiEncoderModel.contrastive_loss_weight m
     = Checkpoint.contrastive_loss_weight (Fixtures.training_args false)
  /\ BiEncoderModel.loss_type m
     = Checkpoint.loss_type (Fixtures.training_args false)
  /\ (BiEncoderModel.pooler m = None
      <-> Checkpoint.add_pooler (Fixtures.local_args "ckpt" true) = false)
  /\ (Checkpoint.negatives_x_device (Fixtures.training_args false) = true ->
      is_initialized Sample.no_runtime = true).
Proof.
  apply (build_passes_arguments Fixtures.disk Sample.no_runtime
           (Fixtures.local_args "ckpt" true) (Fixtures.training_args false)).
  reflexivity.
Defined.

(** Without an initialised runtime, [build] with [negatives_x_device]
    fails in the constructor after the encoders were loaded. *)
Example build_without_runtime :
  Checkpoint.build Fixtures.disk Sample.no_runtime
    (Fixtures.local_args "ckpt" true) (Fixtures.training_args true)
  = Checkpoint.Fail (Checkpoint.Model ValueError).
Proof. reflexivity. Qed.

(** X24.  [build] loads the two encoders from [query_model] and
    [passage_model] only when the path is a directory, untied encoders are
    requested and [query_model] exists; in every other case (tied, a
    model identifier, or an untied directory without the subdirectory)
    both sides get the weights found at the path itself. *)
Theorem build_encoder_sources
    (e : Checkpoint.env) (rt : dist_runtime)
    (margs : Checkpoint.model_args) (targs : Checkpoint.train_args)
    (m : BiEncoderModel.t) :
  Checkpoint.build e rt margs targs = Checkpoint.Done m ->
  if (Checkpoint.isdir e (Checkpoint.model_name_or_path margs)
      && Checkpoint.untie_encoder margs
      && Checkpoint.path_exists e
           (Checkpoint.join (Checkpoint.model_name_or_path margs)
              "query_model"))%bool
  then Checkpoint.from_pretrained e
         (Checkpoint.join (Checkpoint.model_name_or_path margs)
            "query_model")
       = Checkpoint.Done (BiEncoderModel.lm_q m)
       /\ Checkpoint.from_pretrained e
            (Checkpoint.join (Checkpoint.model_name_or_path margs)
               "passage_model")
          = Checkpoint.Done (BiEncoderModel.lm_p m)
  else Checkpoint.from_pretrained e (Checkpoint.model_name_or_path margs)
       = Checkpoint.Done (BiEncoderModel.lm_q m)
       /\ Checkpoint.from_pretrained e (Checkpoint.model_name_or_path margs)
          = Checkpoint.Done (BiEncoderModel.lm_p m).
Proof.
  unfold Checkpoint.build.
  destruct (Checkpoint.build_encoders e margs) as [[lq lp]|err] eqn:Henc;
    cbn; [|done].
  destruct (Checkpoint.build_optional_pooler e margs) as [pooler|err];
    cbn; [|done].
  intros [-> _]%of_result_init_Done. cbn.
  exact (build_encoders_sources e margs lq lp Henc).
Qed.

Lemma build_encoder_sources_witness :
  if (Checkpoint.isdir Fixtures.disk "tied" && true
      && Checkpoint.path_exists Fixtures.disk
           (Checkpoint.join "tied" "query_model"))%bool
  then Checkpoint.from_pretrained Fixtures.disk
         (Checkpoint.join "tied" "query_model")
       = Checkpoint.Done Sample.lm
       /\ Checkpoint.from_pretrained Fixtures.disk
            (Checkpoint.join "tied" "passage_model")
          = Checkpoint.Done Sample.lm
  else Checkpoint.from_pretrained Fixtures.disk "tied"
       = Checkpoint.Done Sample.lm
       /\ Checkpoint.from_pretrained Fixtures.disk "tied"
          = Checkpoint.Done Sample.lm.
Proof.
  apply (build_encoder_sources Fixtures.disk Sample.single_process
           (Fixtures.local_args "tied" true) (Fixtures.training_args false)
           {| BiEncoderModel.lm_q := Sample.lm;
              BiEncoderModel.lm_p := Sample.lm;
              BiEncoderModel.pooler := None;
              BiEncoderModel.untie_encoder := true;
              BiEncoderModel.normlized := false;
              BiEncoderModel.sentence_pooling_method := "cls";
              BiEncoderModel.temperature := (5 / 100)%R;
              BiEncoderModel.loss_type := "myloss";
              BiEncoderModel.negatives_x_device := false;
              BiEncoderModel.contrastive_loss_weight := 1%R;
              BiEncoderModel.dist_attrs := None;
              BiEncoderModel.training := true |}).
  reflexivity.
Defined.

(** A keyword that names no parameter of the callee makes the call
    fail. *)
Lemma bind_keywords_unexpected (parameters keywords : list string) (k : string) :
  In k keywords ->
  ~ In k parameters ->
  Checkpoint.bind_keywords parameters keywords
  = Checkpoint.Fail Checkpoint.TypeError.
Proof.
  intros Hk Hnot. unfold Checkpoint.bind_keywords.
  destruct (forallb _ keywords) eqn:Hall; [|done].
  pose proof (proj1 (forallb_forall _ _) Hall k Hk) as Hex.
  apply existsb_exists in Hex as (k' & Hk' & Heq).
  by apply String.eqb_eq in Heq as <-.
Qed.

(** X25.  [MultiBiEncoderModel.build] never returns a model: the call
    [cls(...)] that ends it carries the keyword [loss_type], which the
    constructor of that class does not have among its parameters.
    Whatever the environment and the arguments, the call fails, and when
    the encoders and the pooler load it fails with [TypeError] before the
    constructor runs.  The same keywords are accepted by the constructor
    of [BiEncoderModel]. *)
Theorem multi_build_never_returns
    (e : Checkpoint.env) (rt : dist_runtime)
    (margs : Checkpoint.model_args) (targs : Checkpoint.train_args) :
  In "loss_type" Checkpoint.build_keywords
  /\ ~ In "loss_type" MultiBiEncoderModel.init_parameters
  /\ (forall m,
        Checkpoint.multi_build e rt margs targs <> Checkpoint.Done m)
  /\ (forall lms pooler,
        Checkpoint.build_encoders e margs = Checkpoint.Done lms ->
        Checkpoint.build_optional_pooler e margs = Checkpoint.Done pooler ->
        Checkpoint.multi_build e rt margs targs
        = Checkpoint.Fail Checkpoint.TypeError)
  /\ Checkpoint.bind_keywords BiEncoderModel.init_parameters
       Checkpoint.build_keywords
     = Checkpoint.Done tt.
Proof.
  assert (Hin : In "loss_type" Checkpoint.build_keywords).
  { unfold Checkpoint.build_keywords. simpl. tauto. }
  assert (Hnot : ~ In "loss_type" MultiBiEncoderModel.init_parameters).
  { unfold MultiBiEncoderModel.init_parameters. simpl. intros H.
    repeat (destruct H as [H|H]; [discriminate H|]). done. }
  pose proof (bind_keywords_unexpected _ _ _ Hin Hnot) as Hbind.
  split_and!; [done | done | | | reflexivity].
  - intros m. unfold Checkpoint.multi_build.
    destruct (Checkpoint.build_encoders e margs) as [lms|err];
      cbn [Checkpoint.and_then]; [|done].
    destruct (Checkpoint.build_optional_pooler e margs) as [pooler|err];
      cbn [Checkpoint.and_then]; [|done].
    by rewrite Hbind.
  - intros lms pooler Henc Hpool. unfold Checkpoint.multi_build.
    rewrite Henc, Hpool. cbn [Checkpoint.and_then]. by rewrite Hbind.
Qed.

(** On the sample disk [build] returns a model and
    [MultiBiEncoderModel.build] fails. *)
Example multi_build_type_error :
  Checkpoint.multi_build Fixtures.disk Sample.single_process
    (Fixtures.local_args "ckpt" true) (Fixtures.training_args false)
  = Checkpoint.Fail Checkpoint.TypeError
  /\ exists m,
       Checkpoint.build Fixtures.disk Sample.single_process
         (Fixtures.local_args "ckpt" true) (Fixtures.training_args false)
       = Checkpoint.Done m.
Proof. split; [reflexivity | by eexists]. Qed.

(** X26.  A model built with tied encoders ([untie_encoder] off) and no
    saved pooler state to restore encodes a batch the same way as a query
    and as a passage: [build] gives both sides the one backbone and, when
    [add_pooler] is set, a pooler constructed tied. *)
Theorem build_tied_is_symmetric
    (e : Checkpoint.env) (rt : dist_runtime)
    (margs : Checkpoint.model_args) (targs : Checkpoint.train_args)
    (m : BiEncoderModel.t) (batch : option token_batch) :
  Checkpoint.build e rt margs targs = Checkpoint.Done m ->
  Checkpoint.untie_encoder margs = false ->
  Checkpoint.add_pooler margs = false
  \/ Checkpoint.path_exists e
       (Checkpoint.join (Checkpoint.model_name_or_path margs) "pooler.pt")
     = false ->
  BiEncoderModel.encode_query m batch = BiEncoderModel.encode_passage m batch.
Proof.
  unfold Checkpoint.build. intros Hbuild Htied Hfresh.
  destruct (Checkpoint.build_encoders e margs) as [[lq lp]|err] eqn:Henc;
    cbn in Hbuild; [|done].
  destruct (Checkpoint.build_optional_pooler e margs) as [pooler|err]
    eqn:Hpool; cbn in Hbuild; [|done].
  apply of_result_init_Done in Hbuild as [-> _].
  apply tied_encode_eq; cbn.
  - pose proof (build_encoders_sources e margs lq lp Henc) as Hsrc.
    cbv zeta in Hsrc. rewrite Htied, andb_false_r in Hsrc. cbn in Hsrc.
    destruct Hsrc as [Hq Hp]. rewrite Hq in Hp. by injection Hp.
  - intros pl ->. unfold Checkpoint.build_optional_pooler in Hpool.
    destruct (Checkpoint.add_pooler margs) eqn:Hadd; [|done].
    destruct Hfresh as [? | Hnone]; [done|].
    unfold Checkpoint.build_pooler, Checkpoint.pooler_load in Hpool.
    rewrite Hnone in Hpool. cbn in Hpool. injection Hpool as <-.
    unfold Checkpoint.new_pooler. cbn. rewrite Htied. by eexists _, _.
Qed.

Lemma build_tied_is_symmetric_witness :
  BiEncoderModel.encode_query
    {| BiEncoderModel.lm_q := Sample.lm;
       BiEncoderModel.lm_p := Sample.lm;
       BiEncoderModel.pooler := None;
       BiEncoderModel.untie_encoder := false;
       BiEncoderModel.normlized := false;
       BiEncoderModel.sentence_pooling_method := "cls";
       BiEncoderModel.temperature := (5 / 100)%R;
       BiEncoderModel.loss_type := "myloss";
       BiEncoderModel.negatives_x_device := false;
       BiEncoderModel.contrastive_loss_weight := 1%R;
       BiEncoderModel.dist_attrs := None;
       BiEncoderModel.training := true |}
    (Some (Sample.batch [[1]; [2]]%Z [[1]; [1]]%Z))
  = BiEncoderModel.encode_passage
      {| BiEncoderModel.lm_q := Sample.lm;
         BiEncoderModel.lm_p := Sample.lm;
         BiEncoderModel.pooler := None;
         BiEncoderModel.untie_encoder := false;
         BiEncoderModel.normlized := false;
         BiEncoderModel.sentence_pooling_method := "cls";
         BiEncoderModel.temperature := (5 / 100)%R;
         BiEncoderModel.loss_type := "myloss";
         BiEncoderModel.negatives_x_device := false;
         BiEncoderModel.contrastive_loss_weight := 1%R;
         BiEncoderModel.dist_attrs := None;
         BiEncoderModel.training := true |}
      (Some (Sample.batch [[1]; [2]]%Z [[1]; [1]]%Z)).
Proof.
  apply (build_tied_is_symmetric Fixtures.disk Sample.single_process
           (Fixtures.local_args "tied" false) (Fixtures.training_args false)).
  - reflexivity.
  - reflexivity.
  - by left.
Defined.

(** X27.  With negatives across devices, in training mode and without
    teacher scores, on an exchange that hands the process one tensor per
    rank, each of the shape of what the process sent: whatever [forward]
    returns is about the whole cluster.  The returned query and passage
    embeddings are the gathered ones (the local rows in the slot of the
    process's rank), and the scores compare every gathered query with
    every gathered passage, divided by the temperature. *)
Theorem forward_training_across_devices
    (self : BiEncoderModel.t) (rt : dist_runtime) (qry psg : token_batch)
    (q p : tensor (list (list R))) (process_rank world_size : nat)
    (out : EncoderOutput) :
  BiEncoderModel.training self = true ->
  BiEncoderModel.negatives_x_device self = true ->
  BiEncoderModel.dist_attrs self = Some (process_rank, world_size) ->
  process_rank < world_size ->
  Shape.exchange_ok world_size (all_gather rt (data q)) (data q) ->
  Shape.exchange_ok world_size (all_gather rt (data p)) (data p) ->
  BiEncoderModel.encode_query self (Some qry) = Ok (Some q) ->
  BiEncoderModel.encode_passage self (Some psg) = Ok (Some p) ->
  0 < length (data q) ->
  BiEncoderModel.forward self rt (Some qry) (Some psg) None = Ok out ->
  q_reps out
  = Some (Tensor (Shape.in_rank_order process_rank
                    (all_gather rt (data q)) (data q))
                 (requires_grad q))
  /\ p_reps out
     = Some (Tensor (Shape.in_rank_order process_rank
                       (all_gather rt (data p)) (data p))
                    (requires_grad p))
  /\ scores out
     = Some (Tensor
               (Nd2 (Shape.scaled_similarity
                       (BiEncoderModel.temperature self)
                       (Shape.in_rank_order process_rank
                          (all_gather rt (data q)) (data q))
                       (Shape.in_rank_order process_rank
                          (all_gather rt (data p)) (data p))))
               (requires_grad q || requires_grad p)).
Proof.
  intros Htrain Hdev Hattrs Hrank Hlq Hlp Hq Hp Hpos.
  unfold BiEncoderModel.forward. rewrite Hq, Hp. cbn [bind].
  rewrite Htrain, Hdev. unfold BiEncoderModel.gather.
  rewrite (dist_gather_slots self rt q process_rank world_size) by done.
  cbn [bind].
  rewrite (dist_gather_slots self rt p process_rank world_size) by done.
  cbn [bind].
  set (gq := Tensor (Shape.in_rank_order process_rank
                       (all_gather rt (data q)) (data q))
                    (requires_grad q)).
  set (gp := Tensor (Shape.in_rank_order process_rank
                       (all_gather rt (data p)) (data p))
                    (requires_grad p)).
  rewrite (compute_similarity_matmul gq gp).
  destruct (Torch.matmul _ _) as [checked|e]; cbn [bind]; [|done].
  rewrite (training_scores self gq gp)
    by (unfold gq; cbn [data]; unfold Shape.in_rank_order;
        rewrite !length_app; lia).
  cbn [bind data requires_grad].
  destruct (BiEncoderModel.implicit_target _ _ _) as [target|e];
    cbn [bind]; [|done].
  destruct (BiEncoderModel.compute_loss _ _ _) as [l|e];
    cbn [bind]; [|done].
  intros [= <-]. by cbn.
Qed.

Lemma forward_training_across_devices_witness :
  exists out,
    BiEncoderModel.forward Cluster.model Cluster.runtime
      (Some (Sample.batch [[1]]%Z [[1]]%Z))
      (Some (Sample.batch [[3]]%Z [[1]]%Z)) None = Ok out
    /\ q_reps out = Some (Tensor [[9; 9]; [1; 1]]%R true)
    /\ p_reps out = Some (Tensor [[9; 9]; [3; 1]]%R true)
    /\ scores out
       = Some (Tensor
                 (Nd2 (Shape.scaled_similarity 1
                         [[9; 9]; [1; 1]]%R [[9; 9]; [3; 1]]%R))
                 (true || true)).
Proof.
  eexists. split; [reflexivity|].
  apply (forward_training_across_devices Cluster.model Cluster.runtime
           (Sample.batch [[1]]%Z [[1]]%Z)
           (Sample.batch [[3]]%Z [[1]]%Z)
           (Tensor [[1; 1]]%R true)
           (Tensor [[3; 1]]%R true) 1 2).
  - reflexivity.
  - reflexivity.
  - reflexivity.
  - lia.
  - split; [reflexivity | by repeat constructor].
  - split; [reflexivity | by repeat constructor].
  - reflexivity.
  - reflexivity.
  - simpl. lia.
  - reflexivity.
Defined.
